(** * Retrieval-and-synthesis pipeline of the "complex documents" notebook

    A shallow embedding of the decision logic of [04-Complex-Docs.ipynb]:
    the download and parsing loops, the ingestion loop that uploads one
    search document per parsed page, the cell that turns search results
    into documents, the token-budget test that picks the synthesis chain,
    and the three notebook cells that select, build and run the chain;
    and, of the two loading notebooks, the indexer status cell and the two
    formatters.  The helpers the notebook imports from [common/utils.py]
    are not among the sources; each is either a parameter of a Section or
    a definition flagged "Modelled from the spec". *)

From Stdlib Require Import ZArith List String Ascii Bool Lia Permutation.
From Stdlib Require Import DecimalString QArith Sorted SpecFloat Zpower.
From Stdlib Require DecimalFacts DecimalPos DecimalN DecimalZ.
Import ListNotations.

Local Open Scope string_scope.
Local Open Scope Z_scope.

(* ===================================================================== *)
(** ** Python values and exceptions *)
(* ===================================================================== *)

Module Py.

(** The exceptions the modelled cells can meet, all of them subclasses of
    [Exception].  [ExternalError] stands for whatever a remote service or a
    library call raises. *)
Inductive exn :=
  | NameError (name : string)
  | OverflowError (msg : string)
  | ExtractionError
  | RetrievalError
  | ExternalError (msg : string).

(** [str(e)] *)
Definition str_exn (e : exn) : string :=
  match e with
  | NameError n => "name '" ++ n ++ "' is not defined"
  | OverflowError m => m
  | ExtractionError => "ExtractionError"
  | RetrievalError => "RetrievalError"
  | ExternalError m => m
  end.

(** [str(n)] for an int *)
Definition str (n : Z) : string := NilZero.string_of_int (Z.to_int n).

(** A computation over a state [S] that returns an [A] or raises; the state
    survives a raise, as the globals of a kernel do. *)
Definition M (S A : Type) : Type := S -> S * (exn + A).

Definition ret {S A} (a : A) : M S A := fun s => (s, inr a).
Definition raise {S A} (e : exn) : M S A := fun s => (s, inl e).
Definition bind {S A B} (m : M S A) (k : A -> M S B) : M S B :=
  fun s => match m s with
           | (s', inr a) => k a s'
           | (s', inl e) => (s', inl e)
           end.
Definition lift {S A} (r : exn + A) : M S A := fun s => (s, r).
Definition modify {S} (f : S -> S) : M S unit := fun s => (f s, inr tt).

(** [try: body  except Exception as e: handler e] *)
Definition try_except {S A} (body : M S A) (handler : exn -> M S A) : M S A :=
  fun s => match body s with
           | (s', inr a) => (s', inr a)
           | (s', inl e) => handler e s'
           end.

(** [for x in xs: body x]; an exception that escapes [body] ends the loop. *)
Fixpoint for_each {S A} (xs : list A) (body : A -> M S unit) : M S unit :=
  match xs with
  | [] => ret tt
  | x :: rest => bind (body x) (fun _ => for_each rest body)
  end.

End Py.

Declare Scope py_scope.
Delimit Scope py_scope with py.
Notation "x <- m ;; k" := (Py.bind m (fun x => k))
  (at level 61, m at next level, right associativity) : py_scope.
Notation "m ;;; k" := (Py.bind m (fun _ => k))
  (at level 61, right associativity) : py_scope.

(* ===================================================================== *)
(** ** Ingestion: pages of a book and the upload loop *)
(* ===================================================================== *)

Module Ingestion.

(** One element of a book map: [(page[0], page[1], page[2])], the
    zero-based position of the page, its character offset, its text. *)
Definition page : Type := Z * Z * string.

Definition page_0 (p : page) : Z := fst (fst p).
Definition page_1 (p : page) : Z := snd (fst p).
Definition page_2 (p : page) : string := snd p.


(** *** The Page Segmenter *)

(** Python's ASCII whitespace: tab, line feed, vertical tab, form feed,
    carriage return, space. *)
Definition is_space (c : ascii) : bool :=
  let n := N_of_ascii c in ((9 <=? n) && (n <=? 13) || (n =? 32))%N.

Fixpoint is_blank (text : string) : bool :=
  match text with
  | EmptyString => true
  | String c rest => is_space c && is_blank rest
  end.

(** Modelled from the spec: the page loop of [parse_pdf] ([common/utils.py],
    not among the sources).  Section 4.1: "produce an ordered sequence of
    PageUnit"; "a page whose extracted text is only whitespace is retained
    as an empty-text PageUnit rather than dropped".  [offset] runs over the
    characters of the units before. *)
Fixpoint segment (position offset : Z) (texts : list string) : list page :=
  match texts with
  | [] => []
  | t :: rest =>
      let text := if is_blank t then "" else t in
      (position, offset, text)
        :: segment (position + 1) (offset + Z.of_nat (String.length text)) rest
  end.

Section Segmenter.

(** A document has physical pages; on each page the local library reads a
    text and the external service reads a text, and the call of the
    service, retries included, may fail for the whole document ([None]:
    it succeeds). *)
Variable File : Type.
Variable Sheet : Type.
Variable physical_pages : File -> list Sheet.
Variable pypdf_text : Sheet -> string.
Variable form_recognizer_text : Sheet -> string.
Variable form_recognizer_call : File -> option Py.exn.

(** A strategy yields a page with text when some page is not blank: a
    text of whitespace only counts as empty, as in the unit that section
    4.1 keeps for such a page ("an empty-text PageUnit"). *)
Definition has_text (texts : list string) : bool :=
  existsb (fun t => negb (is_blank t)) texts.

Definition local_texts (file : File) : list string :=
  map pypdf_text (physical_pages file).

Definition service_texts (file : File) : Py.exn + list string :=
  match form_recognizer_call file with
  | Some e => inl e
  | None => inr (map form_recognizer_text (physical_pages file))
  end.

(** Modelled from the spec: [parse_pdf] of [common/utils.py] is not among
    the sources.  Section 4.1: "two extraction strategies, selected by
    caller configuration"; the segmenter "fails with ExtractionError when
    neither strategy yields any page with non-empty text, or when the
    external service call errors after its retry allowance is exhausted".
    The strategy selected is tried first; when it reads nothing the other
    one is tried (section 2: the external service is invoked "when a
    primary text-extraction path yields degenerate output"); the segmenter
    fails when neither reads a page, or when it calls the service and the
    call fails; otherwise every physical page gives one unit. *)
Definition parse_pdf (file : File) (form_recognizer : bool) : Py.exn + list page :=
  if form_recognizer then
    match service_texts file with
    | inl _ => inl Py.ExtractionError
    | inr remote =>
        if has_text remote then inr (segment 0 0 remote)
        else if has_text (local_texts file) then inr (segment 0 0 (local_texts file))
        else inl Py.ExtractionError
    end
  else
    if has_text (local_texts file) then inr (segment 0 0 (local_texts file))
    else
      match service_texts file with
      | inl _ => inl Py.ExtractionError
      | inr remote =>
          if has_text remote then inr (segment 0 0 remote)
          else inl Py.ExtractionError
      end.

End Segmenter.

(** *** The upload loop *)

(** Base64 with the standard alphabet and padding (RFC 4648). *)
Definition base64_alphabet : string :=
  "ABCDEFGHIJKLMNOPQRSTUVWXYZabcdefghijklmnopqrstuvwxyz0123456789+/".

Definition base64_digit (n : N) : ascii :=
  match String.get (N.to_nat (n mod 64)) base64_alphabet with
  | Some c => c
  | None => "="%char
  end.

Fixpoint base64_encode (bytes : list ascii) : string :=
  match bytes with
  | [] => ""
  | [a] =>
      let n := (N_of_ascii a * 65536)%N in
      String (base64_digit (n / 262144)) (String (base64_digit (n / 4096)) "==")
  | [a; b] =>
      let n := (N_of_ascii a * 65536 + N_of_ascii b * 256)%N in
      String (base64_digit (n / 262144)) (String (base64_digit (n / 4096))
        (String (base64_digit (n / 64)) "="))
  | a :: b :: c :: rest =>
      let n := (N_of_ascii a * 65536 + N_of_ascii b * 256 + N_of_ascii c)%N in
      String (base64_digit (n / 262144)) (String (base64_digit (n / 4096))
        (String (base64_digit (n / 64)) (String (base64_digit n)
          (base64_encode rest))))
  end.

(** The base64 text of the bytes of a string: what a helper named
    [text_to_base64] is expected to compute, used to instantiate it. *)
Definition base64_of_text (text : string) : string :=
  base64_encode (list_ascii_of_string text).

Definition BLOB_CONTAINER_NAME : string := "books".
Definition BASE_CONTAINER_URL : string :=
  "https://demodatasetsp.blob.core.windows.net/" ++ BLOB_CONTAINER_NAME ++ "/".

Section Upload.

(** An embedding vector. *)
Variable Vector : Type.

(** [text_to_base64] of [common/utils.py], which is not among the sources:
    a parameter. *)
Variable text_to_base64 : string -> string.

(** The one document of an upload payload. *)
Record search_document := {
  id : string;
  title : string;
  chunk : string;
  chunkVector : Vector;
  name : string;
  location : string;
  page_num : Z;
  search_action : string
}.

(** [{"value": [ ... ]}] *)
Definition upload_payload : Type := list search_document.

Record response := { status_code : Z; text : string }.

(** What the loop leaves behind: the lines printed, the texts given to the
    embedder, the payloads sent to the index. *)
Record world := {
  printed : list string;
  embedded : list string;
  requests : list upload_payload
}.

(** The embedder and the search service.  Either call can raise
    ([Exception] and its subclasses), and the answer may depend on
    everything that happened before the call, not only on its argument. *)
Variable embed_query : world -> string -> Py.exn + Vector.
Variable post : world -> upload_payload -> Py.exn + response.

Definition print (line : string) : Py.M world unit :=
  Py.modify (fun w =>
    {| printed := (printed w ++ [line])%list; embedded := embedded w;
       requests := requests w |}).

Definition call_embedder (text : string) : Py.M world Vector :=
  fun w =>
    ({| printed := printed w; embedded := (embedded w ++ [text])%list;
        requests := requests w |},
     embed_query w text).

Definition call_post (payload : upload_payload) : Py.M world response :=
  fun w =>
    ({| printed := printed w; embedded := embedded w;
        requests := (requests w ++ [payload])%list |},
     post w payload).

(** [content if content != "" else "-------"] *)
Definition embedder_input (content : string) : string :=
  if String.eqb content "" then "-------" else content.

(** The dictionary the loop builds for one page. *)
Definition build_payload (bookname : string) (p : page) : Py.M world upload_payload :=
  let page_num := page_0 p + 1 in
  let content := page_2 p in
  let book_url := BASE_CONTAINER_URL ++ bookname in
  (vector <- call_embedder (embedder_input content) ;;
   Py.ret
     [ {| id := text_to_base64 (bookname ++ Py.str page_num);
          title := bookname ++ "_page_" ++ Py.str page_num;
          chunk := content;
          chunkVector := vector;
          name := bookname;
          location := book_url;
          page_num := page_num;
          search_action := "upload" |} ])%py.

(** The body of the inner loop: the [try] block and its handler.  The two
    assignments that the handler relies on ([page_num], [content]) come
    before the first call that can raise. *)
Definition upload_page (bookname : string) (p : page) : Py.M world unit :=
  let content := page_2 p in
  Py.try_except
    (payload <- build_payload bookname p ;;
     r <- call_post payload ;;
     if negb (status_code r =? 200)
     then (print (Py.str (status_code r)) ;;; print (text r))
     else Py.ret tt)%py
    (fun e => (print ("Exception: " ++ Py.str_exn e) ;;; print content)%py).

(** [for bookname, bookmap in book_pages_map.items(): ...]; the dictionary
    is read in insertion order. *)
Definition upload_book (book : string * list page) : Py.M world unit :=
  (print ("Uploading chunks from " ++ fst book) ;;;
   Py.for_each (snd book) (upload_page (fst book)))%py.

Definition upload_all (book_pages_map : list (string * list page)) : Py.M world unit :=
  Py.for_each book_pages_map upload_book.

(** *** The outcome of one page, read off the two services' answers *)

Definition document_of (bookname : string) (p : page) (vector : Vector) : search_document :=
  {| id := text_to_base64 (bookname ++ Py.str (page_0 p + 1));
     title := bookname ++ "_page_" ++ Py.str (page_0 p + 1);
     chunk := page_2 p;
     chunkVector := vector;
     name := bookname;
     location := BASE_CONTAINER_URL ++ bookname;
     page_num := page_0 p + 1;
     search_action := "upload" |}.

(** The world once the embedder has been called for the page. *)
Definition embedding (p : page) (w : world) : world :=
  {| printed := printed w; embedded := (embedded w ++ [embedder_input (page_2 p)])%list;
     requests := requests w |}.

(** The payloads that reach the index: one when the embedding succeeded. *)
Definition page_requests (w : world) (bookname : string) (p : page) : list upload_payload :=
  match embed_query w (embedder_input (page_2 p)) with
  | inl _ => []
  | inr vector => [[document_of bookname p vector]]
  end.

(** The lines that report a failure of the page. *)
Definition page_report (w : world) (bookname : string) (p : page) : list string :=
  match embed_query w (embedder_input (page_2 p)) with
  | inl e => ["Exception: " ++ Py.str_exn e; page_2 p]
  | inr vector =>
      match post (embedding p w) [document_of bookname p vector] with
      | inl e => ["Exception: " ++ Py.str_exn e; page_2 p]
      | inr r =>
          if negb (status_code r =? 200) then [Py.str (status_code r); text r]
          else []
      end
  end.

(** A page fails when the embedder or the request raises, or the index
    answers with a status other than 200. *)
Definition page_fails (w : world) (bookname : string) (p : page) : bool :=
  match embed_query w (embedder_input (page_2 p)) with
  | inl _ => true
  | inr vector =>
      match post (embedding p w) [document_of bookname p vector] with
      | inl _ => true
      | inr r => negb (status_code r =? 200)
      end
  end.

(** The world after one page, after the pages of a book, after the books. *)
Definition after_page (bookname : string) (p : page) (w : world) : world :=
  {| printed := (printed w ++ page_report w bookname p)%list;
     embedded := (embedded w ++ [embedder_input (page_2 p)])%list;
     requests := (requests w ++ page_requests w bookname p)%list |}.

Definition after_pages (bookname : string) (pages : list page) (w : world) : world :=
  fold_left (fun w p => after_page bookname p w) pages w.

Definition after_book (book : string * list page) (w : world) : world :=
  after_pages (fst book) (snd book)
    {| printed := (printed w ++ [("Uploading chunks from " ++ fst book)%string])%list;
       embedded := embedded w; requests := requests w |}.

Definition after_books (books : list (string * list page)) (w : world) : world :=
  fold_left (fun w book => after_book book w) books w.

Definition book_inputs (book : string * list page) : list string :=
  map (fun p => embedder_input (page_2 p)) (snd book).

End Upload.

Arguments id {Vector} _.
Arguments title {Vector} _.
Arguments chunk {Vector} _.
Arguments chunkVector {Vector} _.
Arguments name {Vector} _.
Arguments location {Vector} _.
Arguments page_num {Vector} _.
Arguments search_action {Vector} _.
Arguments printed {Vector} _.
Arguments embedded {Vector} _.
Arguments requests {Vector} _.

(** *** Instances of the parameters, for examples *)

Definition example_embedder (_ : world nat) (text : string) : Py.exn + nat :=
  if String.eqb text "boom" then inl (Py.ExternalError "rate limit")
  else inr (String.length text).

Definition example_index (_ : world nat) (payload : upload_payload nat) : Py.exn + response :=
  match payload with
  | [d] => if page_num d =? 2 then inr {| status_code := 400; text := "bad request" |}
           else inr {| status_code := 200; text := "" |}
  | _ => inl (Py.ExternalError "malformed")
  end.

Definition empty_world : world nat := {| printed := []; embedded := []; requests := [] |}.

End Ingestion.

(* ===================================================================== *)
(** ** Binary64 arithmetic, as far as [0.9 * tokens_limit] needs it *)
(* ===================================================================== *)

Module Float.

(** Python's [float] is IEEE 754 binary64: 53 bits of precision, exponents
    up to 1024, in the Standard Library's specification of the format. *)
Definition prec : Z := 53.
Definition emax : Z := 1024.

(** [float(n)]: the nearest double; ints too large for one raise. *)
Definition float_of_int (n : Z) : Py.exn + spec_float :=
  match binary_normalize prec emax n 0 false with
  | S754_infinity _ => inl (Py.OverflowError "int too large to convert to float")
  | f => inr f
  end.

(** The product of two doubles, correctly rounded. *)
Definition float_mul (x y : spec_float) : spec_float := SFmul prec emax x y.

(** The literal [0.9]: the double nearest to nine tenths,
    [0x1.ccccccccccccdp-1]. *)
Definition float_0_9 : spec_float := S754_finite false 8106479329266893 (-53).

(** [n > f] for an int [n] and a double [f]; Python compares the two
    exactly, without converting [n]. *)
Definition int_gt_float (n : Z) (f : spec_float) : bool :=
  match f with
  | S754_zero _ => 0 <? n
  | S754_infinity negative => negative
  | S754_nan => false
  | S754_finite negative m e =>
      let mant := if negative then Zneg m else Zpos m in
      if 0 <=? e then mant * 2 ^ e <? n else mant <? n * 2 ^ (- e)
  end.

(** *** Auxiliary: rounding on integers, to state what the operations do *)

(** [m / 2^s] rounded to the nearest integer, ties to even ([0 <= s]). *)
Definition round_half_even (m s : Z) : Z :=
  let q := m / 2 ^ s in
  let r := m mod 2 ^ s in
  if 2 * r <? 2 ^ s then q
  else if 2 ^ s <? 2 * r then q + 1
  else if Z.even q then q else q + 1.

(** The mantissa of the literal [0.9]. *)
Definition nine_tenths : Z := 8106479329266893.

End Float.

(* ===================================================================== *)
(** ** Token accounting and the choice of the synthesis chain *)
(* ===================================================================== *)

(** [langchain.docstore.document.Document], as the notebook builds it:
    the chunk and the source location. *)
Record Document := { page_content : string; source : string }.

Module Selector.
Import Float.

Section TokenAccountant.

(** [num_tokens_from_string] of [common/utils.py]: the tokenizer's count
    for one text.  The function is not among the sources; it is a
    parameter here. *)
Variable num_tokens_from_string : string -> Z.

(** Modelled from the spec: [num_tokens_from_docs] of [common/utils.py] is
    not among the sources.  Section 4.2: "countTokens(collectionOfDocuments,
    modelName) -> integer (sum over documents, each counted
    independently, order-independent)". *)
Fixpoint num_tokens_from_docs (docs : list Document) : Z :=
  match docs with
  | [] => 0
  | d :: rest => num_tokens_from_string (page_content d) + num_tokens_from_docs rest
  end.

End TokenAccountant.

(** [COMPLETION_TOKENS = 1000] and [MODEL = "gpt-35-turbo-16k"] *)
Definition COMPLETION_TOKENS : Z := 1000.
Definition MODEL : string := "gpt-35-turbo-16k".

(** [requested_tokens = prompt_tokens + context_tokens + COMPLETION_TOKENS] *)
Definition requested_tokens (prompt_tokens context_tokens completion_tokens : Z) : Z :=
  prompt_tokens + context_tokens + completion_tokens.

(** ["map_reduce" if requested_tokens > 0.9 * tokens_limit else "stuff"];
    the product converts [tokens_limit] to a double first. *)
Definition chain_type (requested_tokens tokens_limit : Z) : Py.exn + string :=
  match float_of_int tokens_limit with
  | inl e => inl e
  | inr limit =>
      inr (if int_gt_float requested_tokens (float_mul float_0_9 limit)
           then "map_reduce" else "stuff")
  end.

(** The chain [load_qa_with_sources_chain] returns for a chain type. *)
Inductive qa_chain := StuffChain | MapReduceChain.

(** One request to the completion service, by the documents or partial
    answers its prompt carries. *)
Inductive llm_call :=
  | StuffCall (docs : list Document)
  | MapCall (doc : Document)
  | ReduceCall (partials : list string).

(** The globals the three cells read and write ([None]: the name is not
    bound), what they printed, and the requests the completion service
    received. *)
Record kernel := {
  g_top_docs : list Document;
  g_chain_type : option string;
  g_chain : option qa_chain;
  g_response : option string;
  stdout : list string;
  completions : list llm_call
}.

Definition print (line : string) : Py.M kernel unit :=
  Py.modify (fun k =>
    {| g_top_docs := g_top_docs k; g_chain_type := g_chain_type k;
       g_chain := g_chain k; g_response := g_response k;
       stdout := (stdout k ++ [line])%list; completions := completions k |}).

Definition set_chain_type (v : string) : Py.M kernel unit :=
  Py.modify (fun k =>
    {| g_top_docs := g_top_docs k; g_chain_type := Some v;
       g_chain := g_chain k; g_response := g_response k;
       stdout := stdout k; completions := completions k |}).

Definition set_chain (v : qa_chain) : Py.M kernel unit :=
  Py.modify (fun k =>
    {| g_top_docs := g_top_docs k; g_chain_type := g_chain_type k;
       g_chain := Some v; g_response := g_response k;
       stdout := stdout k; completions := completions k |}).

Definition set_response (v : string) : Py.M kernel unit :=
  Py.modify (fun k =>
    {| g_top_docs := g_top_docs k; g_chain_type := g_chain_type k;
       g_chain := g_chain k; g_response := Some v;
       stdout := stdout k; completions := completions k |}).

(** Reading a global raises [NameError] when the name is unbound. *)
Definition read {A} (name : string) (field : kernel -> option A) : Py.M kernel A :=
  fun k => match field k with
           | Some v => (k, inr v)
           | None => (k, inl (Py.NameError name))
           end.

Section Cells.

Variable num_tokens_from_string : string -> Z.
(** [model_tokens_limit] of [common/utils.py] (a static table; it raises
    for a model it does not know) and the prompt of [common/prompts.py]. *)
Variable model_tokens_limit : string -> Py.exn + Z.
Variable COMBINE_PROMPT_TEMPLATE : string.
(** The completion service behind [llm]: the text it returns for a
    request, or the error it raises; the answer may depend on what the
    kernel has done so far. *)
Variable completion : kernel -> llm_call -> Py.exn + string.

(** The cell "Calculate number of tokens of our docs". *)
Definition select_cell : Py.M kernel unit :=
  fun k =>
    (if 0 <? Z.of_nat (List.length (g_top_docs k)) then
       (tokens_limit <- Py.lift (model_tokens_limit MODEL) ;;
        let prompt_tokens := num_tokens_from_string COMBINE_PROMPT_TEMPLATE in
        let context_tokens := num_tokens_from_docs num_tokens_from_string (g_top_docs k) in
        let requested := requested_tokens prompt_tokens context_tokens COMPLETION_TOKENS in
        ct <- Py.lift (chain_type requested tokens_limit) ;;
        set_chain_type ct ;;;
        print ("System prompt token count: " ++ Py.str prompt_tokens) ;;;
        print ("Max Completion Token count: " ++ Py.str COMPLETION_TOKENS) ;;;
        print ("Combined docs (context) token count: " ++ Py.str context_tokens) ;;;
        print "--------" ;;;
        print ("Requested token count: " ++ Py.str requested) ;;;
        print ("Token limit for " ++ MODEL ++ " : " ++ Py.str tokens_limit) ;;;
        print ("Chain Type selected: " ++ ct))%py
     else
       print "NO RESULTS FROM AZURE SEARCH") k.

(** The cell that builds the chain:
    [if chain_type == "stuff": ... elif chain_type == "map_reduce": ...]. *)
Definition build_cell : Py.M kernel unit :=
  (ct <- read "chain_type" g_chain_type ;;
   if String.eqb ct "stuff" then set_chain StuffChain
   else if String.eqb ct "map_reduce" then set_chain MapReduceChain
   else Py.ret tt)%py.

Definition call_llm (c : llm_call) : Py.M kernel string :=
  fun k =>
    ({| g_top_docs := g_top_docs k; g_chain_type := g_chain_type k;
        g_chain := g_chain k; g_response := g_response k;
        stdout := stdout k; completions := (completions k ++ [c])%list |},
     completion k c).

Fixpoint map_phase (docs : list Document) : Py.M kernel (list string) :=
  match docs with
  | [] => Py.ret []
  | d :: rest =>
      (a <- call_llm (MapCall d) ;;
       others <- map_phase rest ;;
       Py.ret (a :: others))%py
  end.

(** What running one of langchain's chains on documents asks of the
    completion service, as section 4.4 of the spec describes the two
    strategies: one request with every document for "stuff"; one request
    per document and then one over the partial answers for "map_reduce". *)
Definition run_chain (c : qa_chain) (docs : list Document) : Py.M kernel string :=
  match c with
  | StuffChain => call_llm (StuffCall docs)
  | MapReduceChain =>
      (partials <- map_phase docs ;; call_llm (ReduceCall partials))%py
  end.

(** The cell [response = chain({"input_documents": top_docs, ...})]. *)
Definition run_cell : Py.M kernel unit :=
  (c <- read "chain" g_chain ;;
   fun k => (out <- run_chain c (g_top_docs k) ;; set_response out)%py k)%py.

(** The three cells run in order; a cell that raises stops the run. *)
Definition answer_cells : Py.M kernel unit :=
  (select_cell ;;; build_cell ;;; run_cell)%py.

End Cells.

(** A kernel in which only [top_docs] is bound. *)
Definition fresh_kernel (top_docs : list Document) : kernel :=
  {| g_top_docs := top_docs; g_chain_type := None; g_chain := None;
     g_response := None; stdout := []; completions := [] |}.

(** The same kernel with a new [top_docs]: what re-running the retrieval
    cells for another question leaves behind. *)
Definition with_top_docs (k : kernel) (top_docs : list Document) : kernel :=
  {| g_top_docs := top_docs; g_chain_type := g_chain_type k; g_chain := g_chain k;
     g_response := g_response k; stdout := stdout k; completions := completions k |}.

(** A computation that ends normally and leaves the chain type, the
    documents and the completion log as they were. *)
Definition quiet (m : Py.M kernel unit) : Prop :=
  forall k, exists k',
    m k = (k', inr tt) /\ g_chain_type k' = g_chain_type k /\
    g_top_docs k' = g_top_docs k /\ completions k' = completions k.

(** *** Instances of the parameters, for examples *)

Definition example_tokenizer (text : string) : Z := Z.of_nat (String.length text).

Definition example_table (model : string) : Py.exn + Z :=
  if String.eqb model "gpt-35-turbo-16k" then inr 16384
  else inl (Py.ExternalError "unknown model").

Definition example_doc : Document :=
  {| page_content := "a page about vector indexes"; source := "books/a.pdf" |}.

Definition example_completion (_ : kernel) (_ : llm_call) : Py.exn + string :=
  inr "an answer".

End Selector.

(* ===================================================================== *)
(** ** Result fusion *)
(* ===================================================================== *)

Module Fusion.

(** One hit of one backend query (section 3, SearchHit). *)
Record SearchHit := {
  index_name : string;
  document_id : string;
  hit_content : string;
  hit_title : string;
  hit_location : string;
  relevance_score : Q;
  semantic_rerank_score : option Q
}.

(** A hit after the merge (section 3, FusedCandidate). *)
Record FusedCandidate := {
  content : string;
  location : string;
  ordering_score : Q
}.

(** Descending order of the ordering score. *)
Definition score_ge (a b : FusedCandidate) : Prop :=
  (ordering_score b <= ordering_score a)%Q.

(** Two candidates are duplicates when "content is identical or ... source
    location is identical". *)
Definition duplicate (a b : FusedCandidate) : bool :=
  String.eqb (content a) (content b) || String.eqb (location a) (location b).

(** Stable insertion into a list in descending order: [c] goes before the
    first candidate that does not score higher. *)
Fixpoint insert_desc (c : FusedCandidate) (l : list FusedCandidate) : list FusedCandidate :=
  match l with
  | [] => [c]
  | y :: rest =>
      if Qle_bool (ordering_score y) (ordering_score c) then c :: y :: rest
      else y :: insert_desc c rest
  end.

Definition sort_desc (l : list FusedCandidate) : list FusedCandidate :=
  fold_right insert_desc [] l.

(** Of duplicates the first, which scores highest in a sorted list, stays. *)
Fixpoint dedup (kept l : list FusedCandidate) : list FusedCandidate :=
  match l with
  | [] => []
  | c :: rest =>
      if existsb (duplicate c) kept then dedup kept rest
      else c :: dedup (c :: kept) rest
  end.

Section Fuse.

(** The retrieval call of step 1: "lexical, vector-similarity, or both if
    both a text query and a precomputed query vector are supplied". *)
Variable QueryVector : Type.

Inductive retrieval :=
  | Lexical (text : string)
  | VectorSimilarity (vector : QueryVector)
  | Hybrid (text : string) (vector : QueryVector).

Definition retrieval_of (query : string) (vectorQuery : option QueryVector)
    (textQuery : option string) : retrieval :=
  match textQuery, vectorQuery with
  | Some t, Some v => Hybrid t v
  | None, Some v => VectorSimilarity v
  | Some t, None => Lexical t
  | None, None => Lexical query
  end.

(** The search backend: the ranked hits of one index for a call and a
    count, or the error of a failed query. *)
Variable search_backend : string -> retrieval -> nat -> Py.exn + list SearchHit.

(** The surrogate score of a hit that comes without a reranker score,
    from its rank in its index ("preserving the index's internal rank
    order"). *)
Variable surrogate_score : nat -> Q.

Definition candidate_of (rank : nat) (h : SearchHit) : FusedCandidate :=
  {| content := hit_content h;
     location := hit_location h;
     ordering_score :=
       match semantic_rerank_score h with
       | Some s => s
       | None => surrogate_score rank
       end |}.

Fixpoint candidates_from (rank : nat) (hits : list SearchHit) : list FusedCandidate :=
  match hits with
  | [] => []
  | h :: rest => candidate_of rank h :: candidates_from (S rank) rest
  end.

(** Step 1 for one index: [None] for a failed query, else up to [k] hits. *)
Definition query_index (call : retrieval) (k : nat) (index : string)
    : option (list SearchHit) :=
  match search_backend index call k with
  | inl _ => None
  | inr hits => Some (firstn k hits)
  end.

(** Step 2: the hit lists that arrived, merged in the order of the
    indexes. *)
Fixpoint merge (results : list (option (list SearchHit))) : list FusedCandidate :=
  match results with
  | [] => []
  | None :: rest => merge rest
  | Some hits :: rest => (candidates_from 0 hits ++ merge rest)%list
  end.

Definition all_failed (results : list (option (list SearchHit))) : bool :=
  forallb (fun r => match r with None => true | Some _ => false end) results.

(** Step 3: a candidate below the threshold is dropped. *)
Definition above_threshold (rerankerThreshold : Q) (c : FusedCandidate) : bool :=
  Qle_bool rerankerThreshold (ordering_score c).

(** Modelled from the spec: [get_search_results] of [common/utils.py] is
    not among the sources.  Section 4.3: query every index (a failed query
    is left out, all failed is a [RetrievalError]), merge, drop what is
    below [rerankerThreshold], deduplicate keeping the higher score,
    truncate to [k] in descending order with ties in retrieval order. *)
Definition fuse (query : string) (indexNames : list string) (k : nat)
    (vectorQuery : option QueryVector) (textQuery : option string)
    (rerankerThreshold : Q) : Py.exn + list FusedCandidate :=
  let call := retrieval_of query vectorQuery textQuery in
  let results := map (query_index call k) indexNames in
  if all_failed results then inl Py.RetrievalError
  else
    let merged := merge results in
    let kept := filter (above_threshold rerankerThreshold) merged in
    inr (firstn k (dedup [] (sort_desc kept))).

End Fuse.

Arguments Lexical {QueryVector} _.
Arguments VectorSimilarity {QueryVector} _.
Arguments Hybrid {QueryVector} _ _.

(** [l1] is [l2] with some elements left out. *)
Inductive subseq {A : Type} : list A -> list A -> Prop :=
  | subseq_nil : subseq [] []
  | subseq_skip x l1 l2 : subseq l1 l2 -> subseq l1 (x :: l2)
  | subseq_keep x l1 l2 : subseq l1 l2 -> subseq (x :: l1) (x :: l2).

End Fusion.

(* ===================================================================== *)
(** ** Lists, dictionaries and slices of the other cells *)
(* ===================================================================== *)

Module Builtins.

(** The line feed of ["\n"] and the double quote of an HTML attribute. *)
Definition nl : string := String (ascii_of_nat 10) "".
Definition dquote : string := String (ascii_of_nat 34) "".

(** A text is held as its UTF-8 bytes, a character (code point) as one
    byte that starts it and the bytes [10xxxxxx] that continue it. *)
Definition is_continuation (c : ascii) : bool :=
  let n := N_of_ascii c in ((128 <=? n) && (n <? 192))%N.

(** [len(text)]: the number of characters. *)
Fixpoint len (text : string) : nat :=
  match text with
  | EmptyString => O
  | String c rest => if is_continuation c then len rest else S (len rest)
  end.

(** [text[:n]] for a literal [n >= 0]: the first [n] characters, each with
    all its bytes, the whole text when it is shorter. *)
Fixpoint slice_to (n : nat) (text : string) : string :=
  match text with
  | EmptyString => EmptyString
  | String c rest =>
      if is_continuation c then String c (slice_to n rest)
      else
        match n with
        | O => EmptyString
        | S m => String c (slice_to m rest)
        end
  end.

(** The text does not begin in the middle of a character. *)
Definition starts_character (text : string) : bool :=
  match text with
  | EmptyString => true
  | String c _ => negb (is_continuation c)
  end.

(** What indexing and attribute look-up raise, besides what the cells of
    [Py] can meet. *)
Inductive error :=
  | IndexError (msg : string)
  | AttributeError (msg : string)
  | Raised (e : Py.exn).

(** [l[i]] for a list: a negative index counts from the end, an index out
    of range raises. *)
Definition getitem {A} (l : list A) (i : Z) : error + A :=
  let j := if i <? 0 then i + Z.of_nat (List.length l) else i in
  if j <? 0 then inl (IndexError "list index out of range")
  else match nth_error l (Z.to_nat j) with
       | Some x => inr x
       | None => inl (IndexError "list index out of range")
       end.

(** A [dict] with string keys, in insertion order. *)
Definition dict (V : Type) : Type := list (string * V).

(** [d.get(key)] *)
Fixpoint dict_get {V} (key : string) (d : dict V) : option V :=
  match d with
  | [] => None
  | (k, v) :: rest => if String.eqb k key then Some v else dict_get key rest
  end.

(** [d[key] = value]: a key already there keeps its place and gets the new
    value, a new key goes to the end. *)
Fixpoint dict_set {V} (key : string) (value : V) (d : dict V) : dict V :=
  match d with
  | [] => [(key, value)]
  | (k, v) :: rest =>
      if String.eqb k key then (k, value) :: rest
      else (k, v) :: dict_set key value rest
  end.

(** A computation over a state [S] that returns an [A] or raises an
    [error]. *)
Definition M (S A : Type) : Type := S -> S * (error + A).

Definition ret {S A} (a : A) : M S A := fun s => (s, inr a).
Definition bind {S A B} (m : M S A) (k : A -> M S B) : M S B :=
  fun s => match m s with
           | (s', inr a) => k a s'
           | (s', inl e) => (s', inl e)
           end.
Definition lift {S A} (r : error + A) : M S A := fun s => (s, r).

(** A call that raises a [Py.exn]. *)
Definition lift_py {S A} (r : Py.exn + A) : M S A :=
  fun s => (s, match r with inl e => inl (Raised e) | inr a => inr a end).

Fixpoint for_each {S A} (xs : list A) (body : A -> M S unit) : M S unit :=
  match xs with
  | [] => ret tt
  | x :: rest => bind (body x) (fun _ => for_each rest body)
  end.

(** The ASCII digits. *)
Definition is_digit (c : ascii) : bool :=
  let n := N_of_ascii c in ((48 <=? n) && (n <=? 57))%N.

Fixpoint all_digits (s : string) : bool :=
  match s with
  | EmptyString => true
  | String c rest => is_digit c && all_digits rest
  end.

(** The last character of the text is a digit. *)
Fixpoint ends_with_digit (s : string) : bool :=
  match s with
  | EmptyString => false
  | String c EmptyString => is_digit c
  | String _ rest => ends_with_digit rest
  end.

End Builtins.

Declare Scope cell_scope.
Delimit Scope cell_scope with cell.
Notation "x <- m ;; k" := (Builtins.bind m (fun x => k))
  (at level 61, m at next level, right associativity) : cell_scope.
Notation "m ;;; k" := (Builtins.bind m (fun _ => k))
  (at level 61, right associativity) : cell_scope.

(* ===================================================================== *)
(** ** The books: download, parsing, and the look at a random page *)
(* ===================================================================== *)

Module Books.
Import Ingestion Builtins.

Definition LOCAL_FOLDER : string := "./data/books/".

Definition books : list string :=
  [ "Azure_Cognitive_Search_Documentation.pdf";
    "Boundaries_When_to_Say_Yes_How_to_Say_No_to_Take_Control_of_Your_Life.pdf";
    "Fundamentals_of_Physics_Textbook.pdf";
    "Made_To_Stick.pdf";
    "Pere_Riche_Pere_Pauvre.pdf" ].

(** *** The download loop *)

Section Download.

(** [os.environ['BLOB_SAS_TOKEN']], set by the credentials file the first
    cell loads. *)
Variable BLOB_SAS_TOKEN : string.

(** [urllib.request.urlretrieve(url, filename)]; the state of the loop is
    the list of the calls made so far, and the call may raise. *)
Variable urlretrieve : list (string * string) -> string -> string -> Py.exn + unit.

(** The address a book is fetched from. *)
Definition download_url (book : string) : string :=
  BASE_CONTAINER_URL ++ book ++ BLOB_SAS_TOKEN.

Definition call_urlretrieve (url filename : string) : Py.M (list (string * string)) unit :=
  fun calls => ((calls ++ [(url, filename)])%list, urlretrieve calls url filename).

(** [for book in tqdm(books): ...] *)
Definition download_cell (books : list string) : Py.M (list (string * string)) unit :=
  Py.for_each books (fun book =>
    let book_url := download_url book in
    call_urlretrieve book_url (LOCAL_FOLDER ++ book)).

End Download.

(** *** The parsing loop and the second parse of one book *)

(** The global [book_pages_map] ([None]: not bound yet), the lines on the
    console, and the calls of [parse_pdf] so far with their [file] and
    [form_recognizer] arguments. *)
Record library := {
  book_pages_map : option (dict (list page));
  console : list string;
  parse_calls : list (string * bool)
}.

Section Parsing.

(** [parse_pdf] of [common/utils.py], which is not among the sources: a
    parameter.  With [verbose=True] it prints; it returns the book map or
    raises, and both may depend on everything that happened before. *)
Variable parse_pdf : library -> string -> bool -> list string * (Py.exn + list page).

(** The text of [f"{elapsed_time:.6f}"], read off the clock. *)
Variable elapsed_time : library -> string.

Definition print (line : string) : Py.M library unit :=
  Py.modify (fun s =>
    {| book_pages_map := book_pages_map s; console := (console s ++ [line])%list;
       parse_calls := parse_calls s |}).

Definition set_book_pages_map (m : dict (list page)) : Py.M library unit :=
  Py.modify (fun s =>
    {| book_pages_map := Some m; console := console s; parse_calls := parse_calls s |}).

Definition read_book_pages_map : Py.M library (dict (list page)) :=
  fun s => match book_pages_map s with
           | Some m => (s, inr m)
           | None => (s, inl (Py.NameError "book_pages_map"))
           end.

Definition call_parse_pdf (file : string) (form_recognizer : bool) : Py.M library (list page) :=
  fun s =>
    ({| book_pages_map := book_pages_map s;
        console := (console s ++ fst (parse_pdf s file form_recognizer))%list;
        parse_calls := (parse_calls s ++ [(file, form_recognizer)])%list |},
     snd (parse_pdf s file form_recognizer)).

Definition clock : Py.M library string := fun s => (s, inr (elapsed_time s)).

(** The body of [for book in books:]. *)
Definition parse_book (book : string) : Py.M library unit :=
  (print ("Extracting Text from " ++ book ++ " ...") ;;;
   let book_path := LOCAL_FOLDER ++ book in
   book_map <- call_parse_pdf book_path false ;;
   m <- read_book_pages_map ;;
   set_book_pages_map (dict_set book book_map m) ;;;
   elapsed <- clock ;;
   print ("Parsing took: " ++ elapsed ++ " seconds") ;;;
   print (book ++ " contained " ++ Py.str (Z.of_nat (List.length book_map))
          ++ " pages" ++ nl))%py.

(** [book_pages_map = dict()] and the loop. *)
Definition parse_cell (books : list string) : Py.M library unit :=
  (set_book_pages_map [] ;;; Py.for_each books parse_book)%py.

(** The cell that parses one book again with the external service and
    stores the new book map under the same key. *)
Definition reparse_cell : Py.M library unit :=
  let book := "Pere_Riche_Pere_Pauvre.pdf" in
  let book_path := LOCAL_FOLDER ++ book in
  (book_map <- call_parse_pdf book_path true ;;
   m <- read_book_pages_map ;;
   set_book_pages_map (dict_set book book_map m))%py.

End Parsing.

(** *** The look at a random page of every book *)

(** The console and the number of random draws made so far. *)
Record sampler := { shown : list string; draws : nat }.

Section Sample.

(** The generator behind [random]: the raw value of the n-th draw. *)
Variable random_source : nat -> Z.

(** [random.randint(a, b)]: an integer [N] with [a <= N <= b]. *)
Definition randint (a b : Z) : M sampler Z :=
  fun s => ({| shown := shown s; draws := S (draws s) |},
            inr (a + random_source (draws s) mod (b - a + 1))).

Definition show (line : string) : M sampler unit :=
  fun s => ({| shown := (shown s ++ [line])%list; draws := draws s |}, inr tt).

(** The line [print(bookname, "\n", "chunk text:", text, "...\n")] writes,
    its arguments joined by spaces. *)
Definition sample_line (bookname text : string) : string :=
  bookname ++ " " ++ nl ++ " " ++ "chunk text:" ++ " " ++ text ++ " " ++ "..." ++ nl.

(** [print(bookname, "\n", "chunk text:",
          bookmap[random.randint(10, 50)][2][:80], "...\n")] *)
Definition sample_page (bookname : string) (bookmap : list page) : M sampler unit :=
  (i <- randint 10 50 ;;
   p <- lift (getitem bookmap i) ;;
   show (sample_line bookname (slice_to 80 (page_2 p))))%cell.

(** [for bookname, bookmap in book_pages_map.items(): ...] *)
Definition sample_cell (book_pages_map : dict (list page)) : M sampler unit :=
  for_each book_pages_map (fun item => sample_page (fst item) (snd item)).

End Sample.

End Books.

(* ===================================================================== *)
(** ** The documents handed to the chain *)
(* ===================================================================== *)

Module Retrieval.
Import Selector.

(** One value of [ordered_results], by the two keys the cell reads:
    ["chunk"], and ["location"], which may be [None]. *)
Record search_result := {
  result_chunk : string;
  result_location : option string
}.

Section TopDocs.

Variable BLOB_SAS_TOKEN : string.

Definition set_top_docs (v : list Document) : Py.M kernel unit :=
  Py.modify (fun k =>
    {| g_top_docs := v; g_chain_type := g_chain_type k;
       g_chain := g_chain k; g_response := g_response k;
       stdout := stdout k; completions := completions k |}).

(** [Document(page_content=value["chunk"],
              metadata={"source": location + os.environ['BLOB_SAS_TOKEN']})]
    with [location = value["location"] if value["location"] is not None
    else ""]. *)
Definition document_of_result (value : search_result) : Document :=
  let location :=
    match result_location value with
    | Some l => l
    | None => ""
    end in
  {| page_content := result_chunk value; source := location ++ BLOB_SAS_TOKEN |}.

(** [top_docs.append(d)] *)
Definition append_top_doc (d : Document) : Py.M kernel unit :=
  fun k => set_top_docs (g_top_docs k ++ [d])%list k.

(** The cell that turns the search results into [top_docs]. *)
Definition top_docs_cell (ordered_results : list (string * search_result))
    : Py.M kernel unit :=
  (set_top_docs [] ;;;
   Py.for_each ordered_results
     (fun item => append_top_doc (document_of_result (snd item))) ;;;
   fun k =>
     print ("Number of chunks: " ++ Py.str (Z.of_nat (List.length (g_top_docs k)))) k)%py.

End TopDocs.

(** A computation that ends normally and only writes to the console. *)
Definition prints_only (m : Py.M kernel unit) : Prop :=
  forall k, exists lines,
    m k = ({| g_top_docs := g_top_docs k; g_chain_type := g_chain_type k;
              g_chain := g_chain k; g_response := g_response k;
              stdout := (stdout k ++ lines)%list; completions := completions k |},
           inr tt).

End Retrieval.

(* ===================================================================== *)
(** ** The indexer status cell of the two loading notebooks *)
(* ===================================================================== *)

Module Indexer.
Import Builtins.

(** What [r.json()] returns.  The type is only ever taken apart by cases,
    so no induction scheme is asked for. *)
Unset Elimination Schemes.
Inductive json :=
  | JNull
  | JBool (b : bool)
  | JInt (n : Z)
  | JFloat (f : spec_float)
  | JString (s : string)
  | JArray (items : list json)
  | JObject (fields : list (string * json)).
Set Elimination Schemes.

(** [type(v).__name__] *)
Definition type_name (v : json) : string :=
  match v with
  | JNull => "NoneType"
  | JBool _ => "bool"
  | JInt _ => "int"
  | JFloat _ => "float"
  | JString _ => "str"
  | JArray _ => "list"
  | JObject _ => "dict"
  end.

(** [v.get(key)]: the value under the key or [None] for a dict; no other
    JSON value has the method. *)
Definition get (v : json) (key : string) : error + json :=
  match v with
  | JObject fields =>
      inr (match dict_get key fields with
           | Some x => x
           | None => JNull
           end)
  | _ => inl (AttributeError ("'" ++ type_name v ++ "' object has no attribute 'get'"))
  end.

(** The response of the search service: [r.status_code], [r.ok], and
    [r.json()], which raises when the body is not JSON. *)
Record response := {
  status_code : Z;
  ok : bool;
  json_body : Py.exn + json
}.

(** One argument of a [print] call. *)
Inductive printed_value :=
  | Text (s : string)
  | Value (v : json)
  | Number (n : Z)
  | Truth (b : bool).

(** The lines printed, each by its arguments, and the addresses
    requested. *)
Record session := {
  lines : list (list printed_value);
  requested : list string
}.

Section Status.

(** [os.environ['AZURE_SEARCH_ENDPOINT']] *)
Variable AZURE_SEARCH_ENDPOINT : string.

(** [requests.get(url, headers=headers, params=params)] *)
Variable requests_get : session -> string -> Py.exn + response.

Definition print (args : list printed_value) : M session unit :=
  fun s => ({| lines := (lines s ++ [args])%list; requested := requested s |}, inr tt).

Definition call_get (url : string) : M session response :=
  fun s => ({| lines := lines s; requested := (requested s ++ [url])%list |},
            match requests_get s url with
            | inl e => inl (Raised e)
            | inr r => inr r
            end).

Definition status_url (indexer_name : string) : string :=
  AZURE_SEARCH_ENDPOINT ++ "/indexers/" ++ indexer_name ++ "/status".

(** [r.json().get('lastResult').get(key)] *)
Definition last_result (r : response) (key : string) : M session json :=
  (body <- lift_py (json_body r) ;;
   result <- lift (get body "lastResult") ;;
   lift (get result key))%cell.

(** The cell "Optionally, get indexer status to confirm that it's
    running". *)
Definition status_cell (indexer_name : string) : M session unit :=
  (r <- call_get (status_url indexer_name) ;;
   print [Number (status_code r)] ;;;
   status <- last_result r "status" ;;
   print [Text "Status:"; Value status] ;;;
   items <- last_result r "itemsProcessed" ;;
   print [Text "Items Processed:"; Value items] ;;;
   print [Truth (ok r)])%cell.

End Status.

End Indexer.

(* ===================================================================== *)
(** ** The two formatters of the CSV notebook *)
(* ===================================================================== *)

Module Formatters.
Import Builtins.

(** ['<a href="{0}">{0}</a>'.format(address)] for a string. *)
Definition make_clickable (address : string) : string :=
  "<a href=" ++ dquote ++ address ++ dquote ++ ">" ++ address ++ "</a>".

(** [text[:30] + '...'] *)
Definition preview (text : string) : string := slice_to 30 text ++ "...".

End Formatters.

(* ===================================================================== *)
(** ** Facts about loops and binary64 *)
(* ===================================================================== *)

Module PyFacts.

(** A loop whose body never raises runs it on every element. *)
Lemma for_each_total {S A} (body : A -> Py.M S unit) (step : A -> S -> S) :
  (forall x s, body x s = (step x s, inr tt)) ->
  forall xs s,
    Py.for_each xs body s = (fold_left (fun s x => step x s) xs s, inr tt).
Proof.
  intros Hbody xs. induction xs as [|x xs IH]; intros s.
  - reflexivity.
  - simpl. unfold Py.bind. rewrite Hbody. apply IH.
Qed.

(** Leaving elements out goes through concatenation and [map]. *)
Lemma subseq_app {A} (l1 l2 m1 m2 : list A) :
  Fusion.subseq l1 l2 -> Fusion.subseq m1 m2 -> Fusion.subseq (l1 ++ m1)%list (l2 ++ m2)%list.
Proof.
  intros H1 H2. induction H1; cbn [app]; [exact H2 | |];
    constructor; exact IHsubseq.
Qed.

Lemma subseq_map {A B} (f : A -> B) (l1 l2 : list A) :
  Fusion.subseq l1 l2 -> Fusion.subseq (map f l1) (map f l2).
Proof. intros H. induction H; cbn [map]; constructor; assumption. Qed.

End PyFacts.

Module FloatFacts.
Import Float.

(** *** The number of binary digits *)

Lemma digits2_pos_bounds (p : positive) :
  2 ^ (Zpos (digits2_pos p) - 1) <= Zpos p < 2 ^ Zpos (digits2_pos p).
Proof.
  induction p as [p IH | p IH |].
  - cbn [digits2_pos]. rewrite Pos2Z.inj_succ.
    replace (Z.succ (Zpos (digits2_pos p)) - 1) with (Z.succ (Zpos (digits2_pos p) - 1)) by lia.
    rewrite !Z.pow_succ_r by lia. lia.
  - cbn [digits2_pos]. rewrite Pos2Z.inj_succ.
    replace (Z.succ (Zpos (digits2_pos p)) - 1) with (Z.succ (Zpos (digits2_pos p) - 1)) by lia.
    rewrite !Z.pow_succ_r by lia. lia.
  - simpl. lia.
Qed.

Lemma digits2_pos_unique (p : positive) (d : Z) :
  2 ^ (d - 1) <= Zpos p < 2 ^ d -> Zpos (digits2_pos p) = d.
Proof.
  intros [Hlo Hhi]. pose proof (digits2_pos_bounds p) as [Hlo' Hhi'].
  set (d' := Zpos (digits2_pos p)) in *.
  assert (0 < d') by (unfold d'; lia).
  assert (0 < d).
  { destruct (Z_lt_le_dec 0 d); [assumption|].
    assert (2 ^ d <= 2 ^ 0) by (destruct (Z.eq_dec d 0); [subst; lia|rewrite Z.pow_neg_r by lia; simpl; lia]).
    simpl in *. lia. }
  destruct (Z_lt_le_dec d d') as [Hlt|Hge].
  - assert (2 ^ d <= 2 ^ (d' - 1)) by (apply Z.pow_le_mono_r; lia). lia.
  - destruct (Z_lt_le_dec d' d) as [Hlt|Hge']; [|lia].
    assert (2 ^ d' <= 2 ^ (d - 1)) by (apply Z.pow_le_mono_r; lia). lia.
Qed.

(** *** Shifting right with a round bit and a sticky bit *)

Lemma iter_pos_nat {A} (f : A -> A) (p : positive) (x : A) :
  iter_pos f p x = Nat.iter (Pos.to_nat p) f x.
Proof.
  revert x. induction p as [p IH | p IH |]; intros x; cbn [iter_pos].
  - rewrite !IH. rewrite Pos2Nat.inj_xI. 
    replace (S (2 * Pos.to_nat p))%nat with (Pos.to_nat p + (Pos.to_nat p + 1))%nat by lia.
    rewrite !Nat.iter_add. simpl. reflexivity.
  - rewrite !IH. rewrite Pos2Nat.inj_xO.
    replace (2 * Pos.to_nat p)%nat with (Pos.to_nat p + Pos.to_nat p)%nat by lia.
    rewrite Nat.iter_add. reflexivity.
  - reflexivity.
Qed.

Lemma shr_1_nonneg (m : Z) (r s : bool) :
  0 <= m ->
  shr_1 {| shr_m := m; shr_r := r; shr_s := s |}
  = {| shr_m := m / 2; shr_r := Z.odd m; shr_s := r || s |}.
Proof.
  intros Hm. rewrite <- Z.div2_div.
  destruct m as [|p|p]; [reflexivity| |lia].
  destruct p; reflexivity.
Qed.

Lemma shr_iter (P : Z) (n : nat) :
  0 <= P ->
  Nat.iter (S n) shr_1 {| shr_m := P; shr_r := false; shr_s := false |}
  = {| shr_m := P / 2 ^ Z.of_nat (S n);
       shr_r := Z.odd (P / 2 ^ Z.of_nat n);
       shr_s := negb (P mod 2 ^ Z.of_nat n =? 0) |}.
Proof.
  intros HP. induction n as [|n IH].
  - unfold Nat.iter. cbn [nat_rect]. rewrite shr_1_nonneg by assumption.
    simpl Z.of_nat. rewrite Z.pow_0_r, Z.pow_1_r, Z.div_1_r, Z.mod_1_r. reflexivity.
  - change (Nat.iter (S (S n)) shr_1 ?x) with (shr_1 (Nat.iter (S n) shr_1 x)).
    rewrite IH.
    assert (Hpow : 0 < 2 ^ Z.of_nat n) by (apply Z.pow_pos_nonneg; lia).
    assert (Hpow' : 0 < 2 ^ Z.of_nat (S n)) by (apply Z.pow_pos_nonneg; lia).
    rewrite shr_1_nonneg by (apply Z.div_pos; lia).
    assert (Hs : 2 ^ Z.of_nat (S n) = 2 ^ Z.of_nat n * 2).
    { rewrite Nat2Z.inj_succ, Z.pow_succ_r by lia. ring. }
    assert (Hss : 2 ^ Z.of_nat (S (S n)) = 2 ^ Z.of_nat (S n) * 2).
    { rewrite (Nat2Z.inj_succ (S n)), Z.pow_succ_r by lia. ring. }
    f_equal.
    + rewrite Hss, Z.div_div by lia. reflexivity.
    + (* sticky *)
      pose proof (Z.div_mod P (2 ^ Z.of_nat n) ltac:(lia)) as H1.
      pose proof (Z.mod_pos_bound P (2 ^ Z.of_nat n) Hpow) as H2.
      pose proof (Z.div_mod P (2 ^ Z.of_nat (S n)) ltac:(lia)) as H3.
      pose proof (Z.mod_pos_bound P (2 ^ Z.of_nat (S n)) Hpow') as H4.
      pose proof (Z.div_mod (P / 2 ^ Z.of_nat n) 2 ltac:(lia)) as H5.
      pose proof (Z.mod_pos_bound (P / 2 ^ Z.of_nat n) 2 ltac:(lia)) as H6.
      assert (Hq : P / 2 ^ Z.of_nat (S n) = P / 2 ^ Z.of_nat n / 2)
        by (rewrite Hs, Z.div_div by lia; reflexivity).
      rewrite Hq in H3.
      rewrite Zodd_mod.
      set (a := P / 2 ^ Z.of_nat n) in *. set (b := P mod 2 ^ Z.of_nat n) in *.
      set (h := 2 ^ Z.of_nat n) in *. set (c := P mod 2 ^ Z.of_nat (S n)) in *.
      rewrite Hs in H3, H4.
      assert (Hc : c = (a mod 2) * h + b) by nia.
      destruct (Z.eqb_spec (a mod 2) 1) as [E1|E1];
      destruct (Z.eqb_spec b 0) as [E2|E2];
      destruct (Z.eqb_spec c 0) as [E3|E3]; simpl; try reflexivity; exfalso; nia.
Qed.

Lemma round_nearest_even_shr (P : Z) (n : nat) :
  0 <= P ->
  let mrs := Nat.iter (S n) shr_1 {| shr_m := P; shr_r := false; shr_s := false |} in
  round_nearest_even (shr_m mrs) (loc_of_shr_record mrs)
  = round_half_even P (Z.of_nat (S n)).
Proof.
  intros HP mrs. unfold mrs. rewrite shr_iter by assumption.
  unfold round_half_even. cbn [shr_m].
  assert (Hpow : 0 < 2 ^ Z.of_nat n) by (apply Z.pow_pos_nonneg; lia).
  assert (Hs : 2 ^ Z.of_nat (S n) = 2 ^ Z.of_nat n * 2).
  { rewrite Nat2Z.inj_succ, Z.pow_succ_r by lia. ring. }
  pose proof (Z.div_mod P (2 ^ Z.of_nat n) ltac:(lia)) as H1.
  pose proof (Z.mod_pos_bound P (2 ^ Z.of_nat n) Hpow) as H2.
  pose proof (Z.div_mod P (2 ^ Z.of_nat (S n)) ltac:(lia)) as H3.
  pose proof (Z.mod_pos_bound P (2 ^ Z.of_nat (S n)) ltac:(lia)) as H4.
  pose proof (Z.div_mod (P / 2 ^ Z.of_nat n) 2 ltac:(lia)) as H5.
  pose proof (Z.mod_pos_bound (P / 2 ^ Z.of_nat n) 2 ltac:(lia)) as H6.
  assert (Hq : P / 2 ^ Z.of_nat (S n) = P / 2 ^ Z.of_nat n / 2)
    by (rewrite Hs, Z.div_div by lia; reflexivity).
  rewrite Hq in *. rewrite Zodd_mod.
  set (a := P / 2 ^ Z.of_nat n) in *. set (b := P mod 2 ^ Z.of_nat n) in *.
  set (c := P mod 2 ^ Z.of_nat (S n)) in *.
  rewrite Hs in *. set (h := 2 ^ Z.of_nat n) in *.
  assert (Hc : c = (a mod 2) * h + b) by nia.
  destruct (Z.eqb_spec (a mod 2) 1) as [E1|E1];
  destruct (Z.eqb_spec b 0) as [E2|E2]; cbn [negb loc_of_shr_record round_nearest_even].
  - (* tie *)
    replace (2 * c <? h * 2) with false by (symmetry; apply Z.ltb_ge; nia).
    replace (h * 2 <? 2 * c) with false by (symmetry; apply Z.ltb_ge; nia).
    reflexivity.
  - replace (2 * c <? h * 2) with false by (symmetry; apply Z.ltb_ge; nia).
    replace (h * 2 <? 2 * c) with true by (symmetry; apply Z.ltb_lt; nia).
    reflexivity.
  - replace (2 * c <? h * 2) with true by (symmetry; apply Z.ltb_lt; nia).
    reflexivity.
  - replace (2 * c <? h * 2) with true by (symmetry; apply Z.ltb_lt; nia).
    reflexivity.
Qed.

(** Scaling numerator and divisor by the same power of two. *)
Lemma round_half_even_scale (x s c : Z) :
  0 <= s -> 0 <= c ->
  round_half_even (x * 2 ^ c) (s + c) = round_half_even x s.
Proof.
  intros Hs Hc. unfold round_half_even.
  assert (HB : 0 < 2 ^ s) by (apply Z.pow_pos_nonneg; lia).
  assert (HC : 0 < 2 ^ c) by (apply Z.pow_pos_nonneg; lia).
  rewrite Z.pow_add_r by lia.
  rewrite Z.div_mul_cancel_r by lia.
  rewrite Z.mul_mod_distr_r by lia.
  assert (H1 : (2 * (x mod 2 ^ s * 2 ^ c) <? 2 ^ s * 2 ^ c) = (2 * (x mod 2 ^ s) <? 2 ^ s)).
  { destruct (Z.ltb_spec (2 * (x mod 2 ^ s)) (2 ^ s)).
    - apply Z.ltb_lt. nia.
    - apply Z.ltb_ge. nia. }
  assert (H2 : (2 ^ s * 2 ^ c <? 2 * (x mod 2 ^ s * 2 ^ c)) = (2 ^ s <? 2 * (x mod 2 ^ s))).
  { destruct (Z.ltb_spec (2 ^ s) (2 * (x mod 2 ^ s))).
    - apply Z.ltb_lt. nia.
    - apply Z.ltb_ge. nia. }
  rewrite H1, H2. reflexivity.
Qed.

Lemma round_half_even_range (P k : Z) :
  0 < k -> 2 ^ (52 + k) <= P < 2 ^ (53 + k) ->
  2 ^ 52 <= round_half_even P k <= 2 ^ 53.
Proof.
  intros Hk [Hlo Hhi]. unfold round_half_even.
  assert (HB : 0 < 2 ^ k) by (apply Z.pow_pos_nonneg; lia).
  rewrite !Z.pow_add_r in * by lia.
  assert (2 ^ 52 <= P / 2 ^ k) by (apply Z.div_le_lower_bound; lia).
  assert (P / 2 ^ k < 2 ^ 53) by (apply Z.div_lt_upper_bound; lia).
  destruct (_ <? _); [lia|]. destruct (_ <? _); [lia|]. destruct (Z.even _); lia.
Qed.

Lemma fexp_normal (x : Z) : -1074 <= x - 53 -> fexp 53 1024 x = x - 53.
Proof. intros H. unfold fexp, emin. lia. Qed.

Lemma shr_fexp_none (m E : Z) :
  Zdigits2 m = 53 -> -1074 <= E ->
  shr_fexp 53 1024 m E loc_Exact
  = ({| shr_m := m; shr_r := false; shr_s := false |}, E).
Proof.
  intros Hd HE. unfold shr_fexp. rewrite Hd, fexp_normal by lia.
  replace (53 + E - 53 - E) with 0 by lia. reflexivity.
Qed.

Lemma shr_fexp_shift (m E : Z) (k : positive) :
  Zdigits2 m = 53 + Zpos k -> -1074 <= E + Zpos k ->
  shr_fexp 53 1024 m E loc_Exact
  = (Nat.iter (Pos.to_nat k) shr_1 {| shr_m := m; shr_r := false; shr_s := false |},
     E + Zpos k).
Proof.
  intros Hd HE. unfold shr_fexp. rewrite Hd, fexp_normal by lia.
  replace (53 + Zpos k + E - 53 - E) with (Zpos k) by lia.
  unfold shr. rewrite iter_pos_nat. reflexivity.
Qed.

Lemma Zdigits2_unique (m d : Z) :
  0 < m -> 2 ^ (d - 1) <= m < 2 ^ d -> Zdigits2 m = d.
Proof.
  intros Hm H. destruct m as [|p|p]; try lia.
  apply digits2_pos_unique, H.
Qed.

(** A mantissa of exactly 53 bits is its own rounding. *)
Lemma binary_round_aux_53 (m E : Z) :
  2 ^ 52 <= m < 2 ^ 53 -> -1074 <= E <= 971 ->
  binary_round_aux 53 1024 false m E loc_Exact = S754_finite false (Z.to_pos m) E.
Proof.
  intros Hm HE.
  assert (Hd : Zdigits2 m = 53) by (apply Zdigits2_unique; [|exact Hm]; lia).
  unfold binary_round_aux.
  rewrite (shr_fexp_none m E Hd) by lia.
  cbn [shr_m loc_of_shr_record round_nearest_even].
  rewrite (shr_fexp_none m E Hd) by lia.
  cbn [shr_m].
  destruct m as [|p|p]; try lia.
  replace (E <=? 1024 - 53) with true by (symmetry; apply Z.leb_le; lia).
  reflexivity.
Qed.

(** A longer mantissa is shifted right and rounded to nearest, ties to
    even; a rounding that reaches [2^53] is renormalised. *)
Lemma binary_round_aux_shift (P E : Z) (k : positive) :
  2 ^ (52 + Zpos k) <= P < 2 ^ (53 + Zpos k) ->
  -1074 <= E + Zpos k -> E + Zpos k + 1 <= 971 ->
  binary_round_aux 53 1024 false P E loc_Exact =
  if round_half_even P (Zpos k) =? 2 ^ 53
  then S754_finite false (Z.to_pos (2 ^ 52)) (E + Zpos k + 1)
  else S754_finite false (Z.to_pos (round_half_even P (Zpos k))) (E + Zpos k).
Proof.
  intros HP Hlo Hhi.
  assert (H0 : 0 < 2 ^ (52 + Zpos k)) by (apply Z.pow_pos_nonneg; lia).
  assert (Hd : Zdigits2 P = 53 + Zpos k).
  { apply Zdigits2_unique; [lia|].
    replace (53 + Zpos k - 1) with (52 + Zpos k) by lia. exact HP. }
  unfold binary_round_aux.
  rewrite (shr_fexp_shift P E k Hd Hlo).
  destruct (Pos2Nat.is_succ k) as [n Hn]. rewrite Hn.
  cbv beta iota zeta.
  rewrite (round_nearest_even_shr P n) by lia.
  replace (Z.of_nat (S n)) with (Zpos k) by (rewrite <- Hn; symmetry; apply positive_nat_Z).
  pose proof (round_half_even_range P (Zpos k) ltac:(lia) HP) as Hr.
  set (mr := round_half_even P (Zpos k)) in *.
  destruct (Z.eqb_spec mr (2 ^ 53)) as [Htop | Hntop].
  - rewrite Htop.
    assert (Hd54 : Zdigits2 (2 ^ 53) = 53 + 1) by reflexivity.
    rewrite (shr_fexp_shift (2 ^ 53) (E + Zpos k) 1 Hd54) by lia.
    cbv beta iota zeta.
    change (shr_m (Nat.iter (Pos.to_nat 1) shr_1
                     {| shr_m := 2 ^ 53; shr_r := false; shr_s := false |}))
      with (2 ^ 52).
    change (2 ^ 52) with (Zpos (Z.to_pos (2 ^ 52))).
    cbv beta iota.
    replace (E + Zpos k + 1 <=? 1024 - 53) with true by (symmetry; apply Z.leb_le; lia).
    reflexivity.
  - assert (Hd53 : Zdigits2 mr = 53) by (apply Zdigits2_unique; lia).
    rewrite (shr_fexp_none mr (E + Zpos k) Hd53) by lia.
    cbv beta iota zeta. cbn [shr_m].
    destruct mr as [|p|p]; try lia.
    replace (E + Zpos k <=? 1024 - 53) with true by (symmetry; apply Z.leb_le; lia).
    reflexivity.
Qed.

Lemma pos_iter_xO (p c : positive) : Zpos (Pos.iter xO p c) = Zpos p * 2 ^ Zpos c.
Proof.
  change (Pos.iter xO p c) with (shift_pos c p).
  rewrite shift_pos_correct. change (Zpower_pos 2 c) with (2 ^ Zpos c). lia.
Qed.

Lemma binary_normalize_int (n : Z) :
  0 < n < 2 ^ 53 ->
  binary_normalize 53 1024 n 0 false
  = S754_finite false (Z.to_pos (n * 2 ^ (53 - Zdigits2 n))) (Zdigits2 n - 53).
Proof.
  intros Hn. destruct n as [|p|p]; try lia.
  cbn [binary_normalize Zdigits2]. unfold binary_round.
  pose proof (digits2_pos_bounds p) as Hb.
  set (d := Zpos (digits2_pos p)) in *.
  assert (Hd : 1 <= d <= 53).
  { split; [unfold d; lia|].
    destruct (Z_lt_le_dec 53 d) as [Hgt|]; [|lia].
    assert (2 ^ 53 <= 2 ^ (d - 1)) by (apply Z.pow_le_mono_r; lia). lia. }
  rewrite fexp_normal by lia. unfold shl_align.
  replace (d + 0 - 53 - 0) with (d - 53) by lia.
  destruct (d - 53) as [|c|c] eqn:Hc; try lia.
  - (* already 53 bits *)
    assert (d = 53) by lia.
    replace (53 - d) with 0 by lia. rewrite Z.pow_0_r, Z.mul_1_r.
    rewrite binary_round_aux_53; [reflexivity| |lia].
    replace 52 with (d - 1) by lia. replace 53 with d by lia. exact Hb.
  - assert (Hmz : 2 ^ 52 <= Zpos (Pos.iter xO p c) < 2 ^ 53).
    { rewrite pos_iter_xO.
      assert (Zpos c = 53 - d) by lia.
      assert (0 < 2 ^ Zpos c) by (apply Z.pow_pos_nonneg; lia).
      replace (2 ^ 52) with (2 ^ (d - 1) * 2 ^ Zpos c)
        by (rewrite <- Z.pow_add_r by lia; f_equal; lia).
      replace (2 ^ 53) with (2 ^ d * 2 ^ Zpos c)
        by (rewrite <- Z.pow_add_r by lia; f_equal; lia).
      nia. }
    rewrite binary_round_aux_53 by (try exact Hmz; lia).
    f_equal. rewrite pos_iter_xO. cbn [Z.to_pos].
    replace (53 - d) with (Zpos c) by lia.
    rewrite <- pos_iter_xO. reflexivity.
    lia.
Qed.

(** The comparison of an int with a rounded product [0.9 * n]. *)
Lemma rounded_nine_tenths (r n s : Z) :
  0 < n < 2 ^ 48 -> 0 <= s ->
  2 ^ (52 + s) <= nine_tenths * n < 2 ^ (53 + s) ->
  (round_half_even (nine_tenths * n) s <? r * 2 ^ (53 - s)) = (9 * n <? 10 * r).
Proof.
  intros Hn Hs0 Hp. unfold nine_tenths in *.
  set (p := 8106479329266893 * n) in *.
  assert (Hs : s <= 48).
  { destruct (Z_lt_le_dec 48 s) as [Hgt|]; [|lia].
    assert (2 ^ (52 + 49) <= 2 ^ (52 + s)) by (apply Z.pow_le_mono_r; lia).
    assert (p < 2 ^ 53 * 2 ^ 48) by (unfold p; apply Z.mul_lt_mono_nonneg; lia).
    rewrite <- Z.pow_add_r in * by lia. simpl Z.add in *. lia. }
  assert (HB : 0 < 2 ^ s) by (apply Z.pow_pos_nonneg; lia).
  assert (HE : 0 < 2 ^ (53 - s)) by (apply Z.pow_pos_nonneg; lia).
  assert (HBE : 2 ^ s * 2 ^ (53 - s) = 2 ^ 53).
  { rewrite <- Z.pow_add_r by lia. f_equal. lia. }
  assert (HBmax : 2 ^ s <= 2 ^ 48) by (apply Z.pow_le_mono_r; lia).
  pose proof (Z.div_mod p (2 ^ s) ltac:(lia)) as Hdm.
  pose proof (Z.mod_pos_bound p (2 ^ s) HB) as Hrem.
  assert (H10 : 10 * p = 9 * n * 2 ^ 53 + 2 * n) by (unfold p; lia).
  assert (Hq : p / 2 ^ s <= round_half_even p s /\
               2 * (round_half_even p s * 2 ^ s) <= 2 * p + 2 ^ s).
  { unfold round_half_even.
    destruct (2 * (p mod 2 ^ s) <? 2 ^ s) eqn:E1.
    - apply Z.ltb_lt in E1. split; [lia | nia].
    - apply Z.ltb_ge in E1. destruct (2 ^ s <? 2 * (p mod 2 ^ s)) eqn:E2.
      + split; [lia | nia].
      + apply Z.ltb_ge in E2. destruct (Z.even (p / 2 ^ s)); split; try lia; nia. }
  destruct Hq as [Hlo Hhi].
  set (q' := round_half_even p s) in *.
  set (B := 2 ^ s) in *. set (E := 2 ^ (53 - s)) in *.
  set (q := p / B) in *. set (rem := p mod B) in *.
  change (2 ^ 53) with 9007199254740992 in *.
  change (2 ^ 48) with 281474976710656 in *.
  destruct (9 * n <? 10 * r) eqn:C.
  - apply Z.ltb_lt in C. apply Z.ltb_lt.
    assert (2 * (q' * B) < 2 * (r * E * B)); [|nia].
    replace (r * E * B) with (r * 9007199254740992) by (rewrite <- HBE; ring).
    lia.
  - apply Z.ltb_ge in C. apply Z.ltb_ge.
    assert (r * E * B <= p).
    { replace (r * E * B) with (r * 9007199254740992) by (rewrite <- HBE; ring). lia. }
    assert (r * E < q + 1) by nia.
    lia.
Qed.

Lemma Zdigits2_bounds (n : Z) :
  0 < n -> 2 ^ (Zdigits2 n - 1) <= n < 2 ^ Zdigits2 n /\ 1 <= Zdigits2 n.
Proof.
  intros Hn. destruct n as [|p|p]; try lia.
  cbn [Zdigits2]. split; [apply digits2_pos_bounds | lia].
Qed.

(** The comparison against the rounded product [0.9 * n] decides the exact
    inequality [10 * r > 9 * n] for every window below [2^48]. *)
Lemma gt_nine_tenths (r n : Z) :
  0 <= n < 2 ^ 48 ->
  int_gt_float r (float_mul float_0_9 (binary_normalize 53 1024 n 0 false))
  = (9 * n <? 10 * r).
Proof.
  intros Hn. unfold float_mul, prec, emax. destruct (Z.eq_dec n 0) as [-> | Hn0].
  { change (int_gt_float r (SFmul 53 1024 float_0_9 (binary_normalize 53 1024 0 0 false)))
      with (0 <? r).
    destruct (Z.ltb_spec 0 r); symmetry; [apply Z.ltb_lt | apply Z.ltb_ge]; lia. }
  assert (Hpos : 0 < n) by lia.
  assert (H4853 : 2 ^ 48 < 2 ^ 53) by (apply Z.pow_lt_mono_r; lia).
  rewrite binary_normalize_int by lia.
  destruct (Zdigits2_bounds n Hpos) as [Hdig Hd1].
  set (d := Zdigits2 n) in *.
  assert (Hd48 : d <= 48).
  { destruct (Z_lt_le_dec 48 d) as [Hgt|]; [|lia].
    assert (2 ^ 48 <= 2 ^ (d - 1)) by (apply Z.pow_le_mono_r; lia). lia. }
  set (c := 53 - d).
  assert (Hc : 5 <= c <= 52) by (unfold c; lia).
  assert (H2c : 0 < 2 ^ c) by (apply Z.pow_pos_nonneg; lia).
  assert (Hmz : 2 ^ 52 <= n * 2 ^ c < 2 ^ 53).
  { replace (2 ^ 52) with (2 ^ (d - 1) * 2 ^ c)
      by (rewrite <- Z.pow_add_r by lia; f_equal; unfold c; lia).
    replace (2 ^ 53) with (2 ^ d * 2 ^ c)
      by (rewrite <- Z.pow_add_r by lia; f_equal; unfold c; lia).
    nia. }
  unfold float_0_9. cbn [SFmul xorb].
  rewrite Pos2Z.inj_mul, Z2Pos.id by lia.
  fold nine_tenths.
  set (P := nine_tenths * (n * 2 ^ c)).
  assert (HP : 2 ^ 104 <= P < 2 ^ 106).
  { unfold P, nine_tenths.
    change (2 ^ 104) with (2 ^ 52 * 2 ^ 52). change (2 ^ 106) with (2 ^ 53 * 2 ^ 53).
    change (2 ^ 52) with 4503599627370496 in *.
    change (2 ^ 53) with 9007199254740992 in *. nia. }
  assert (Hk : exists k : positive,
             (Zpos k = 52 \/ Zpos k = 53) /\ 2 ^ (52 + Zpos k) <= P < 2 ^ (53 + Zpos k)).
  { destruct (Z_lt_le_dec P (2 ^ 105)).
    - exists 52%positive. split; [left; reflexivity|]. cbn [Z.add]. simpl Z.add. lia.
    - exists 53%positive. split; [right; reflexivity|]. simpl Z.add. lia. }
  destruct Hk as (k & Hk & HPk).
  rewrite (binary_round_aux_shift P (-53 + (d - 53)) k HPk) by lia.
  set (s := Zpos k - c).
  assert (Hs0 : 0 <= s) by (unfold s; lia).
  assert (Hround : round_half_even P (Zpos k) = round_half_even (nine_tenths * n) s).
  { unfold P. replace (nine_tenths * (n * 2 ^ c)) with (nine_tenths * n * 2 ^ c) by ring.
    replace (Zpos k) with (s + c) by (unfold s; lia).
    apply round_half_even_scale; lia. }
  assert (Hps : 2 ^ (52 + s) <= nine_tenths * n < 2 ^ (53 + s)).
  { replace (52 + Zpos k) with (52 + s + c) in HPk by (unfold s; lia).
    replace (53 + Zpos k) with (53 + s + c) in HPk by (unfold s; lia).
    rewrite !(Z.pow_add_r _ _ c) in HPk by lia.
    unfold P in HPk. nia. }
  assert (Hs48 : s <= 48).
  { destruct (Z_lt_le_dec 48 s) as [Hgt|]; [|lia].
    assert (2 ^ (52 + 49) <= 2 ^ (52 + s)) by (apply Z.pow_le_mono_r; lia).
    assert (nine_tenths * n < 2 ^ 53 * 2 ^ 48)
      by (unfold nine_tenths; apply Z.mul_lt_mono_nonneg; lia).
    rewrite <- Z.pow_add_r in * by lia. simpl Z.add in *. lia. }
  pose proof (rounded_nine_tenths r n s ltac:(lia) Hs0 Hps) as Hcmp.
  pose proof (round_half_even_range P (Zpos k) ltac:(lia) HPk) as Hrange.
  rewrite Hround in *.
  set (mr := round_half_even (nine_tenths * n) s) in *.
  replace (-53 + (d - 53) + Zpos k) with (s - 53) by (unfold s, c; lia).
  assert (H2s : 2 ^ (53 - s) = 2 * 2 ^ (52 - s)).
  { replace (53 - s) with (Z.succ (52 - s)) by lia. apply Z.pow_succ_r. lia. }
  destruct (Z.eqb_spec mr (2 ^ 53)) as [Htop | Hntop].
  - cbn [int_gt_float].
    replace (0 <=? s - 53 + 1) with false by (symmetry; apply Z.leb_gt; lia).
    replace (- (s - 53 + 1)) with (52 - s) by lia.
    rewrite <- Hcmp, Htop, H2s.
    change (Zpos (Z.to_pos (2 ^ 52))) with (2 ^ 52). change (2 ^ 53) with (2 * 2 ^ 52).
    destruct (Z.ltb_spec (2 ^ 52) (r * 2 ^ (52 - s))); symmetry;
      [apply Z.ltb_lt | apply Z.ltb_ge]; lia.
  - cbn [int_gt_float].
    replace (0 <=? s - 53) with false by (symmetry; apply Z.leb_gt; lia).
    replace (- (s - 53)) with (53 - s) by lia.
    rewrite Z2Pos.id by (assert (0 < 2 ^ 52) by reflexivity; lia).
    exact Hcmp.
Qed.

(** Ints below [2^53] convert without overflow. *)
Lemma float_of_int_small (n : Z) :
  0 <= n < 2 ^ 53 -> float_of_int n = inr (binary_normalize 53 1024 n 0 false).
Proof.
  intros Hn. unfold float_of_int, prec, emax.
  destruct (Z.eq_dec n 0) as [-> | Hn0]; [reflexivity|].
  rewrite binary_normalize_int by lia. reflexivity.
Qed.

Lemma int_gt_float_mono (n1 n2 : Z) (f : spec_float) :
  n1 <= n2 -> int_gt_float n1 f = true -> int_gt_float n2 f = true.
Proof.
  intros Hle. destruct f as [s | s | | s m e]; cbn [int_gt_float]; auto.
  - rewrite !Z.ltb_lt. lia.
  - destruct (0 <=? e).
    + rewrite !Z.ltb_lt. lia.
    + rewrite !Z.ltb_lt. intros H.
      assert (0 <= 2 ^ (- e)) by apply Z.pow_nonneg, Z.le_0_2.
      nia.
Qed.

End FloatFacts.

(* ===================================================================== *)
(** ** Facts about ingestion *)
(* ===================================================================== *)

Module IngestionFacts.
Import Ingestion.

Section UploadFacts.

Variable Vector : Type.
Variable text_to_base64 : string -> string.
Variable embed_query : world Vector -> string -> Py.exn + Vector.
Variable post : world Vector -> upload_payload Vector -> Py.exn + response.

Abbreviation world := (world Vector).
Abbreviation build_payload := (build_payload Vector text_to_base64 embed_query).
Abbreviation document_of := (document_of Vector text_to_base64).
Abbreviation upload_page := (upload_page Vector text_to_base64 embed_query post).
Abbreviation upload_book := (upload_book Vector text_to_base64 embed_query post).
Abbreviation upload_all := (upload_all Vector text_to_base64 embed_query post).
Abbreviation page_requests := (page_requests Vector text_to_base64 embed_query).
Abbreviation page_report := (page_report Vector text_to_base64 embed_query post).
Abbreviation page_fails := (page_fails Vector text_to_base64 embed_query post).
Abbreviation after_page := (after_page Vector text_to_base64 embed_query post).
Abbreviation after_pages := (after_pages Vector text_to_base64 embed_query post).
Abbreviation after_book := (after_book Vector text_to_base64 embed_query post).
Abbreviation after_books := (after_books Vector text_to_base64 embed_query post).

(** The [try] block with its handler never lets an exception out. *)
Lemma upload_page_total (bookname : string) (p : page) (w : world) :
  upload_page bookname p w
  = (after_page bookname p w, inr tt).
Proof.
  unfold upload_page, after_page, page_report, page_requests, embedding, Py.try_except,
    build_payload, Py.bind, call_embedder, call_post, Py.ret, print, Py.modify.
  cbn [fst snd].
  destruct (embed_query w (embedder_input (page_2 p))) as [e | v].
  - cbn [printed embedded requests]. rewrite <- !app_assoc, app_nil_r. reflexivity.
  - fold (document_of bookname p v).
    cbn [printed embedded requests].
    destruct (post _ [document_of bookname p v]) as [e | r].
    + cbn [printed embedded requests]. rewrite <- !app_assoc. reflexivity.
    + destruct (negb (status_code r =? 200)); cbn [printed embedded requests].
      * rewrite <- !app_assoc. reflexivity.
      * rewrite app_nil_r. reflexivity.
Qed.

Lemma upload_pages_total (bookname : string) (pages : list page) (w : world) :
  Py.for_each pages (upload_page bookname) w
  = (after_pages bookname pages w, inr tt).
Proof. apply PyFacts.for_each_total, upload_page_total. Qed.

Lemma upload_book_total (book : string * list page) (w : world) :
  upload_book book w
  = (after_book book w, inr tt).
Proof.
  unfold upload_book, Py.bind, print, Py.modify.
  rewrite upload_pages_total. reflexivity.
Qed.

Lemma upload_all_total (books : list (string * list page)) (w : world) :
  upload_all books w
  = (after_books books w, inr tt).
Proof. apply PyFacts.for_each_total, upload_book_total. Qed.

(** Every page of a book reaches the embedder, in order. *)
Lemma after_pages_embedded (bookname : string) (pages : list page) (w : world) :
  embedded (after_pages bookname pages w)
  = (embedded w ++ map (fun p => embedder_input (page_2 p)) pages)%list.
Proof.
  revert w. induction pages as [|p pages IH]; intros w.
  - simpl. rewrite app_nil_r. reflexivity.
  - unfold after_pages in *. cbn [fold_left map]. rewrite IH.
    cbn [after_page embedded]. rewrite <- app_assoc. reflexivity.
Qed.

Lemma after_books_embedded (books : list (string * list page)) (w : world) :
  embedded (after_books books w)
  = (embedded w ++ flat_map book_inputs books)%list.
Proof.
  revert w. induction books as [|book books IH]; intros w.
  - simpl. rewrite app_nil_r. reflexivity.
  - unfold after_books in *. cbn [fold_left flat_map]. rewrite IH.
    unfold after_book. rewrite after_pages_embedded. cbn [embedded].
    unfold book_inputs. rewrite <- app_assoc. reflexivity.
Qed.

(** Every payload sent for a book is the document of one of its pages. *)
Lemma after_pages_requests (bookname : string) (pages : list page) (w : world) :
  exists sent,
    requests (after_pages bookname pages w)
      = (requests w ++ sent)%list /\
    Forall (fun payload => exists p v, In p pages /\ payload = [document_of bookname p v])
           sent.
Proof.
  revert w. induction pages as [|p pages IH]; intros w.
  - exists []. simpl. rewrite app_nil_r. split; [reflexivity | constructor].
  - unfold after_pages in *. cbn [fold_left].
    destruct (IH (after_page bookname p w)) as (sent & Hreq & Hall).
    exists (page_requests w bookname p ++ sent)%list.
    rewrite Hreq. cbn [after_page requests]. rewrite <- app_assoc.
    split; [reflexivity|]. apply Forall_app. split.
    + unfold page_requests. destruct (embed_query w _) as [e | v]; constructor; [|constructor].
      exists p, v. split; [left; reflexivity | reflexivity].
    + eapply Forall_impl; [|exact Hall].
      intros payload (q & v & Hq & ->). exists q, v. split; [right; exact Hq | reflexivity].
Qed.

Lemma embedder_input_nonempty (content : string) : embedder_input content <> "".
Proof.
  unfold embedder_input. destruct (String.eqb content "") eqn:E.
  - discriminate.
  - apply String.eqb_neq in E. exact E.
Qed.

Lemma page_fails_reported (w : world) (bookname : string) (p : page) :
  page_fails w bookname p = true ->
  page_report w bookname p <> [].
Proof.
  unfold page_fails, page_report.
  destruct (embed_query _ _) as [e | v]; [discriminate|].
  destruct (post _ _) as [e | r]; [discriminate|].
  intros ->. discriminate.
Qed.

Lemma build_payload_result (bookname : string) (p : page) (w : world) :
  snd (build_payload bookname p w) =
  match embed_query w (embedder_input (page_2 p)) with
  | inl e => inl e
  | inr v => inr [document_of bookname p v]
  end.
Proof.
  unfold build_payload, Py.bind, call_embedder, Py.ret.
  destruct (embed_query w (embedder_input (page_2 p))); reflexivity.
Qed.

(** C8.  The upload loop never stops on a page: whatever the embedder and
    the index do, and whatever happened before, it ends normally, having
    given every page of every book to the embedder; a page, failing or not,
    hands over to the next one, a page that fails (an exception or a status
    other than 200) leaves a report, and the run resumes after it with the
    rest of the book and then the remaining books. *)
Theorem failing_page_does_not_stop_upload
    (books : list (string * list page)) (w : world) :
  upload_all books w
    = (after_books books w, inr tt) /\
  embedded (after_books books w)
    = (embedded w ++ flat_map book_inputs books)%list /\
  (forall bookname p w0,
      upload_page bookname p w0
        = (after_page bookname p w0, inr tt) /\
      (page_fails w0 bookname p = true ->
       page_report w0 bookname p <> [])) /\
  (forall before bookname pages1 p pages2 after,
      books = (before ++ (bookname, pages1 ++ p :: pages2) :: after)%list ->
      let w1 := fst (upload_all (before ++ [(bookname, pages1)]) w) in
      let w2 := fst (upload_page bookname p w1) in
      let w3 := fst (Py.for_each pages2 (upload_page bookname) w2) in
      upload_all books w
      = upload_all after w3).
Proof.
  split; [apply upload_all_total|]. split; [apply after_books_embedded|].
  split; [intros; split; [apply upload_page_total | apply page_fails_reported]|].
  intros before bookname pages1 p pages2 after -> w1 w2 w3.
  unfold w3, w2, w1.
  rewrite upload_pages_total, upload_page_total, !upload_all_total.
  cbn [fst]. f_equal.
  unfold after_books. rewrite !fold_left_app. cbn [fold_left].
  f_equal. unfold after_book. cbn [fst snd].
  unfold after_pages. rewrite fold_left_app. reflexivity.
Qed.

(** C9.  For a page whose text is the empty string the embedder receives
    the placeholder "-------" and the payload carries that vector, while
    its [chunk] is the page's own (empty) text; over a whole run no text
    given to the embedder is empty, and [chunk] is always the page's text. *)
Theorem empty_page_embeds_placeholder :
  (forall bookname position offset (w : world),
      build_payload bookname (position, offset, "") w =
      ({| printed := printed w; embedded := (embedded w ++ ["-------"])%list;
          requests := requests w |},
       match embed_query w "-------" with
       | inl e => inl e
       | inr v => inr [document_of bookname (position, offset, "") v]
       end)) /\
  (forall bookname position offset v,
      chunk (document_of bookname (position, offset, "") v) = "" /\
      chunkVector (document_of bookname (position, offset, "") v) = v) /\
  (forall bookname p v, chunk (document_of bookname p v) = page_2 p) /\
  (forall books (w : world),
      exists texts,
        embedded (fst (upload_all books w))
          = (embedded w ++ texts)%list /\
        Forall (fun t => t <> "") texts).
Proof.
  repeat split.
  - intros bookname position offset w.
    unfold build_payload, Py.bind, call_embedder, Py.ret. cbn.
    destruct (embed_query w "-------"); reflexivity.
  - intros books w. rewrite upload_all_total. cbn [fst].
    rewrite after_books_embedded.
    eexists. split; [reflexivity|].
    apply Forall_forall. intros t Ht.
    apply in_flat_map in Ht. destruct Ht as (book & _ & Ht).
    unfold book_inputs in Ht. apply in_map_iff in Ht. destruct Ht as (p & <- & _).
    apply embedder_input_nonempty.
Qed.

(** The payloads of a book are the documents of the pages whose embedding
    succeeded, in the order of the pages, one for each: of every page when
    the embedder always answers. *)
Lemma after_pages_kept (bookname : string) (pages : list page) (w : world) :
  exists kept sent,
    requests (after_pages bookname pages w) = (requests w ++ sent)%list /\
    Fusion.subseq kept pages /\
    Forall2 (fun p payload => exists v, payload = [document_of bookname p v]) kept sent /\
    ((forall w0 t, exists v, embed_query w0 t = inr v) -> kept = pages).
Proof.
  revert w. induction pages as [|p pages IH]; intros w.
  - exists [], []. cbn. rewrite app_nil_r.
    repeat split; constructor.
  - unfold Ingestion.after_pages in *. cbn [fold_left].
    destruct (IH (after_page bookname p w)) as (kept & sent & Hreq & Hsub & Hall & Hfull).
    cbn [Ingestion.after_page requests] in Hreq. unfold Ingestion.page_requests in Hreq.
    destruct (embed_query w (embedder_input (page_2 p))) as [e | v] eqn:Hembed.
    + exists kept, sent. rewrite app_nil_r in Hreq.
      split; [exact Hreq|]. split; [constructor; exact Hsub|]. split; [exact Hall|].
      intros Hall_answer. destruct (Hall_answer w (embedder_input (page_2 p))) as (v & Hv).
      congruence.
    + exists (p :: kept), ([document_of bookname p v] :: sent).
      rewrite <- app_assoc in Hreq.
      split; [exact Hreq|]. split; [constructor; exact Hsub|].
      split; [constructor; [exists v; reflexivity | exact Hall]|].
      intros Hall_answer. f_equal. exact (Hfull Hall_answer).
Qed.

(** The same over the books of a run, each page with the name of its
    book. *)
Lemma after_books_kept (books : list (string * list page)) (w : world) :
  exists kept sent,
    requests (after_books books w) = (requests w ++ sent)%list /\
    Fusion.subseq kept (flat_map (fun book => map (fun p => (fst book, p)) (snd book)) books) /\
    Forall2 (fun bp payload => exists v, payload = [document_of (fst bp) (snd bp) v])
            kept sent /\
    ((forall w0 t, exists v, embed_query w0 t = inr v) ->
     kept = flat_map (fun book => map (fun p => (fst book, p)) (snd book)) books).
Proof.
  revert w. induction books as [|book books IH]; intros w.
  - exists [], []. cbn. rewrite app_nil_r. repeat split; constructor.
  - unfold Ingestion.after_books in *. cbn [fold_left flat_map].
    destruct (IH (after_book book w)) as (kept & sent & Hreq & Hsub & Hall & Hfull).
    destruct (after_pages_kept (fst book) (snd book)
                {| printed := (printed w ++ [("Uploading chunks from " ++ fst book)%string])%list;
                   embedded := embedded w; requests := requests w |})
      as (kept0 & sent0 & Hreq0 & Hsub0 & Hall0 & Hfull0).
    cbn [requests] in Hreq0.
    exists (map (fun p => (fst book, p)) kept0 ++ kept)%list, (sent0 ++ sent)%list.
    rewrite Hreq. unfold Ingestion.after_book. rewrite Hreq0, <- app_assoc.
    split; [reflexivity|].
    split; [apply PyFacts.subseq_app; [apply PyFacts.subseq_map; exact Hsub0 | exact Hsub]|].
    split.
    + apply Forall2_app; [|exact Hall].
      clear - Hall0. induction Hall0 as [|p payload kept0 sent0 Hp _ IH0]; cbn [map];
        constructor; [exact Hp | exact IH0].
    + intros Hall_answer. rewrite (Hfull0 Hall_answer), (Hfull Hall_answer). reflexivity.
Qed.

(** The texts given to the embedder, page by page. *)
Lemma book_inputs_of_pages (books : list (string * list page)) :
  flat_map book_inputs books
  = map (fun bp : string * page => embedder_input (page_2 (snd bp)))
        (flat_map (fun book => map (fun p => (fst book, p)) (snd book)) books).
Proof.
  induction books as [|book books IH]; [reflexivity|].
  cbn [flat_map]. rewrite map_app, map_map, IH. reflexivity.
Qed.

End UploadFacts.

(** *** The segmenter *)





(** C10.  The key and the title of an uploaded document depend on the book
    name and the page's position only: the key is the base64 text of the
    book name followed by the one-based page number, the title is the book
    name, "_page_" and that number; two uploads of the same book and page
    give the same key and title, whatever the text, the offset, the
    embedder or the state of the run. *)
Theorem document_identity_of_book_and_page
    (Vector : Type) (text_to_base64 : string -> string)
    (embed1 embed2 : world Vector -> string -> Py.exn + Vector)
    (bookname : string) (position offset1 offset2 : Z) (content1 content2 : string)
    (w1 w2 : world Vector) (d1 d2 : search_document Vector) :
  snd (build_payload Vector text_to_base64 embed1 bookname (position, offset1, content1) w1) = inr [d1] ->
  snd (build_payload Vector text_to_base64 embed2 bookname (position, offset2, content2) w2) = inr [d2] ->
  id d1 = text_to_base64 (bookname ++ Py.str (position + 1)) /\
  title d1 = bookname ++ "_page_" ++ Py.str (position + 1) /\
  page_num d1 = position + 1 /\
  id d2 = id d1 /\ title d2 = title d1.
Proof.
  rewrite !build_payload_result. cbn [page_2 snd].
  destruct (embed1 _ _) as [e1 | v1]; [discriminate|].
  destruct (embed2 _ _) as [e2 | v2]; [discriminate|].
  intros H1 H2. inversion H1; inversion H2; subst. cbn. auto.
Qed.






(** *** Instances *)

Example base64_of_text_samples :
  base64_of_text "Made_To_Stick.pdf1" = "TWFkZV9Ub19TdGljay5wZGYx" /\
  base64_of_text "Pere_Riche_Pere_Pauvre.pdf225" = "UGVyZV9SaWNoZV9QZXJlX1BhdXZyZS5wZGYyMjU=" /\
  base64_of_text "a" = "YQ==" /\ base64_of_text "ab" = "YWI=" /\ base64_of_text "" = "".
Proof. repeat split. Qed.

(** A run with a rejected page (page 2 of the first book) and a page whose
    embedding raises (page 3): both leave their report, the other pages and
    the second book are uploaded. *)
Example upload_run_with_failures :
  let run :=
    upload_all nat base64_of_text example_embedder example_index
      [("A.pdf", segment 0 0 ["abc"; "  "; "boom"; "x"]); ("B.pdf", segment 0 0 ["q"])]
      empty_world in
  snd run = inr tt /\
  printed (fst run) =
    ["Uploading chunks from A.pdf"; "400"; "bad request"; "Exception: rate limit"; "boom";
     "Uploading chunks from B.pdf"] /\
  embedded (fst run) = ["abc"; "-------"; "boom"; "x"; "q"] /\
  map (map (fun d => (title d, chunk d))) (requests (fst run)) =
    [[("A.pdf_page_1", "abc")]; [("A.pdf_page_2", "")]; [("A.pdf_page_4", "x")];
     [("B.pdf_page_1", "q")]].
Proof. repeat split. Qed.



Lemma document_identity_of_book_and_page_witness :
  let d1 := document_of nat base64_of_text "Made_To_Stick.pdf" (0, 0, "first text") 10%nat in
  let d2 := document_of nat base64_of_text "Made_To_Stick.pdf" (0, 7, "") 7%nat in
  id d1 = "TWFkZV9Ub19TdGljay5wZGYx" /\
  title d1 = "Made_To_Stick.pdf_page_1" /\
  page_num d1 = 1 /\
  id d2 = id d1 /\ title d2 = title d1.
Proof.
  intros d1 d2.
  exact (document_identity_of_book_and_page nat base64_of_text example_embedder example_embedder
           "Made_To_Stick.pdf" 0 0 7 "first text" "" empty_world empty_world d1 d2
           eq_refl eq_refl).
Defined.

End IngestionFacts.

(* ===================================================================== *)
(** ** Facts about token accounting and the synthesis chain *)
(* ===================================================================== *)

Module SelectorFacts.
Import Float FloatFacts Selector.

(** The conditional expression, for every window a table of models can
    hold: the exact test [10 * requested > 9 * tokens_limit]. *)
Lemma chain_type_exact (requested tokens_limit : Z) :
  0 <= tokens_limit < 2 ^ 48 ->
  chain_type requested tokens_limit =
  inr (if 9 * tokens_limit <? 10 * requested then "map_reduce" else "stuff").
Proof.
  intros Hl. unfold chain_type.
  assert (Hsmall : 0 <= tokens_limit < 2 ^ 53).
  { assert (2 ^ 48 < 2 ^ 53) by (apply Z.pow_lt_mono_r; lia). lia. }
  rewrite (float_of_int_small _ Hsmall), (gt_nine_tenths requested tokens_limit Hl).
  reflexivity.
Qed.

Lemma print_quiet (line : string) : quiet (print line).
Proof. intros k. eexists. split; [reflexivity|]. cbn. auto. Qed.

Lemma bind_quiet (m1 m2 : Py.M kernel unit) :
  quiet m1 -> quiet m2 -> quiet (Py.bind m1 (fun _ => m2)).
Proof.
  intros H1 H2 k.
  destruct (H1 k) as (k1 & E1 & Hct1 & Htd1 & Hc1).
  destruct (H2 k1) as (k2 & E2 & Hct2 & Htd2 & Hc2).
  exists k2. unfold Py.bind. rewrite E1, E2.
  repeat split; congruence.
Qed.

Section CellFacts.

Variable num_tokens_from_string : string -> Z.
Variable model_tokens_limit : string -> Py.exn + Z.
Variable COMBINE_PROMPT_TEMPLATE : string.

Lemma select_cell_nonempty (k : kernel) (tokens_limit : Z) (ct : string) :
  g_top_docs k <> [] ->
  model_tokens_limit MODEL = inr tokens_limit ->
  chain_type
    (requested_tokens (num_tokens_from_string COMBINE_PROMPT_TEMPLATE)
       (num_tokens_from_docs num_tokens_from_string (g_top_docs k)) COMPLETION_TOKENS)
    tokens_limit = inr ct ->
  exists k',
    select_cell num_tokens_from_string model_tokens_limit COMBINE_PROMPT_TEMPLATE k
      = (k', inr tt) /\
    g_chain_type k' = Some ct /\ g_top_docs k' = g_top_docs k /\
    completions k' = completions k.
Proof.
  intros Hne Hlim Hct. unfold select_cell.
  destruct (g_top_docs k) as [|d ds] eqn:Hdocs; [congruence|].
  replace (0 <? Z.of_nat (List.length (d :: ds))) with true
    by (symmetry; apply Z.ltb_lt; simpl List.length; lia).
  unfold Py.bind at 1. unfold Py.lift at 1. rewrite Hlim.
  unfold Py.bind at 1. unfold Py.lift at 1. rewrite Hct.
  match goal with
  | |- context [Py.bind (set_chain_type ct) (fun _ => ?rest)] =>
      assert (Hquiet : quiet rest) by (repeat apply bind_quiet; apply print_quiet);
      unfold Py.bind at 1;
      destruct (Hquiet (fst (set_chain_type ct k))) as (k' & Hrun & Hct' & Htd & Hc)
  end.
  exists k'. split; [exact Hrun|].
  rewrite Hct', Htd, Hc. cbn. rewrite Hdocs. auto.
Qed.

Lemma select_cell_empty (k : kernel) :
  g_top_docs k = [] ->
  select_cell num_tokens_from_string model_tokens_limit COMBINE_PROMPT_TEMPLATE k
    = print "NO RESULTS FROM AZURE SEARCH" k.
Proof. intros H. unfold select_cell. rewrite H. reflexivity. Qed.

End CellFacts.

(** C1.  With documents to answer from, the selecting cell binds
    [chain_type] to "map_reduce" exactly when the requested tokens (prompt
    plus the documents' tokens plus the completion budget) exceed nine
    tenths of the model's window, and to "stuff" otherwise; the recorded
    run (window 16384, prompt 1669, documents 3529, completion 1000) gives
    6198 and "stuff", and 14000 tokens of documents give 16669 and
    "map_reduce". *)
Theorem selector_decision_rule
    (num_tokens_from_string : string -> Z)
    (model_tokens_limit : string -> Py.exn + Z)
    (COMBINE_PROMPT_TEMPLATE : string)
    (k : kernel) (tokens_limit : Z) :
  g_top_docs k <> [] ->
  model_tokens_limit MODEL = inr tokens_limit ->
  0 <= tokens_limit < 2 ^ 48 ->
  let requested :=
    num_tokens_from_string COMBINE_PROMPT_TEMPLATE
    + num_tokens_from_docs num_tokens_from_string (g_top_docs k)
    + COMPLETION_TOKENS in
  (exists k',
      select_cell num_tokens_from_string model_tokens_limit COMBINE_PROMPT_TEMPLATE k
        = (k', inr tt) /\
      g_chain_type k' =
        Some (if 9 * tokens_limit <? 10 * requested then "map_reduce" else "stuff")) /\
  (forall prompt_tokens context_tokens completion_tokens,
      chain_type (requested_tokens prompt_tokens context_tokens completion_tokens) tokens_limit
      = inr (if 9 * tokens_limit <? 10 * (prompt_tokens + context_tokens + completion_tokens)
             then "map_reduce" else "stuff")) /\
  requested_tokens 1669 3529 1000 = 6198 /\
  chain_type (requested_tokens 1669 3529 1000) 16384 = inr "stuff" /\
  requested_tokens 1669 14000 1000 = 16669 /\
  chain_type (requested_tokens 1669 14000 1000) 16384 = inr "map_reduce".
Proof.
  intros Hne Hlim Hrange requested.
  split; [|split; [|repeat split]].
  - destruct (select_cell_nonempty num_tokens_from_string model_tokens_limit
                COMBINE_PROMPT_TEMPLATE k tokens_limit _ Hne Hlim
                (chain_type_exact _ tokens_limit Hrange)) as (k' & Hrun & Hct & _).
    exists k'. split; [exact Hrun|]. exact Hct.
  - intros p c r. apply chain_type_exact, Hrange.
Qed.

(** C4.  With the window, the prompt tokens and the completion budget fixed,
    a larger total of document tokens never turns "map_reduce" back into
    "stuff". *)
Theorem strategy_selection_monotone
    (prompt_tokens completion_tokens tokens_limit t1 t2 : Z) :
  t1 <= t2 ->
  chain_type (requested_tokens prompt_tokens t1 completion_tokens) tokens_limit
    = inr "map_reduce" ->
  chain_type (requested_tokens prompt_tokens t2 completion_tokens) tokens_limit
    = inr "map_reduce".
Proof.
  unfold chain_type, requested_tokens. intros Hle.
  destruct (float_of_int tokens_limit) as [e | limit]; [discriminate|].
  destruct (int_gt_float (prompt_tokens + t1 + completion_tokens) _) eqn:H1.
  - intros _.
    assert (Hsum : prompt_tokens + t1 + completion_tokens
                   <= prompt_tokens + t2 + completion_tokens) by lia.
    rewrite (int_gt_float_mono _ _ _ Hsum H1).
    reflexivity.
  - intros H. inversion H.
Qed.

(** C2 (what the cells do with no documents).  In a kernel that still holds
    [chain_type = "stuff"] from an earlier question, the selecting cell
    prints its message and leaves the name alone, the next cell rebuilds the
    chain, and the last one sends the completion service a request with no
    document at all.  In a kernel where [chain_type] was never bound the run
    stops at the second cell with a [NameError]; no request is sent and no
    response is bound. *)
Theorem zero_candidates_cells
    (num_tokens_from_string : string -> Z)
    (model_tokens_limit : string -> Py.exn + Z)
    (COMBINE_PROMPT_TEMPLATE : string)
    (completion : kernel -> llm_call -> Py.exn + string)
    (earlier : kernel) :
  let cells :=
    answer_cells num_tokens_from_string model_tokens_limit COMBINE_PROMPT_TEMPLATE
      completion in
  let stale :=
    {| g_top_docs := []; g_chain_type := Some "stuff"; g_chain := g_chain earlier;
       g_response := g_response earlier; stdout := stdout earlier;
       completions := completions earlier |} in
  (completions (fst (cells stale)) = (completions earlier ++ [StuffCall []])%list /\
   stdout (fst (cells stale)) = (stdout earlier ++ ["NO RESULTS FROM AZURE SEARCH"])%list) /\
  cells (fresh_kernel []) =
    ({| g_top_docs := []; g_chain_type := None; g_chain := None; g_response := None;
        stdout := ["NO RESULTS FROM AZURE SEARCH"]; completions := [] |},
     inl (Py.NameError "chain_type")).
Proof.
  intros cells stale. split; [|reflexivity].
  unfold cells, answer_cells, stale. unfold Py.bind at 1.
  rewrite select_cell_empty by reflexivity.
  cbn. destruct (completion _ (StuffCall [])); cbn; auto.
Qed.

(** C7.  The token count of a collection is the sum of the counts of its
    documents, each counted alone: it adds over concatenation and over any
    split of the collection into parts, and it does not depend on the order
    of the documents. *)
Theorem token_count_additive (num_tokens_from_string : string -> Z) :
  let countTokens := num_tokens_from_docs num_tokens_from_string in
  (forall docs1 docs2,
      countTokens (docs1 ++ docs2)%list = countTokens docs1 + countTokens docs2) /\
  (forall docs,
      countTokens docs = fold_right Z.add 0 (map (fun d => countTokens [d]) docs)) /\
  (forall docs docs', Permutation docs docs' -> countTokens docs = countTokens docs') /\
  (forall docs parts,
      Permutation (List.concat parts) docs ->
      countTokens docs = fold_right Z.add 0 (map countTokens parts)).
Proof.
  intros countTokens. subst countTokens.
  set (count := num_tokens_from_docs num_tokens_from_string).
  assert (Hcons : forall d docs,
             count (d :: docs) = num_tokens_from_string (page_content d) + count docs)
    by reflexivity.
  assert (Happ : forall docs1 docs2, count (docs1 ++ docs2)%list = count docs1 + count docs2).
  { induction docs1 as [|d docs1 IH]; intros docs2; [reflexivity|].
    rewrite <- app_comm_cons, !Hcons, IH. lia. }
  assert (Hperm : forall docs docs', Permutation docs docs' -> count docs = count docs').
  { induction 1; rewrite ?Hcons; lia. }
  split; [exact Happ|]. split; [|split; [exact Hperm|]].
  - induction docs as [|d docs IH]; [reflexivity|].
    cbn [map fold_right]. rewrite <- IH, !Hcons. change (count []) with 0. lia.
  - intros docs parts Hp. rewrite <- (Hperm _ _ Hp). clear Hp.
    induction parts as [|part parts IH]; [reflexivity|].
    cbn [List.concat map fold_right]. rewrite Happ, IH. reflexivity.
Qed.

(** *** Instances *)

(** [0.9 * 16384] is the double [8106479329266893 * 2^-39], a little above
    14745.6; an int too large for a double raises. *)
Example float_product_of_the_recorded_window :
  float_of_int 16384 = inr (S754_finite false 4503599627370496 (-38)) /\
  float_mul float_0_9 (S754_finite false 4503599627370496 (-38))
    = S754_finite false 8106479329266893 (-39) /\
  147456 * 2 ^ 39 < 10 * 8106479329266893 < 147457 * 2 ^ 39 /\
  float_of_int (2 ^ 1024 - 2 ^ 970 - 1)
    = inr (S754_finite false 9007199254740991 971) /\
  float_of_int (2 ^ 1024 - 2 ^ 970)
    = inl (Py.OverflowError "int too large to convert to float").
Proof. vm_compute. repeat split; reflexivity. Qed.

(** At the boundary of the recorded model: nine tenths of 16384 is 14745.6. *)
Example chain_type_boundary :
  chain_type 14745 16384 = inr "stuff" /\ chain_type 14746 16384 = inr "map_reduce".
Proof. split; reflexivity. Qed.

(** Two questions in one kernel: the first finds a document and is answered
    with the "stuff" chain; the second finds none, prints the message, and
    the cells after it still send the completion service a request, with no
    document in it. *)
Example zero_candidates_after_an_answered_question :
  let cells := answer_cells example_tokenizer example_table "prompt" example_completion in
  let answered := fst (cells (fresh_kernel [example_doc])) in
  let rerun := cells (with_top_docs answered []) in
  g_chain_type answered = Some "stuff" /\
  completions answered = [StuffCall [example_doc]] /\
  snd rerun = inr tt /\
  completions (fst rerun) = [StuffCall [example_doc]; StuffCall []] /\
  stdout (fst rerun) = (stdout answered ++ ["NO RESULTS FROM AZURE SEARCH"])%list /\
  g_response (fst rerun) = Some "an answer".
Proof. vm_compute. repeat split. Qed.

Lemma selector_decision_rule_witness :
  exists k',
    select_cell example_tokenizer example_table "prompt" (fresh_kernel [example_doc])
      = (k', inr tt) /\
    g_chain_type k' = Some "stuff".
Proof.
  assert (Hne : g_top_docs (fresh_kernel [example_doc]) <> []) by discriminate.
  assert (Hlim : example_table MODEL = inr 16384) by reflexivity.
  assert (Hrange : 0 <= 16384 < 2 ^ 48) by (split; [lia | reflexivity]).
  destruct (selector_decision_rule example_tokenizer example_table "prompt"
              (fresh_kernel [example_doc]) 16384 Hne Hlim Hrange)
    as [(k' & Hrun & Hct) _].
  exists k'. split; [exact Hrun | exact Hct].
Defined.

Lemma strategy_selection_monotone_witness :
  14000 <= 15000 /\
  chain_type (requested_tokens 1669 14000 1000) 16384 = inr "map_reduce" /\
  chain_type (requested_tokens 1669 15000 1000) 16384 = inr "map_reduce".
Proof.
  assert (Hle : 14000 <= 15000) by lia.
  assert (H1 : chain_type (requested_tokens 1669 14000 1000) 16384 = inr "map_reduce")
    by reflexivity.
  split; [exact Hle|]. split; [exact H1|].
  exact (strategy_selection_monotone 1669 1000 16384 14000 15000 Hle H1).
Defined.

End SelectorFacts.

(* ===================================================================== *)
(** ** Facts about fusion *)
(* ===================================================================== *)

Module FusionFacts.
Import Fusion.

Create HintDb fusion.
#[local] Hint Constructors subseq : fusion.

Lemma subseq_nil_l {A} (l : list A) : subseq [] l.
Proof. induction l; auto with fusion. Qed.

Lemma subseq_trans {A} (l1 l2 l3 : list A) :
  subseq l1 l2 -> subseq l2 l3 -> subseq l1 l3.
Proof.
  intros H12 H23. revert l1 H12.
  induction H23; intros l0 H12; auto with fusion.
  inversion H12; subst; auto with fusion.
Qed.

Lemma subseq_In {A} (l1 l2 : list A) (x : A) : subseq l1 l2 -> In x l1 -> In x l2.
Proof.
  induction 1; simpl; intros Hin; auto.
  destruct Hin; auto.
Qed.

Lemma subseq_Forall {A} (P : A -> Prop) (l1 l2 : list A) :
  subseq l1 l2 -> Forall P l2 -> Forall P l1.
Proof.
  intros Hs Hall. rewrite Forall_forall in *.
  intros x Hx. apply Hall. eapply subseq_In; eauto.
Qed.

Lemma subseq_StronglySorted {A} (R : A -> A -> Prop) (l1 l2 : list A) :
  subseq l1 l2 -> StronglySorted R l2 -> StronglySorted R l1.
Proof.
  induction 1; intros Hsorted.
  - constructor.
  - inversion Hsorted; subst. auto.
  - inversion Hsorted; subst. constructor; auto.
    eapply subseq_Forall; eauto.
Qed.

Lemma subseq_NoDup_map {A B} (f : A -> B) (l1 l2 : list A) :
  subseq l1 l2 -> NoDup (map f l2) -> NoDup (map f l1).
Proof.
  induction 1; simpl; intros Hnd.
  - constructor.
  - inversion Hnd; subst. auto.
  - inversion Hnd as [|? ? Hnotin Hrest]; subst. constructor; auto.
    intros Hin. apply Hnotin.
    apply in_map_iff in Hin. destruct Hin as (y & Hy & Hin).
    apply in_map_iff. exists y. split; [exact Hy|]. eapply subseq_In; eauto.
Qed.

Lemma firstn_subseq {A} (n : nat) (l : list A) : subseq (firstn n l) l.
Proof.
  revert n. induction l as [|x l IH]; intros [|n]; simpl; auto with fusion.
  apply subseq_nil_l.
Qed.

(** *** Sorting *)

Lemma score_ge_trans (a b c : FusedCandidate) :
  score_ge a b -> score_ge b c -> score_ge a c.
Proof. unfold score_ge. intros Hab Hbc. eapply Qle_trans; eauto. Qed.

Lemma insert_desc_In (c x : FusedCandidate) (l : list FusedCandidate) :
  In x (insert_desc c l) <-> x = c \/ In x l.
Proof.
  induction l as [|y l IH]; simpl.
  - intuition.
  - destruct (Qle_bool (ordering_score y) (ordering_score c)); simpl.
    + intuition.
    + rewrite IH. intuition.
Qed.

Lemma insert_desc_sorted (c : FusedCandidate) (l : list FusedCandidate) :
  StronglySorted score_ge l -> StronglySorted score_ge (insert_desc c l).
Proof.
  induction l as [|y l IH]; intros Hsorted; simpl.
  - constructor; constructor.
  - inversion Hsorted as [|? ? Hrest Hall]; subst.
    destruct (Qle_bool (ordering_score y) (ordering_score c)) eqn:E.
    + apply Qle_bool_iff in E. constructor; [exact Hsorted|].
      constructor; [exact E|].
      eapply Forall_impl; [|exact Hall].
      intros z Hz. eapply score_ge_trans; eauto.
    + assert (Hlt : (ordering_score c < ordering_score y)%Q).
      { apply Qnot_le_lt. intros Hle. apply Qle_bool_iff in Hle. congruence. }
      constructor; [auto|].
      apply Forall_forall. intros z Hz. apply insert_desc_In in Hz.
      destruct Hz as [-> | Hz].
      * apply Qlt_le_weak, Hlt.
      * rewrite Forall_forall in Hall. auto.
Qed.

Lemma sort_desc_sorted (l : list FusedCandidate) : StronglySorted score_ge (sort_desc l).
Proof.
  induction l as [|c l IH]; simpl.
  - constructor.
  - apply insert_desc_sorted, IH.
Qed.

Lemma sort_desc_In (x : FusedCandidate) (l : list FusedCandidate) :
  In x (sort_desc l) <-> In x l.
Proof.
  induction l as [|c l IH]; simpl; [tauto|].
  rewrite insert_desc_In, IH. intuition.
Qed.

(** *** Deduplication *)

Lemma dedup_subseq (kept l : list FusedCandidate) : subseq (dedup kept l) l.
Proof.
  revert kept. induction l as [|c l IH]; intros kept; simpl.
  - constructor.
  - destruct (existsb (duplicate c) kept); auto with fusion.
Qed.

Lemma duplicate_same_content (a b : FusedCandidate) :
  content a = content b -> duplicate a b = true.
Proof. intros H. unfold duplicate. rewrite H, String.eqb_refl. reflexivity. Qed.

Lemma dedup_apart (kept l : list FusedCandidate) (x y : FusedCandidate) :
  In x (dedup kept l) -> In y kept -> duplicate x y = false.
Proof.
  revert kept. induction l as [|c l IH]; intros kept Hx Hy; simpl in Hx.
  - destruct Hx.
  - destruct (existsb (duplicate c) kept) eqn:E.
    + eauto.
    + destruct Hx as [<- | Hx].
      * destruct (duplicate c y) eqn:D; [|reflexivity].
        assert (existsb (duplicate c) kept = true)
          by (apply existsb_exists; exists y; auto).
        congruence.
      * apply (IH (c :: kept)); simpl; auto.
Qed.

Lemma dedup_distinct_content (kept l : list FusedCandidate) :
  NoDup (map content (dedup kept l)).
Proof.
  revert kept. induction l as [|c l IH]; intros kept; simpl.
  - constructor.
  - destruct (existsb (duplicate c) kept); [apply IH|].
    simpl. constructor; [|apply IH].
    intros Hin. apply in_map_iff in Hin. destruct Hin as (x & Hcontent & Hx).
    pose proof (dedup_apart (c :: kept) l x c Hx (or_introl eq_refl)) as Hapart.
    rewrite (duplicate_same_content x c Hcontent) in Hapart. discriminate.
Qed.

Section FuseFacts.

Variable QueryVector : Type.
Variable search_backend : string -> retrieval QueryVector -> nat -> Py.exn + list SearchHit.
Variable surrogate_score : nat -> Q.

Lemma all_failed_queries (call : retrieval QueryVector) (k : nat) (indexNames : list string) :
  all_failed (map (query_index QueryVector search_backend call k) indexNames) = true ->
  Forall (fun index => exists e, search_backend index call k = inl e) indexNames.
Proof.
  induction indexNames as [|index rest IH]; simpl; intros H.
  - constructor.
  - apply andb_prop in H. destruct H as [Hhead Hrest].
    constructor; [|auto].
    unfold query_index in Hhead.
    destruct (search_backend index call k) as [e | hits]; [eauto | discriminate].
Qed.

End FuseFacts.

(** The scenario of the spec: the same content from two indexes, scored 2.1
    and 1.8, leaves the one scored 2.1. *)
Example fuse_same_content_from_two_indexes :
  let hit index score :=
    {| index_name := index; document_id := "1"; hit_content := "same text";
       hit_title := "t"; hit_location := index; relevance_score := 1;
       semantic_rerank_score := Some score |} in
  let backend (index : string) (_ : retrieval unit) (_ : nat) : Py.exn + list SearchHit :=
    if String.eqb index "A" then inr [hit "A" (21 # 10)] else inr [hit "B" (18 # 10)] in
  fuse unit backend (fun _ => 0%Q) "q" ["B"; "A"] 5 None None 1
  = inr [ {| content := "same text"; location := "A"; ordering_score := 21 # 10 |} ].
Proof. reflexivity. Qed.

(** C3.  Whenever fusion returns, its output has at most [k] candidates, is
    in descending order of the ordering score, holds no candidate scored
    below [rerankerThreshold] and no two candidates with the same content;
    it returns unless every index query failed. *)
Theorem fused_output_contract
    (QueryVector : Type)
    (search_backend : string -> retrieval QueryVector -> nat -> Py.exn + list SearchHit)
    (surrogate_score : nat -> Q)
    (query : string) (indexNames : list string) (k : nat)
    (vectorQuery : option QueryVector) (textQuery : option string)
    (rerankerThreshold : Q) :
  match fuse QueryVector search_backend surrogate_score query indexNames k
          vectorQuery textQuery rerankerThreshold with
  | inr fused =>
      (List.length fused <= k)%nat /\
      StronglySorted score_ge fused /\
      Forall (fun c => ~ (ordering_score c < rerankerThreshold)%Q) fused /\
      NoDup (map content fused)
  | inl e =>
      e = Py.RetrievalError /\
      Forall (fun index =>
                exists e', search_backend index
                             (retrieval_of QueryVector query vectorQuery textQuery) k = inl e')
             indexNames
  end.
Proof.
  unfold fuse.
  set (call := retrieval_of QueryVector query vectorQuery textQuery).
  set (results := map (query_index QueryVector search_backend call k) indexNames).
  destruct (all_failed results) eqn:Hfailed.
  - split; [reflexivity|]. apply all_failed_queries, Hfailed.
  - set (kept := filter (above_threshold rerankerThreshold) (merge surrogate_score results)).
    assert (Hsub : subseq (firstn k (dedup [] (sort_desc kept))) (sort_desc kept)).
    { eapply subseq_trans; [apply firstn_subseq | apply dedup_subseq]. }
    split; [apply firstn_le_length|].
    split; [eapply subseq_StronglySorted; [exact Hsub | apply sort_desc_sorted]|].
    split.
    + eapply subseq_Forall; [exact Hsub|].
      apply Forall_forall. intros c Hc. apply (proj1 (sort_desc_In _ _)) in Hc.
      unfold kept in Hc. apply filter_In in Hc. destruct Hc as [_ Hc].
      unfold above_threshold in Hc. apply Qle_bool_iff in Hc.
      apply Qle_not_lt, Hc.
    + eapply subseq_NoDup_map; [apply firstn_subseq | apply dedup_distinct_content].
Qed.

End FusionFacts.

(* ===================================================================== *)
(** ** Facts about texts and the decimal text of an int *)
(* ===================================================================== *)

Module StringFacts.

Lemma append_assoc (a b c : string) : (a ++ b) ++ c = a ++ (b ++ c).
Proof. induction a as [|x a IH]; simpl; [|rewrite IH]; reflexivity. Qed.

Lemma append_nil_r (a : string) : a ++ "" = a.
Proof. induction a as [|x a IH]; simpl; [|rewrite IH]; reflexivity. Qed.

Lemma length_append (a b : string) :
  String.length (a ++ b) = (String.length a + String.length b)%nat.
Proof. induction a as [|x a IH]; simpl; [|rewrite IH]; reflexivity. Qed.

Lemma append_inv_head (a b c : string) : a ++ b = a ++ c -> b = c.
Proof. induction a as [|x a IH]; simpl; intros H; [exact H | inversion H; auto]. Qed.

Lemma append_same_length (a b c d : string) :
  String.length a = String.length c -> a ++ b = c ++ d -> a = c /\ b = d.
Proof.
  revert c. induction a as [|x a IH]; intros [|y c] Hlen H; simpl in *; try discriminate.
  - auto.
  - inversion H. subst. destruct (IH c) as [-> ->]; auto.
Qed.

Lemma append_inv_tail (a b c : string) : a ++ c = b ++ c -> a = b.
Proof.
  intros H. apply (append_same_length a c b c); [|exact H].
  apply (f_equal String.length) in H. rewrite !length_append in H. lia.
Qed.

End StringFacts.

Module StrFacts.
Import Builtins StringFacts.

(** *** The decimal text of an int *)

Lemma string_of_revapp (d acc : Decimal.uint) :
  NilEmpty.string_of_uint (Decimal.revapp d acc)
  = NilEmpty.string_of_uint (Decimal.revapp d Decimal.Nil) ++ NilEmpty.string_of_uint acc.
Proof.
  revert acc. induction d as [|d IH|d IH|d IH|d IH|d IH|d IH|d IH|d IH|d IH|d IH];
    intros acc; [reflexivity|..]; cbn [Decimal.revapp];
    rewrite IH; symmetry; rewrite IH, append_assoc; reflexivity.
Qed.

Lemma string_of_uint_digits (d : Decimal.uint) :
  all_digits (NilEmpty.string_of_uint d) = true.
Proof. induction d; simpl; auto. Qed.

Lemma str_pos (p : positive) :
  Py.str (Zpos p) = NilEmpty.string_of_uint (Pos.to_uint p).
Proof.
  unfold Py.str. cbn [Z.to_int NilZero.string_of_int]. unfold NilZero.string_of_uint.
  destruct (Pos.to_uint p) eqn:E; try reflexivity.
  exfalso. exact (DecimalPos.Unsigned.to_uint_nonnil p E).
Qed.

(** The text of a non-negative int is a non-empty run of digits. *)
Lemma str_digits (n : Z) : 0 <= n -> all_digits (Py.str n) = true /\ Py.str n <> "".
Proof.
  intros Hn. destruct n as [|p|p]; [split; [reflexivity|discriminate]| |lia].
  rewrite str_pos. split; [apply string_of_uint_digits|].
  destruct (Pos.to_uint p) eqn:E; try discriminate.
  exfalso. exact (DecimalPos.Unsigned.to_uint_nonnil p E).
Qed.

(** [str] is one to one. *)
Lemma str_inj (n m : Z) : Py.str n = Py.str m -> n = m.
Proof.
  unfold Py.str. intros H.
  apply DecimalZ.to_int_inj.
  assert (Hnil : forall z, Z.to_int z <> Decimal.Pos Decimal.Nil /\
                           Z.to_int z <> Decimal.Neg Decimal.Nil).
  { intros [|p|p]; cbn; split; try discriminate; intros E; inversion E as [E'];
      exact (DecimalPos.Unsigned.to_uint_nonnil p E'). }
  assert (Hs : Some (Z.to_int n) = Some (Z.to_int m)).
  { rewrite <- (NilZero.isi (Z.to_int n)), <- (NilZero.isi (Z.to_int m)), H;
      try apply Hnil. reflexivity. }
  inversion Hs. reflexivity.
Qed.

(** The last digit: the text of [10 * n + d] is the text of [n] followed by
    the digit [d]. *)
Lemma to_lu_tenfold_plus (p : positive) (k : N) :
  (k < 10)%N ->
  NilEmpty.string_of_uint (Decimal.rev (DecimalPos.Unsigned.to_lu (10 * Npos p + k)))
  = NilEmpty.string_of_uint (Decimal.rev (DecimalPos.Unsigned.to_lu (Npos p)))
    ++ NilEmpty.string_of_uint (Decimal.rev (DecimalPos.Unsigned.to_lu k)).
Proof.
  intros Hk.
  assert (Hcases : (k = 0 \/ k = 1 \/ k = 2 \/ k = 3 \/ k = 4 \/ k = 5 \/ k = 6 \/ k = 7
                    \/ k = 8 \/ k = 9)%N) by lia.
  assert (Hiter : (10 * Npos p + k)%N = Nat.iter (N.to_nat k) N.succ (10 * Npos p)%N)
    by (rewrite N.add_comm; apply DecimalPos.Unsigned.Nadd_alt).
  rewrite Hiter.
  repeat destruct Hcases as [-> | Hcases]; try subst k;
    match goal with
    | |- context [N.to_nat ?c] =>
        let v := eval cbv in (N.to_nat c) in change (N.to_nat c) with v
    end;
    cbn [Nat.iter nat_rect];
    rewrite ?DecimalPos.Unsigned.to_lu_succ, DecimalPos.Unsigned.to_ldec_tenfold;
    cbn [Decimal.Little.succ]; unfold Decimal.rev at 1; cbn [Decimal.revapp];
    rewrite string_of_revapp; reflexivity.
Qed.

Lemma str_last_digit (n d : Z) :
  1 <= n -> 0 <= d <= 9 -> Py.str (10 * n + d) = Py.str n ++ Py.str d.
Proof.
  intros Hn Hd.
  destruct n as [|p|p]; try lia.
  assert (Hpos : 0 < 10 * Zpos p + d) by lia.
  destruct (10 * Zpos p + d) as [|q|q] eqn:Eq; try lia.
  rewrite !str_pos. unfold Pos.to_uint.
  change (Pos.to_little_uint q) with (DecimalPos.Unsigned.to_lu (Npos q)).
  change (Pos.to_little_uint p) with (DecimalPos.Unsigned.to_lu (Npos p)).
  assert (Hq : Npos q = (10 * Npos p + Z.to_N d)%N) by lia.
  rewrite Hq, to_lu_tenfold_plus by lia.
  f_equal.
  destruct d as [|r|r]; [reflexivity| |lia].
  rewrite str_pos. reflexivity.
Qed.

End StrFacts.

(* ===================================================================== *)
(** ** Facts about dictionaries, slices and the cells of the books *)
(* ===================================================================== *)

Module BuiltinsFacts.
Import Builtins.

Lemma dict_set_new {V} (key : string) (value : V) (d : dict V) :
  ~ In key (map fst d) -> dict_set key value d = (d ++ [(key, value)])%list.
Proof.
  induction d as [|[k v] d IH]; intros Hnew; [reflexivity|].
  cbn [dict_set]. destruct (String.eqb k key) eqn:E.
  - apply String.eqb_eq in E. exfalso. apply Hnew. left. exact E.
  - rewrite IH; [reflexivity|]. intros Hin. apply Hnew. right. exact Hin.
Qed.

Lemma dict_set_there {V} (key : string) (value old : V) (before after : dict V) :
  ~ In key (map fst before) ->
  dict_set key value (before ++ (key, old) :: after)%list
  = (before ++ (key, value) :: after)%list.
Proof.
  induction before as [|[k v] before IH]; intros Hnew.
  - cbn. rewrite String.eqb_refl. reflexivity.
  - cbn [dict_set app]. destruct (String.eqb k key) eqn:E.
    + apply String.eqb_eq in E. exfalso. apply Hnew. left. exact E.
    + rewrite IH; [reflexivity|]. intros Hin. apply Hnew. right. exact Hin.
Qed.

Lemma dict_set_keys {V} (key : string) (value : V) (d : dict V) :
  In key (map fst d) -> map fst (dict_set key value d) = map fst d.
Proof.
  induction d as [|[k v] d IH]; intros Hin; [destruct Hin|].
  cbn [dict_set]. destruct (String.eqb k key) eqn:E; [reflexivity|].
  cbn [map fst]. f_equal. apply IH.
  destruct Hin as [Hk | Hin]; [|exact Hin].
  apply String.eqb_neq in E. contradiction.
Qed.

Lemma dict_get_set {V} (key : string) (value : V) (d : dict V) :
  dict_get key (dict_set key value d) = Some value.
Proof.
  induction d as [|[k v] d IH]; cbn.
  - rewrite String.eqb_refl. reflexivity.
  - destruct (String.eqb k key) eqn:E; cbn; rewrite E; [reflexivity | exact IH].
Qed.

Lemma dict_get_set_other {V} (key other : string) (value : V) (d : dict V) :
  other <> key -> dict_get other (dict_set key value d) = dict_get other d.
Proof.
  intros Hne. induction d as [|[k v] d IH]; cbn.
  - destruct (String.eqb key other) eqn:E; [|reflexivity].
    apply String.eqb_eq in E. congruence.
  - destruct (String.eqb k key) eqn:E; cbn.
    + apply String.eqb_eq in E. subst k.
      destruct (String.eqb key other) eqn:E'; [|reflexivity].
      apply String.eqb_eq in E'. congruence.
    + destruct (String.eqb k other); [reflexivity | exact IH].
Qed.

Lemma len_append (a b : string) : len (a ++ b) = (len a + len b)%nat.
Proof.
  induction a as [|c a IH]; [reflexivity|].
  cbn [append len]. destruct (is_continuation c); rewrite IH; reflexivity.
Qed.

Lemma slice_to_length (n : nat) (text : string) :
  len (slice_to n text) = Nat.min n (len text).
Proof.
  revert n. induction text as [|c text IH]; intros n; cbn [slice_to len].
  - rewrite Nat.min_0_r. reflexivity.
  - destruct (is_continuation c) eqn:Hc.
    + cbn [len]. rewrite Hc. apply IH.
    + destruct n as [|n]; [reflexivity|].
      cbn [len]. rewrite Hc, IH. reflexivity.
Qed.

Lemma slice_to_short (n : nat) (text : string) :
  (len text <= n)%nat -> slice_to n text = text.
Proof.
  revert n. induction text as [|c text IH]; intros n; cbn [slice_to len]; [reflexivity|].
  destruct (is_continuation c).
  - intros H. rewrite IH by exact H. reflexivity.
  - destruct n as [|n]; [lia|]. intros H. rewrite IH by lia. reflexivity.
Qed.

Lemma slice_to_nothing (tail : string) :
  starts_character tail = true -> slice_to 0 tail = "".
Proof.
  destruct tail as [|c tail]; [reflexivity|].
  cbn [starts_character slice_to]. destruct (is_continuation c); [discriminate | reflexivity].
Qed.

Lemma slice_to_append (n : nat) (text tail : string) :
  (n <= len text)%nat -> starts_character tail = true ->
  slice_to n (text ++ tail) = slice_to n text.
Proof.
  intros Hn Htail. revert n Hn.
  induction text as [|c text IH]; intros n Hn; cbn [append slice_to len] in *.
  - assert (n = 0%nat) by lia. subst n. apply slice_to_nothing, Htail.
  - destruct (is_continuation c).
    + rewrite IH by exact Hn. reflexivity.
    + destruct n as [|n]; [reflexivity|]. rewrite IH by lia. reflexivity.
Qed.

End BuiltinsFacts.

Module BooksFacts.
Import Ingestion Builtins BuiltinsFacts Books.

Section ParsingFacts.

Variable parse_pdf : library -> string -> bool -> list string * (Py.exn + list page).
Variable elapsed_time : library -> string.

Abbreviation parse_book := (parse_book parse_pdf elapsed_time).
Abbreviation parse_cell := (parse_cell parse_pdf elapsed_time).
Abbreviation reparse_cell := (reparse_cell parse_pdf).

(** The line that reports the pages of a book. *)
Abbreviation report book pages :=
  (book ++ " contained " ++ Py.str (Z.of_nat (List.length pages)) ++ " pages" ++ nl)%string.

(** One turn of the parsing loop: the parser is called once, with the
    local path and without the service; when it raises nothing is stored,
    otherwise the book map is stored and reported. *)
Lemma parse_book_outcome (book : string) (s : library) (m : dict (list page)) :
  book_pages_map s = Some m ->
  exists lines,
    console (fst (parse_book book s)) = (console s ++ lines)%list /\
    parse_calls (fst (parse_book book s))
      = (parse_calls s ++ [((LOCAL_FOLDER ++ book)%string, false)])%list /\
    ((exists e, snd (parse_book book s) = inl e /\
                book_pages_map (fst (parse_book book s)) = Some m) \/
     (exists pages, snd (parse_book book s) = inr tt /\
                    book_pages_map (fst (parse_book book s))
                      = Some (dict_set book pages m) /\
                    In (report book pages) lines)).
Proof.
  intros Hm. destruct (parse_book book s) as [s1 r1] eqn:Hrun. cbn [fst snd].
  unfold Books.parse_book in Hrun.
  unfold Py.bind at 1 in Hrun. cbn [Books.print Py.modify] in Hrun.
  unfold Py.bind at 1 in Hrun. unfold call_parse_pdf at 1 in Hrun.
  cbn [book_pages_map console parse_calls] in Hrun.
  match type of Hrun with
  | context [parse_pdf ?s0 ?f false] =>
      destruct (parse_pdf s0 f false) as [out [e | pages]]
  end; cbn [fst snd] in Hrun.
  - injection Hrun as <- <-. cbn [console parse_calls book_pages_map].
    eexists. rewrite <- app_assoc. split; [reflexivity|]. split; [reflexivity|].
    left. exists e. auto.
  - unfold Py.bind at 1 in Hrun. unfold read_book_pages_map at 1 in Hrun.
    cbn [book_pages_map] in Hrun. rewrite Hm in Hrun.
    cbn in Hrun. injection Hrun as <- <-. cbn [console parse_calls book_pages_map].
    eexists. rewrite <- !app_assoc. split; [reflexivity|]. split; [reflexivity|].
    right. exists pages. split; [reflexivity|]. split; [reflexivity|].
    apply in_or_app. right. apply in_or_app. right. right. left. reflexivity.
Qed.

(** The loop, from a state in which some books are stored already. *)
Lemma parse_loop (books : list string) :
  forall (s : library) (m : dict (list page)),
    book_pages_map s = Some m ->
    NoDup books ->
    (forall book, In book books -> ~ In book (map fst m)) ->
    let out := Py.for_each books parse_book s in
    exists done lines,
      book_pages_map (fst out) = Some (m ++ done)%list /\
      console (fst out) = (console s ++ lines)%list /\
      Forall (fun entry => In (report (fst entry) (snd entry)) lines) done /\
      ((snd out = inr tt /\ map fst done = books /\
        parse_calls (fst out)
          = (parse_calls s ++ map (fun book => ((LOCAL_FOLDER ++ book)%string, false)) books)%list) \/
       (exists e book after,
          snd out = inl e /\ books = (map fst done ++ book :: after)%list /\
          parse_calls (fst out)
            = (parse_calls s
               ++ map (fun book => ((LOCAL_FOLDER ++ book)%string, false))
                      (map fst done ++ [book]))%list)).
Proof.
  induction books as [|book books IH]; intros s m Hm Hnodup Hfresh out; subst out.
  - exists [], []. cbn. rewrite !app_nil_r. split; [exact Hm|]. split; [reflexivity|].
    split; [constructor|]. left. auto.
  - cbn [Py.for_each]. unfold Py.bind.
    destruct (parse_book_outcome book s m Hm) as (lines0 & Hconsole & Hcalls & Hout).
    destruct (parse_book book s) as [s1 r1]. cbn [fst snd] in *.
    destruct Hout as [(e & -> & Hmap) | (pages & -> & Hmap & Hreport)].
    + exists [], lines0. cbn [fst snd map app]. rewrite app_nil_r.
      split; [exact Hmap|]. split; [exact Hconsole|]. split; [constructor|].
      right. exists e, book, books. auto.
    + rewrite dict_set_new in Hmap by (apply Hfresh; left; reflexivity).
      inversion Hnodup as [|? ? Hnotin Hnodup']. subst.
      destruct (IH s1 (m ++ [(book, pages)])%list Hmap Hnodup') as (done & lines & H1 & H2 & H3 & H4).
      { intros b Hb. rewrite map_app, in_app_iff. cbn.
        intros [Hin | [<- | []]].
        - exact (Hfresh b (or_intror Hb) Hin).
        - exact (Hnotin Hb). }
      exists ((book, pages) :: done), (lines0 ++ lines)%list.
      rewrite H1, H2, Hconsole, <- !app_assoc. cbn [app].
      split; [reflexivity|]. split; [reflexivity|]. split.
      * constructor.
        -- cbn [fst snd]. apply in_or_app. left. exact Hreport.
        -- eapply Forall_impl; [|exact H3]. intros entry Hin. apply in_or_app. right. exact Hin.
      * destruct H4 as [(Hr & Hkeys & Hc) | (e & b & after & Hr & Hkeys & Hc)].
        -- left. split; [exact Hr|]. cbn [map fst]. split; [f_equal; exact Hkeys|].
           rewrite Hc, Hcalls, <- app_assoc. reflexivity.
        -- right. exists e, b, after. split; [exact Hr|]. cbn [map fst app].
           split; [f_equal; exact Hkeys|].
           rewrite Hc, Hcalls, <- app_assoc. reflexivity.
Qed.

(** X12.  The parsing loop has no handler.  Whatever the dictionary held before,
    after the cell it holds the books parsed so far, in the order of the
    list, each reported with the number of its pages: all of them when the
    cell ends normally; when the parser raises, the books before the one
    that failed, and the parser is never called for the books after it. *)
Theorem parsing_stops_at_the_first_failure (books : list string) (s : library) :
  NoDup books ->
  let out := parse_cell books s in
  exists done,
    book_pages_map (fst out) = Some done /\
    Forall (fun entry => In (report (fst entry) (snd entry)) (console (fst out))) done /\
    ((snd out = inr tt /\ map fst done = books /\
      parse_calls (fst out)
        = (parse_calls s ++ map (fun book => ((LOCAL_FOLDER ++ book)%string, false)) books)%list) \/
     (exists e book after,
        snd out = inl e /\ books = (map fst done ++ book :: after)%list /\
        parse_calls (fst out)
          = (parse_calls s
             ++ map (fun book => ((LOCAL_FOLDER ++ book)%string, false))
                    (map fst done ++ [book]))%list)).
Proof.
  intros Hnodup out. subst out. unfold Books.parse_cell, Py.bind.
  cbn [set_book_pages_map Py.modify].
  match goal with
  | |- context [Py.for_each books _ ?s0] =>
      destruct (parse_loop books s0 [] eq_refl Hnodup (fun _ _ H => H))
        as (done & lines & H1 & H2 & H3 & H4)
  end.
  cbn [app console parse_calls] in *.
  exists done. split; [exact H1|]. split; [|exact H4].
  rewrite H2. eapply Forall_impl; [|exact H3].
  intros entry Hin. apply in_or_app. right. exact Hin.
Qed.

(** X13.  The second parse of the scanned book.  When the service raises, the
    dictionary keeps the pages of the first parse; when it answers, the
    new pages take the place of the old ones under the same key: the books
    before and after keep their places and their pages, so the upload loop
    meets the books in the same order. *)
Theorem reparse_replaces_in_place (s : library) (m : dict (list page)) :
  book_pages_map s = Some m ->
  let book := "Pere_Riche_Pere_Pauvre.pdf" in
  let out := reparse_cell s in
  parse_calls (fst out) = (parse_calls s ++ [((LOCAL_FOLDER ++ book)%string, true)])%list /\
  match snd (parse_pdf s (LOCAL_FOLDER ++ book) true) with
  | inl e => snd out = inl e /\ book_pages_map (fst out) = Some m
  | inr pages =>
      snd out = inr tt /\
      (forall before old after,
          m = (before ++ (book, old) :: after)%list -> ~ In book (map fst before) ->
          book_pages_map (fst out) = Some (before ++ (book, pages) :: after)%list) /\
      (In book (map fst m) ->
       exists m', book_pages_map (fst out) = Some m' /\ map fst m' = map fst m /\
                  dict_get book m' = Some pages /\
                  forall other, other <> book -> dict_get other m' = dict_get other m)
  end.
Proof.
  intros Hm book out. subst out.
  destruct (reparse_cell s) as [s1 r1] eqn:Hrun. cbn [fst snd].
  unfold Books.reparse_cell in Hrun. fold book in Hrun.
  unfold Py.bind at 1 in Hrun. unfold call_parse_pdf at 1 in Hrun.
  destruct (parse_pdf s (LOCAL_FOLDER ++ book) true) as [lines [e | pages]];
    cbn [fst snd] in *.
  - injection Hrun as <- <-. cbn [parse_calls book_pages_map]. auto.
  - unfold Py.bind at 1 in Hrun. unfold read_book_pages_map at 1 in Hrun.
    cbn [book_pages_map] in Hrun. rewrite Hm in Hrun.
    cbn [set_book_pages_map Py.modify book_pages_map console parse_calls] in Hrun.
    injection Hrun as <- <-. cbn [parse_calls book_pages_map].
    split; [reflexivity|]. split; [reflexivity|]. split.
    + intros before old after -> Hnew. rewrite dict_set_there by exact Hnew. reflexivity.
    + intros Hin. eexists. split; [reflexivity|].
      split; [apply dict_set_keys, Hin|].
      split; [apply dict_get_set|]. intros other Hne. apply dict_get_set_other, Hne.
Qed.

End ParsingFacts.

Lemma parsing_stops_at_the_first_failure_witness :
  let parser := fun (_ : library) (file : string) (_ : bool) =>
    (["Extracting text using PyPDF"],
     if String.eqb file "./data/books/Made_To_Stick.pdf"
     then inl (Py.ExternalError "damaged file")
     else inr [(0, 0, "first page"); (1, 10, "second page")]) in
  let s := {| book_pages_map := None; console := []; parse_calls := [] |} in
  let out := Books.parse_cell parser (fun _ => "0.000001") books s in
  exists done,
    book_pages_map (fst out) = Some done /\
    Forall (fun entry =>
              In (fst entry ++ " contained " ++ Py.str (Z.of_nat (List.length (snd entry)))
                  ++ " pages" ++ nl)%string (console (fst out))) done /\
    ((snd out = inr tt /\ map fst done = books /\
      parse_calls (fst out)
        = (parse_calls s
           ++ map (fun book => ((LOCAL_FOLDER ++ book)%string, false)) books)%list) \/
     (exists e book after,
        snd out = inl e /\ books = (map fst done ++ book :: after)%list /\
        parse_calls (fst out)
          = (parse_calls s
             ++ map (fun book => ((LOCAL_FOLDER ++ book)%string, false))
                    (map fst done ++ [book]))%list)).
Proof.
  intros parser s.
  apply (parsing_stops_at_the_first_failure parser (fun _ => "0.000001") books s).
  unfold books.
  repeat (constructor; [cbn; intuition discriminate|]). constructor.
Defined.

Lemma reparse_replaces_in_place_witness :
  let parser := fun (_ : library) (_ : string) (_ : bool) =>
    (["Extracting text using Azure Document Intelligence"],
     inr [(0, 0, "Pere riche, pere pauvre")] : Py.exn + list page) in
  let m := [("Made_To_Stick.pdf", [(0, 0, "Made to stick")]);
            ("Pere_Riche_Pere_Pauvre.pdf", [(0, 0, "~~~~~~~~")])] in
  let s := {| book_pages_map := Some m; console := []; parse_calls := [] |} in
  let book := "Pere_Riche_Pere_Pauvre.pdf" in
  let out := Books.reparse_cell parser s in
  parse_calls (fst out) = (parse_calls s ++ [((LOCAL_FOLDER ++ book)%string, true)])%list /\
  match snd (parser s (LOCAL_FOLDER ++ book) true) with
  | inl e => snd out = inl e /\ book_pages_map (fst out) = Some m
  | inr pages =>
      snd out = inr tt /\
      (forall before old after,
          m = (before ++ (book, old) :: after)%list -> ~ In book (map fst before) ->
          book_pages_map (fst out) = Some (before ++ (book, pages) :: after)%list) /\
      (In book (map fst m) ->
       exists m', book_pages_map (fst out) = Some m' /\ map fst m' = map fst m /\
                  dict_get book m' = Some pages /\
                  forall other, other <> book -> dict_get other m' = dict_get other m)
  end.
Proof.
  intros parser m s.
  apply (reparse_replaces_in_place parser s m). reflexivity.
Defined.

Section DownloadFacts.

Variable BLOB_SAS_TOKEN : string.
Variable urlretrieve : list (string * string) -> string -> string -> Py.exn + unit.

Abbreviation download_url := (download_url BLOB_SAS_TOKEN).
Abbreviation download_cell := (download_cell BLOB_SAS_TOKEN urlretrieve).

(** X14.  The download loop has no handler either: it asks for the books in
    order, each from its address in the container followed by the access
    token and into the local folder under its own name, and stops at the
    first request that raises. *)
Theorem download_stops_at_the_first_failure
    (books : list string) (calls : list (string * string)) :
  let out := download_cell books calls in
  exists asked,
    fst out
      = (calls ++ map (fun book => (download_url book, (LOCAL_FOLDER ++ book)%string)) asked)%list /\
    ((snd out = inr tt /\ asked = books) \/
     (exists e fetched book after,
        snd out = inl e /\ asked = (fetched ++ [book])%list /\
        books = (fetched ++ book :: after)%list)).
Proof.
  intros out. subst out. revert calls.
  induction books as [|book books IH]; intros calls.
  - exists []. cbn. rewrite app_nil_r. auto.
  - destruct (download_cell (book :: books) calls) as [calls1 r1] eqn:Hrun. cbn [fst snd].
    unfold Books.download_cell in Hrun, IH. cbn [Py.for_each] in Hrun.
    unfold Py.bind in Hrun. unfold call_urlretrieve at 1 in Hrun.
    destruct (urlretrieve calls _ _) as [e | []].
    + injection Hrun as <- <-. exists [book]. split; [reflexivity|].
      right. exists e, [], book, books. auto.
    + specialize (IH (calls ++ [(download_url book, (LOCAL_FOLDER ++ book)%string)])%list).
      rewrite Hrun in IH. cbn [fst snd] in IH.
      destruct IH as (asked & Hcalls & Hout).
      exists (book :: asked). rewrite Hcalls, <- app_assoc. split; [reflexivity|].
      destruct Hout as [[Hr ->] | (e & fetched & b & after & Hr & -> & ->)].
      * left. auto.
      * right. exists e, (book :: fetched), b, after. auto.
Qed.

End DownloadFacts.

Section SampleFacts.

Variable random_source : nat -> Z.

Abbreviation sample_page := (sample_page random_source).
Abbreviation sample_cell := (sample_cell random_source).

(** The index the cell draws. *)
Abbreviation drawn s := (10 + random_source (draws s) mod (50 - 10 + 1)).

Lemma drawn_range (s : sampler) : 10 <= drawn s <= 50.
Proof.
  pose proof (Z.mod_pos_bound (random_source (draws s)) (50 - 10 + 1) ltac:(lia)). lia.
Qed.

(** One look, by the page at the index drawn. *)
Lemma sample_page_run (bookname : string) (bookmap : list page) (s : sampler) :
  sample_page bookname bookmap s
  = match nth_error bookmap (Z.to_nat (drawn s)) with
    | Some p =>
        ({| shown := (shown s ++ [sample_line bookname (slice_to 80 (page_2 p))])%list;
            draws := S (draws s) |}, inr tt)
    | None =>
        ({| shown := shown s; draws := S (draws s) |},
         inl (IndexError "list index out of range"))
    end.
Proof.
  pose proof (drawn_range s) as Hrange.
  assert (Hneg : (drawn s <? 0) = false) by (apply Z.ltb_ge; lia).
  unfold Books.sample_page, bind, randint, lift, getitem.
  cbv zeta. rewrite Hneg. cbv iota. rewrite Hneg.
  destruct (nth_error bookmap (Z.to_nat (drawn s))); reflexivity.
Qed.

(** X15.  The look at one book: the index drawn lies between 10 and 50, and the
    look raises [IndexError] exactly when the book has no page at that
    index; otherwise it prints at most the first 80 characters of that
    page. *)
Theorem sample_page_outcome (bookname : string) (bookmap : list page) (s : sampler) :
  10 <= drawn s <= 50 /\
  (snd (sample_page bookname bookmap s) = inl (IndexError "list index out of range")
   <-> Z.of_nat (List.length bookmap) <= drawn s) /\
  (forall p,
      nth_error bookmap (Z.to_nat (drawn s)) = Some p ->
      sample_page bookname bookmap s
      = ({| shown := (shown s ++ [sample_line bookname (slice_to 80 (page_2 p))])%list;
            draws := S (draws s) |}, inr tt) /\
      (len (slice_to 80 (page_2 p)) <= 80)%nat) /\
  (nth_error bookmap (Z.to_nat (drawn s)) = None ->
   sample_page bookname bookmap s
   = ({| shown := shown s; draws := S (draws s) |},
      inl (IndexError "list index out of range"))).
Proof.
  pose proof (drawn_range s) as Hrange.
  rewrite sample_page_run.
  split; [exact Hrange|]. split; [|split].
  - destruct (nth_error bookmap (Z.to_nat (drawn s))) eqn:E; cbn [snd].
    + split; [discriminate|]. intros Hle.
      assert (Hlt : (Z.to_nat (drawn s) < List.length bookmap)%nat)
        by (apply nth_error_Some; congruence).
      lia.
    + split; [intros _|reflexivity].
      apply nth_error_None in E. lia.
  - intros p ->. split; [reflexivity|]. rewrite slice_to_length. lia.
  - intros ->. reflexivity.
Qed.

(** X16.  When every book has at least 51 pages the cell cannot fail, whatever
    is drawn: it prints one line for each book, in order, with the
    beginning of one of the pages 10 to 50 of that book. *)
Theorem sampling_is_safe_from_51_pages (book_pages_map : dict (list page)) (s : sampler) :
  (forall book, In book book_pages_map -> (51 <= List.length (snd book))%nat) ->
  exists lines,
    sample_cell book_pages_map s
      = ({| shown := (shown s ++ lines)%list;
            draws := (draws s + List.length book_pages_map)%nat |}, inr tt) /\
    Forall2 (fun book line =>
               exists i p,
                 (10 <= i <= 50)%nat /\ nth_error (snd book) i = Some p /\
                 line = sample_line (fst book) (slice_to 80 (page_2 p)))
            book_pages_map lines.
Proof.
  revert s. induction book_pages_map as [|book rest IH]; intros s Hlong.
  - exists []. cbn. rewrite app_nil_r, Nat.add_0_r. destruct s. split; [reflexivity | constructor].
  - unfold Books.sample_cell in *. cbn [for_each]. unfold bind.
    pose proof (drawn_range s) as Hrange.
    rewrite sample_page_run.
    destruct (nth_error (snd book) (Z.to_nat (drawn s))) as [p|] eqn:E.
    + match goal with
      | |- context [for_each rest _ ?s1] =>
          destruct (IH s1) as (lines & Hrest & Hall);
            [intros b Hb; apply Hlong; right; exact Hb|]
      end.
      rewrite Hrest. cbn [shown draws].
      exists (sample_line (fst book) (slice_to 80 (page_2 p)) :: lines).
      rewrite <- app_assoc. cbn [app List.length].
      split; [f_equal; f_equal; lia|].
      constructor; [|exact Hall].
      exists (Z.to_nat (drawn s)), p. split; [lia|]. auto.
    + exfalso. apply nth_error_None in E.
      specialize (Hlong book (or_introl eq_refl)). lia.
Qed.

(** X17.  A book of ten pages or fewer stops the cell, whatever is drawn: the
    books before it (here, long enough) have their line, the books after
    it are not looked at. *)
Theorem sampling_fails_on_a_short_book
    (before after : dict (list page)) (bookname : string) (bookmap : list page)
    (s : sampler) :
  (forall book, In book before -> (51 <= List.length (snd book))%nat) ->
  (List.length bookmap <= 10)%nat ->
  let out := sample_cell (before ++ (bookname, bookmap) :: after)%list s in
  snd out = inl (IndexError "list index out of range") /\
  List.length (shown (fst out)) = (List.length (shown s) + List.length before)%nat /\
  draws (fst out) = (draws s + List.length before + 1)%nat.
Proof.
  intros Hlong Hshort out. subst out. revert s.
  induction before as [|book rest IH]; intros s.
  - unfold Books.sample_cell. cbn [app for_each fst snd]. unfold bind.
    pose proof (drawn_range s) as Hrange.
    rewrite sample_page_run.
    destruct (nth_error bookmap (Z.to_nat (drawn s))) as [p|] eqn:E.
    + exfalso.
      assert (Hlt : (Z.to_nat (drawn s) < List.length bookmap)%nat)
        by (apply nth_error_Some; congruence).
      lia.
    + cbn. repeat split; lia.
  - unfold Books.sample_cell in *. cbn [app for_each]. unfold bind.
    pose proof (drawn_range s) as Hrange.
    rewrite sample_page_run.
    destruct (nth_error (snd book) (Z.to_nat (drawn s))) as [p|] eqn:E.
    + match goal with
      | |- context [for_each _ _ ?s1] =>
          destruct (IH (fun b Hb => Hlong b (or_intror Hb)) s1) as (Hr & Hshown & Hdraws)
      end.
      rewrite Hr, Hshown, Hdraws. cbn [shown draws List.length].
      rewrite length_app. cbn [List.length]. repeat split; lia.
    + exfalso. apply nth_error_None in E.
      specialize (Hlong book (or_introl eq_refl)). lia.
Qed.

End SampleFacts.

Lemma sampling_is_safe_from_51_pages_witness :
  let long_book := map (fun i => (Z.of_nat i, 0, "text of a page")) (seq 0 51) in
  exists lines,
    Books.sample_cell (fun n => Z.of_nat n * 7) [("a.pdf", long_book)]
      {| shown := []; draws := 0 |}
      = ({| shown := ([] ++ lines)%list; draws := (0 + 1)%nat |}, inr tt) /\
    Forall2 (fun book line =>
               exists i p,
                 (10 <= i <= 50)%nat /\ nth_error (snd book) i = Some p /\
                 line = sample_line (fst book) (slice_to 80 (page_2 p)))
            [("a.pdf", long_book)] lines.
Proof.
  intros long_book.
  apply (sampling_is_safe_from_51_pages (fun n => Z.of_nat n * 7) [("a.pdf", long_book)]
           {| shown := []; draws := 0 |}).
  intros book [<- | []]. cbn [snd]. unfold long_book.
  rewrite length_map, length_seq. lia.
Defined.

Lemma sampling_fails_on_a_short_book_witness :
  let long_book := map (fun i => (Z.of_nat i, 0, "text of a page")) (seq 0 51) in
  let short_book := [(0, 0, "cover"); (1, 5, "the only page")] in
  let s := {| shown := []; draws := 0 |} in
  let out := Books.sample_cell (fun n => Z.of_nat n * 7)
               ([] ++ ("leaflet.pdf", short_book) :: [("a.pdf", long_book)])%list s in
  snd out = inl (IndexError "list index out of range") /\
  List.length (shown (fst out)) = (List.length (shown s) + List.length (@nil (string * list page)))%nat /\
  draws (fst out) = (draws s + List.length (@nil (string * list page)) + 1)%nat.
Proof.
  intros long_book short_book s.
  apply (sampling_fails_on_a_short_book (fun n => Z.of_nat n * 7) []
           [("a.pdf", long_book)] "leaflet.pdf" short_book s).
  - intros book [].
  - simpl. lia.
Defined.

End BooksFacts.

(* ===================================================================== *)
(** ** Facts about the title and the id of an uploaded document *)
(* ===================================================================== *)

Module IdentityFacts.
Import Ingestion Builtins StringFacts StrFacts.

Lemma chars_append (a b : string) :
  list_ascii_of_string (a ++ b) = (list_ascii_of_string a ++ list_ascii_of_string b)%list.
Proof. induction a as [|x a IH]; simpl; [|rewrite IH]; reflexivity. Qed.

(** A text is cut in one way only at the last occurrence of a character. *)
Lemma split_at_last (c : ascii) (a1 a2 s1 s2 : string) :
  ~ In c (list_ascii_of_string s1) -> ~ In c (list_ascii_of_string s2) ->
  a1 ++ String c s1 = a2 ++ String c s2 -> a1 = a2 /\ s1 = s2.
Proof.
  intros H1 H2. revert a2.
  induction a1 as [|x a1 IH]; intros [|y a2] H; simpl in H.
  - injection H as Hs. auto.
  - injection H as Hx Hs. exfalso. apply H1. rewrite Hs, chars_append.
    apply in_or_app. right. left. reflexivity.
  - injection H as Hx Hs. exfalso. apply H2. rewrite <- Hs, chars_append.
    apply in_or_app. right. left. reflexivity.
  - injection H as Hx Hs. destruct (IH a2 Hs) as [-> ->]. subst. auto.
Qed.

Lemma digits_no_underscore (s : string) :
  all_digits s = true -> ~ In "_"%char (list_ascii_of_string s).
Proof.
  induction s as [|x s IH]; simpl; [tauto|].
  intros H. apply andb_prop in H. destruct H as [Hx Hs].
  intros [Hc | Hin]; [subst x; vm_compute in Hx; discriminate Hx | exact (IH Hs Hin)].
Qed.

Lemma str_no_underscore (n : Z) : ~ In "_"%char (list_ascii_of_string (Py.str n)).
Proof.
  destruct n as [|p|p].
  - apply digits_no_underscore. reflexivity.
  - apply digits_no_underscore, str_digits. lia.
  - unfold Py.str. cbn [Z.to_int NilZero.string_of_int list_ascii_of_string].
    intros [H | H]; [discriminate H|].
    revert H. apply digits_no_underscore.
    unfold NilZero.string_of_uint.
    destruct (Pos.to_uint p) eqn:E; try reflexivity;
      rewrite <- E; apply string_of_uint_digits.
Qed.

Lemma all_digits_append (a b : string) :
  all_digits (a ++ b) = all_digits a && all_digits b.
Proof. induction a as [|x a IH]; simpl; [|rewrite IH, andb_assoc]; reflexivity. Qed.

Lemma all_digits_ends_with_digit (s : string) :
  s <> "" -> all_digits s = true -> ends_with_digit s = true.
Proof.
  induction s as [|x s IH]; [congruence|]. intros _ H.
  simpl in H. apply andb_prop in H. destruct H as [Hx Hs].
  destruct s as [|y s]; [exact Hx|].
  change (ends_with_digit (String y s) = true). apply IH; [discriminate | exact Hs].
Qed.

Lemma ends_with_digit_tail (x : ascii) (s : string) :
  ends_with_digit (String x s) = false -> ends_with_digit s = false.
Proof. destruct s; [reflexivity | intros H; exact H]. Qed.

(** A name that does not end in a digit, followed by digits, is cut in
    one way only. *)
Lemma split_at_digits (b1 b2 s1 s2 : string) :
  ends_with_digit b1 = false -> ends_with_digit b2 = false ->
  all_digits s1 = true -> all_digits s2 = true ->
  b1 ++ s1 = b2 ++ s2 -> b1 = b2 /\ s1 = s2.
Proof.
  intros Hb1 Hb2 Hs1 Hs2. revert b2 Hb2.
  induction b1 as [|x b1 IH]; intros [|y b2] Hb2 H; simpl in H.
  - auto.
  - exfalso. subst s1. change (String y (b2 ++ s2)) with (String y b2 ++ s2) in Hs1.
    rewrite all_digits_append in Hs1. apply andb_prop in Hs1. destruct Hs1 as [Hd _].
    rewrite all_digits_ends_with_digit in Hb2; [discriminate | discriminate | exact Hd].
  - exfalso. subst s2. change (String x (b1 ++ s1)) with (String x b1 ++ s1) in Hs2.
    rewrite all_digits_append in Hs2. apply andb_prop in Hs2. destruct Hs2 as [Hd _].
    rewrite all_digits_ends_with_digit in Hb1; [discriminate | discriminate | exact Hd].
  - injection H as Hx Hs. subst y.
    destruct (IH (ends_with_digit_tail _ _ Hb1) b2 (ends_with_digit_tail _ _ Hb2) Hs)
      as [-> ->]. auto.
Qed.

Section DocumentIdentity.

Variable Vector : Type.
Variable text_to_base64 : string -> string.

Abbreviation document_of := (document_of Vector text_to_base64).

(** X1.  The titles of the uploaded documents are one to one: two documents
    with the same title are the same page of the same book. *)
Theorem titles_are_distinct (bookname1 bookname2 : string) (p1 p2 : page) (v1 v2 : Vector) :
  title (document_of bookname1 p1 v1) = title (document_of bookname2 p2 v2) ->
  bookname1 = bookname2 /\ page_0 p1 = page_0 p2.
Proof.
  cbn [document_of Ingestion.document_of title]. intros H.
  assert (Hshape : forall b s, b ++ "_page_" ++ s = (b ++ "_page") ++ String "_" s).
  { intros b s. rewrite append_assoc. reflexivity. }
  rewrite !Hshape in H.
  apply split_at_last in H; try apply str_no_underscore.
  destruct H as [Hb Hs].
  apply append_inv_tail in Hb. apply str_inj in Hs. split; [exact Hb | lia].
Qed.

(** X2.  The ids are not: the text that is encoded is the book name followed by
    the page number with nothing in between, so page [10 * n + d] of a book
    and page [d] of the book whose name is longer by the digits of [n] get
    the same id, whatever the encoding. *)
Theorem ids_collide_on_trailing_digits
    (bookname : string) (n d offset1 offset2 : Z) (text1 text2 : string) (v1 v2 : Vector) :
  1 <= n -> 1 <= d <= 9 ->
  id (document_of (bookname ++ Py.str n) (d - 1, offset1, text1) v1)
  = id (document_of bookname (10 * n + d - 1, offset2, text2) v2).
Proof.
  intros Hn Hd. cbn [document_of Ingestion.document_of id page_0 fst].
  f_equal. rewrite append_assoc. f_equal.
  replace (d - 1 + 1) with d by lia.
  replace (10 * n + d - 1 + 1) with (10 * n + d) by lia.
  symmetry. apply str_last_digit; lia.
Qed.

(** X3.  With an encoding that is one to one and book names that do not end in
    a digit, as the five file names of the notebook, two documents with
    the same id are the same page of the same book. *)
Theorem ids_are_distinct_for_names_without_trailing_digit
    (bookname1 bookname2 : string) (p1 p2 : page) (v1 v2 : Vector) :
  (forall a b, text_to_base64 a = text_to_base64 b -> a = b) ->
  ends_with_digit bookname1 = false -> ends_with_digit bookname2 = false ->
  0 <= page_0 p1 -> 0 <= page_0 p2 ->
  id (document_of bookname1 p1 v1) = id (document_of bookname2 p2 v2) ->
  bookname1 = bookname2 /\ page_0 p1 = page_0 p2.
Proof.
  intros Hinj Hb1 Hb2 Hp1 Hp2. cbn [document_of Ingestion.document_of id]. intros H.
  apply Hinj in H.
  apply split_at_digits in H; try assumption; try (apply str_digits; lia).
  destruct H as [Hb Hs]. apply str_inj in Hs. split; [exact Hb | lia].
Qed.

End DocumentIdentity.

Lemma titles_are_distinct_witness :
  "Made_To_Stick.pdf" = "Made_To_Stick.pdf" /\
  page_0 (4, 0, "one text") = page_0 (4, 17, "another text").
Proof.
  exact (titles_are_distinct nat base64_of_text "Made_To_Stick.pdf" "Made_To_Stick.pdf"
           (4, 0, "one text") (4, 17, "another text") 1%nat 2%nat eq_refl).
Defined.

Lemma ids_collide_on_trailing_digits_witness :
  id (Ingestion.document_of nat base64_of_text ("Book" ++ Py.str 1) (2 - 1, 0, "a") 0%nat)
  = id (Ingestion.document_of nat base64_of_text "Book" (10 * 1 + 2 - 1, 0, "b") 0%nat).
Proof.
  apply (ids_collide_on_trailing_digits nat base64_of_text "Book" 1 2 0 0 "a" "b"
           0%nat 0%nat); lia.
Defined.

Lemma ids_are_distinct_for_names_without_trailing_digit_witness :
  "Made_To_Stick.pdf" = "Made_To_Stick.pdf" /\
  page_0 (3, 0, "one text") = page_0 (3, 9, "another text").
Proof.
  apply (ids_are_distinct_for_names_without_trailing_digit nat (fun text => text)
           "Made_To_Stick.pdf" "Made_To_Stick.pdf"
           (3, 0, "one text") (3, 9, "another text") 1%nat 2%nat).
  - intros a b H. exact H.
  - reflexivity.
  - reflexivity.
  - unfold page_0. cbn [fst]. lia.
  - unfold page_0. cbn [fst]. lia.
  - reflexivity.
Defined.

End IdentityFacts.

(* ===================================================================== *)
(** ** Facts about whole runs of the upload loop *)
(* ===================================================================== *)

Module UploadRunFacts.
Import Ingestion IngestionFacts.

Section Runs.

Variable Vector : Type.
Variable text_to_base64 : string -> string.
Variable embed_query : world Vector -> string -> Py.exn + Vector.
Variable post : world Vector -> upload_payload Vector -> Py.exn + response.

Abbreviation world := (world Vector).
Abbreviation document_of := (document_of Vector text_to_base64).
Abbreviation upload_all := (upload_all Vector text_to_base64 embed_query post).
Abbreviation page_report := (page_report Vector text_to_base64 embed_query post).
Abbreviation after_page := (after_page Vector text_to_base64 embed_query post).
Abbreviation after_pages := (after_pages Vector text_to_base64 embed_query post).
Abbreviation after_book := (after_book Vector text_to_base64 embed_query post).
Abbreviation after_books := (after_books Vector text_to_base64 embed_query post).

(** The pages of a run in the order the loop meets them, each with the
    name of its book. *)
Abbreviation pages_of books :=
  (flat_map (fun book : string * list page => map (fun p => (fst book, p)) (snd book)) books).

(** X4.  No page is sent twice and no request carries more than one
    document.  Over a whole run, whatever the services answer, the embedder
    is called once for each page, in order, and the requests the index
    receives are, in order, the single documents of some of the pages, each
    page at most once and none out of turn, and every page when the
    embedder always answers; each document is to "upload", filed under its
    book's name and address. *)
Theorem at_most_one_request_per_page (books : list (string * list page)) (w : world) :
  embedded (fst (upload_all books w))
    = (embedded w
       ++ map (fun bp : string * page => embedder_input (page_2 (snd bp))) (pages_of books))%list /\
  exists kept sent,
    requests (fst (upload_all books w)) = (requests w ++ sent)%list /\
    Fusion.subseq kept (pages_of books) /\
    Forall2 (fun bp payload =>
               exists v,
                 payload = [document_of (fst bp) (snd bp) v] /\
                 search_action (document_of (fst bp) (snd bp) v) = "upload" /\
                 name (document_of (fst bp) (snd bp) v) = fst bp /\
                 location (document_of (fst bp) (snd bp) v) = BASE_CONTAINER_URL ++ fst bp)
            kept sent /\
    ((forall w0 t, exists v, embed_query w0 t = inr v) -> kept = pages_of books).
Proof.
  rewrite upload_all_total. cbn [fst]. split.
  - rewrite after_books_embedded, book_inputs_of_pages. reflexivity.
  - destruct (after_books_kept Vector text_to_base64 embed_query post books w)
      as (kept & sent & Hreq & Hsub & Hall & Hfull).
    exists kept, sent. split; [exact Hreq|]. split; [exact Hsub|].
    split; [|exact Hfull].
    eapply Forall2_impl; [|exact Hall].
    intros bp payload (v & ->). exists v. repeat split.
Qed.

(** When no call fails, a page changes nothing on the console. *)
Lemma after_pages_all_succeed (bookname : string) (pages : list page) (w : world) :
  (forall w t, exists v, embed_query w t = inr v) ->
  (forall w payload, exists r, post w payload = inr r /\ status_code r = 200) ->
  printed (after_pages bookname pages w) = printed w.
Proof.
  intros Hembed Hpost. revert w. induction pages as [|p pages IH]; intros w.
  - reflexivity.
  - unfold Ingestion.after_pages in *. cbn [fold_left].
    rewrite (IH (after_page bookname p w)).
    cbn [Ingestion.after_page printed].
    unfold Ingestion.page_report.
    destruct (Hembed w (embedder_input (page_2 p))) as (v & ->).
    destruct (Hpost (embedding Vector p w) [document_of bookname p v]) as (r & -> & ->).
    cbn. apply app_nil_r.
Qed.

(** X5.  A run in which the embedder always answers and the index always
    accepts ends normally, prints nothing but the announcement of each
    book, and sends exactly one request for every page: the requests are,
    in the order of the pages, the single document of each page. *)
Theorem silent_when_every_call_succeeds (books : list (string * list page)) (w : world) :
  (forall w t, exists v, embed_query w t = inr v) ->
  (forall w payload, exists r, post w payload = inr r /\ status_code r = 200) ->
  snd (upload_all books w) = inr tt /\
  printed (fst (upload_all books w))
    = (printed w ++ map (fun book => ("Uploading chunks from " ++ fst book)%string) books)%list /\
  exists sent,
    requests (fst (upload_all books w)) = (requests w ++ sent)%list /\
    Forall2 (fun bp payload => exists v, payload = [document_of (fst bp) (snd bp) v])
            (pages_of books) sent.
Proof.
  intros Hembed Hpost. rewrite upload_all_total. cbn [fst snd].
  split; [reflexivity|]. split.
  - revert w. induction books as [|book books IH]; intros w.
    + simpl. rewrite app_nil_r. reflexivity.
    + unfold Ingestion.after_books in *. cbn [fold_left map].
      rewrite (IH (after_book book w)).
      unfold Ingestion.after_book.
      rewrite (after_pages_all_succeed (fst book) (snd book) _ Hembed Hpost).
      cbn [printed]. rewrite <- app_assoc. reflexivity.
  - destruct (after_books_kept Vector text_to_base64 embed_query post books w)
      as (kept & sent & Hreq & _ & Hall & Hfull).
    exists sent. split; [exact Hreq|].
    rewrite <- (Hfull Hembed). exact Hall.
Qed.

End Runs.

Lemma silent_when_every_call_succeeds_witness :
  let run :=
    upload_all nat base64_of_text
      (fun _ text => inr (String.length text))
      (fun _ _ => inr {| status_code := 200; text := "" |})
      [("a.pdf", [(0, 0, "one"); (1, 3, "")]); ("b.pdf", [(0, 0, "two")])]
      empty_world in
  printed (fst run) = ["Uploading chunks from a.pdf"; "Uploading chunks from b.pdf"] /\
  exists sent,
    requests (fst run) = sent /\
    Forall2 (fun bp payload =>
               exists v, payload = [Ingestion.document_of nat base64_of_text (fst bp) (snd bp) v])
            [("a.pdf", (0, 0, "one")); ("a.pdf", (1, 3, "")); ("b.pdf", (0, 0, "two"))] sent.
Proof.
  intros run.
  destruct (silent_when_every_call_succeeds nat base64_of_text
              (fun _ text => inr (String.length text))
              (fun _ _ => inr {| status_code := 200; text := "" |})
              [("a.pdf", [(0, 0, "one"); (1, 3, "")]); ("b.pdf", [(0, 0, "two")])]
              empty_world)
    as (_ & Hprinted & sent & Hreq & Hall).
  - intros w t. eexists. reflexivity.
  - intros w payload. eexists. split; reflexivity.
  - split; [exact Hprinted|]. exists sent. split; [exact Hreq | exact Hall].
Defined.

End UploadRunFacts.

(* ===================================================================== *)
(** ** Facts about the cells around the choice of the chain *)
(* ===================================================================== *)

Module NotebookFacts.
Import Float FloatFacts Selector SelectorFacts Retrieval.

Lemma print_prints_only (line : string) : prints_only (print line).
Proof. intros k. exists [line]. reflexivity. Qed.

Lemma bind_prints_only (m1 m2 : Py.M kernel unit) :
  prints_only m1 -> prints_only m2 -> prints_only (Py.bind m1 (fun _ => m2)).
Proof.
  intros H1 H2 k.
  destruct (H1 k) as (lines1 & E1).
  unfold Py.bind. rewrite E1.
  match goal with |- context [m2 ?k1] => destruct (H2 k1) as (lines2 & E2) end.
  rewrite E2. cbn. exists (lines1 ++ lines2)%list. rewrite app_assoc. reflexivity.
Qed.

Section SelectFacts.

Variable num_tokens_from_string : string -> Z.
Variable model_tokens_limit : string -> Py.exn + Z.
Variable COMBINE_PROMPT_TEMPLATE : string.

Abbreviation select_cell :=
  (select_cell num_tokens_from_string model_tokens_limit COMBINE_PROMPT_TEMPLATE).

Abbreviation requested_of k :=
  (requested_tokens (num_tokens_from_string COMBINE_PROMPT_TEMPLATE)
     (num_tokens_from_docs num_tokens_from_string (g_top_docs k)) COMPLETION_TOKENS).

(** The four ways the selecting cell can go. *)
Lemma select_cell_outcome (k : kernel) :
  (g_top_docs k = [] /\
   select_cell k
   = ({| g_top_docs := g_top_docs k; g_chain_type := g_chain_type k;
         g_chain := g_chain k; g_response := g_response k;
         stdout := (stdout k ++ ["NO RESULTS FROM AZURE SEARCH"])%list;
         completions := completions k |}, inr tt)) \/
  (exists e, g_top_docs k <> [] /\ model_tokens_limit MODEL = inl e /\
             select_cell k = (k, inl e)) \/
  (exists tokens_limit e,
      g_top_docs k <> [] /\ model_tokens_limit MODEL = inr tokens_limit /\
      chain_type (requested_of k) tokens_limit = inl e /\
      select_cell k = (k, inl e)) \/
  (exists tokens_limit ct lines,
      g_top_docs k <> [] /\ model_tokens_limit MODEL = inr tokens_limit /\
      chain_type (requested_of k) tokens_limit = inr ct /\
      select_cell k
      = ({| g_top_docs := g_top_docs k; g_chain_type := Some ct;
            g_chain := g_chain k; g_response := g_response k;
            stdout := (stdout k ++ lines)%list;
            completions := completions k |}, inr tt)).
Proof.
  assert (Hcase : g_top_docs k = [] \/ g_top_docs k <> [])
    by (destruct (g_top_docs k); [left; reflexivity | right; discriminate]).
  destruct Hcase as [Hdocs | Hne].
  - left. split; [exact Hdocs|].
    rewrite (select_cell_empty _ _ _ k Hdocs). reflexivity.
  - right.
    assert (Hlen : (0 <? Z.of_nat (List.length (g_top_docs k))) = true)
      by (apply Z.ltb_lt; destruct (g_top_docs k);
          [congruence | simpl List.length; lia]).
    destruct (model_tokens_limit MODEL) as [e | tokens_limit] eqn:Hlim.
    + left. exists e. split; [exact Hne|]. split; [reflexivity|].
      unfold Selector.select_cell. rewrite Hlen.
      unfold Py.bind at 1. unfold Py.lift at 1. rewrite Hlim. reflexivity.
    + right.
      destruct (chain_type (requested_of k) tokens_limit) as [e | ct] eqn:Hct.
      * left. exists tokens_limit, e.
        split; [exact Hne|]. split; [reflexivity|]. split; [exact Hct|].
        unfold Selector.select_cell. rewrite Hlen.
        unfold Py.bind at 1. unfold Py.lift at 1. rewrite Hlim.
        unfold Py.bind at 1. unfold Py.lift at 1. rewrite Hct. reflexivity.
      * right.
        assert (Hprints : forall rest, prints_only rest ->
                  exists lines,
                    Py.bind (set_chain_type ct) (fun _ => rest) k
                    = ({| g_top_docs := g_top_docs k; g_chain_type := Some ct;
                          g_chain := g_chain k; g_response := g_response k;
                          stdout := (stdout k ++ lines)%list;
                          completions := completions k |}, inr tt)).
        { intros rest Hrest. unfold Py.bind.
          destruct (Hrest (fst (set_chain_type ct k))) as (lines & Hrun).
          exists lines. cbn [set_chain_type Py.modify fst] in *. rewrite Hrun.
          reflexivity. }
        unfold Selector.select_cell. rewrite Hlen.
        unfold Py.bind at 1. unfold Py.lift at 1. rewrite Hlim.
        unfold Py.bind at 1. unfold Py.lift at 1. rewrite Hct.
        match goal with
        | |- context [Py.bind (set_chain_type ct) (fun _ => ?rest)] =>
            destruct (Hprints rest) as (lines & Hrun);
              [repeat apply bind_prints_only; apply print_prints_only|]
        end.
        exists tokens_limit, ct, lines.
        split; [exact Hne|]. split; [reflexivity|]. split; [exact Hct|].
        exact Hrun.
Qed.

(** X6.  What the selecting cell never does: whatever the table of models and
    the tokenizer answer, it sends nothing to the completion service and
    leaves the documents, the chain and the last response alone; and when
    it raises (the model is not in the table, or the window is too large
    for a double) it has printed nothing and [chain_type] keeps the value
    of the question before. *)
Theorem selecting_cell_frame (k : kernel) :
  let out := select_cell k in
  g_top_docs (fst out) = g_top_docs k /\
  g_chain (fst out) = g_chain k /\
  g_response (fst out) = g_response k /\
  completions (fst out) = completions k /\
  (forall e, snd out = inl e <->
     g_top_docs k <> [] /\
     (model_tokens_limit MODEL = inl e \/
      exists tokens_limit,
        model_tokens_limit MODEL = inr tokens_limit /\
        float_of_int tokens_limit = inl e)) /\
  (forall e, snd out = inl e -> fst out = k).
Proof.
  intros out. subst out.
  destruct (select_cell_outcome k)
    as [[Hdocs ->] | [(e0 & Hne & Hlim & ->) | [(L & e0 & Hne & Hlim & Hct & ->)
        | (L & ct & lines & Hne & Hlim & Hct & ->)]]]; cbn [fst snd];
    (split; [reflexivity|]); (split; [reflexivity|]); (split; [reflexivity|]);
    (split; [reflexivity|]); (split; [|try discriminate; auto]); intros e; split.
  - discriminate.
  - intros [Hne _]. contradiction.
  - intros [= <-]. auto.
  - intros [_ [H | (L & H & _)]]; congruence.
  - intros [= <-]. split; [exact Hne|]. right. exists L. split; [exact Hlim|].
    unfold chain_type in Hct. destruct (float_of_int L); [congruence | discriminate].
  - intros [_ [H | (L' & H & Hf)]]; [congruence|].
    assert (L' = L) by congruence. subst L'.
    unfold chain_type in Hct. rewrite Hf in Hct. congruence.
  - discriminate.
  - intros [_ [H | (L' & H & Hf)]]; [congruence|].
    assert (L' = L) by congruence. subst L'.
    unfold chain_type in Hct. rewrite Hf in Hct. discriminate.
Qed.

(** X7.  The cell that builds the chain agrees with the cell before it: when
    the selecting cell has run on documents, the next cell ends normally,
    prints nothing, sends nothing, and binds [chain] to the chain of the
    type just selected, one of the two the notebook knows. *)
Theorem built_chain_matches_selection (k k1 : kernel) :
  g_top_docs k <> [] ->
  select_cell k = (k1, inr tt) ->
  exists k2,
    build_cell k1 = (k2, inr tt) /\
    ((g_chain_type k2 = Some "stuff" /\ g_chain k2 = Some StuffChain) \/
     (g_chain_type k2 = Some "map_reduce" /\ g_chain k2 = Some MapReduceChain)) /\
    stdout k2 = stdout k1 /\ completions k2 = completions k /\
    g_top_docs k2 = g_top_docs k.
Proof.
  intros Hne Hrun.
  destruct (select_cell_outcome k)
    as [[Hdocs _] | [(e0 & _ & _ & E) | [(L & e0 & _ & _ & _ & E)
        | (L & ct & lines & _ & Hlim & Hct & E)]]]; try congruence.
  rewrite E in Hrun. injection Hrun as <-.
  unfold chain_type in Hct. destruct (float_of_int L) as [e | limit]; [discriminate|].
  injection Hct as <-.
  destruct (int_gt_float _ _); eexists; (split; [reflexivity|]); cbn; auto.
Qed.

(** X8.  The budget the test leaves for the documents: for a window a table
    of models can hold, "stuff" is selected exactly when the documents
    take no more than nine tenths of the window, rounded down, less the
    prompt and the completion budget; so a larger window never turns
    "stuff" into "map_reduce". *)
Theorem stuff_budget (prompt_tokens context_tokens completion_tokens tokens_limit : Z) :
  0 <= tokens_limit < 2 ^ 48 ->
  (chain_type (requested_tokens prompt_tokens context_tokens completion_tokens) tokens_limit
     = inr "stuff"
   <-> context_tokens <= 9 * tokens_limit / 10 - prompt_tokens - completion_tokens) /\
  (forall larger,
     tokens_limit <= larger < 2 ^ 48 ->
     chain_type (requested_tokens prompt_tokens context_tokens completion_tokens) tokens_limit
       = inr "stuff" ->
     chain_type (requested_tokens prompt_tokens context_tokens completion_tokens) larger
       = inr "stuff").
Proof.
  intros Hrange.
  assert (Hrule : forall limit, 0 <= limit < 2 ^ 48 ->
            (chain_type (requested_tokens prompt_tokens context_tokens completion_tokens) limit
               = inr "stuff"
             <-> 10 * (prompt_tokens + context_tokens + completion_tokens) <= 9 * limit)).
  { intros limit Hl. rewrite (chain_type_exact _ limit Hl). unfold requested_tokens.
    destruct (9 * limit <? 10 * (prompt_tokens + context_tokens + completion_tokens)) eqn:E.
    - apply Z.ltb_lt in E. split; [discriminate | lia].
    - apply Z.ltb_ge in E. split; [intros _; exact E | reflexivity]. }
  split.
  - rewrite (Hrule _ Hrange).
    pose proof (Z.div_mod (9 * tokens_limit) 10 ltac:(lia)) as Hdm.
    pose proof (Z.mod_pos_bound (9 * tokens_limit) 10 ltac:(lia)) as Hmod.
    split; intros H; lia.
  - intros larger Hl H.
    apply (Hrule _ Hrange) in H. apply (Hrule larger); lia.
Qed.

End SelectFacts.

Section TopDocsFacts.

Variable BLOB_SAS_TOKEN : string.

Abbreviation document_of_result := (document_of_result BLOB_SAS_TOKEN).
Abbreviation top_docs_cell := (top_docs_cell BLOB_SAS_TOKEN).

Lemma append_loop (results : list (string * search_result)) (k : kernel) :
  Py.for_each results
    (fun item => append_top_doc (document_of_result (snd item))) k
  = ({| g_top_docs := (g_top_docs k ++ map (fun item => document_of_result (snd item)) results)%list;
        g_chain_type := g_chain_type k; g_chain := g_chain k;
        g_response := g_response k; stdout := stdout k;
        completions := completions k |}, inr tt).
Proof.
  revert k. induction results as [|item results IH]; intros k.
  - cbn. rewrite app_nil_r. destruct k; reflexivity.
  - cbn [Py.for_each map]. unfold Py.bind.
    unfold append_top_doc at 1. cbn [set_top_docs Py.modify].
    rewrite IH. cbn. rewrite <- app_assoc. reflexivity.
Qed.

(** The cell as one step. *)
Lemma top_docs_cell_run (ordered_results : list (string * search_result)) (k : kernel) :
  top_docs_cell ordered_results k
  = ({| g_top_docs := map (fun item => document_of_result (snd item)) ordered_results;
        g_chain_type := g_chain_type k; g_chain := g_chain k;
        g_response := g_response k;
        stdout := (stdout k ++ [("Number of chunks: "
                      ++ Py.str (Z.of_nat (List.length ordered_results)))%string])%list;
        completions := completions k |}, inr tt).
Proof.
  unfold Retrieval.top_docs_cell. unfold Py.bind at 1. cbn [set_top_docs Py.modify].
  unfold Py.bind at 1. rewrite append_loop. cbn. rewrite length_map. reflexivity.
Qed.

(** X9.  The cell that prepares the documents for the chain starts from an
    empty list: whatever [top_docs] held, afterwards it holds one document
    for every search result, in the order of the results, with the chunk
    as content and the location (the empty text for a missing one)
    followed by the access token as source; the count it prints is the
    number of results, and nothing else of the kernel changes. *)
Theorem top_docs_follow_the_results
    (ordered_results : list (string * search_result)) (k : kernel) :
  top_docs_cell ordered_results k
  = ({| g_top_docs := map (fun item => document_of_result (snd item)) ordered_results;
        g_chain_type := g_chain_type k; g_chain := g_chain k;
        g_response := g_response k;
        stdout := (stdout k ++ [("Number of chunks: "
                      ++ Py.str (Z.of_nat (List.length ordered_results)))%string])%list;
        completions := completions k |}, inr tt) /\
  map page_content (g_top_docs (fst (top_docs_cell ordered_results k)))
    = map (fun item => result_chunk (snd item)) ordered_results /\
  (forall key chunk,
      In (key, {| result_chunk := chunk; result_location := None |}) ordered_results ->
      In {| page_content := chunk; source := BLOB_SAS_TOKEN |}
         (g_top_docs (fst (top_docs_cell ordered_results k)))).
Proof.
  split; [apply top_docs_cell_run|]. rewrite top_docs_cell_run. cbn [fst g_top_docs]. split.
  - rewrite map_map. reflexivity.
  - intros key chunk Hin. apply in_map_iff.
    exists (key, {| result_chunk := chunk; result_location := None |}).
    split; [reflexivity | exact Hin].
Qed.

(** X11.  The source cited for a chunk is the address its book was downloaded
    from: the location the upload loop stores for a page is the address of
    the book in the container, and the documents cell adds the access
    token the download loop had added. *)
Theorem cited_source_is_the_download_address
    (Vector : Type) (text_to_base64 : string -> string)
    (bookname chunk : string) (p : Ingestion.page) (v : Vector) :
  source (document_of_result
            {| result_chunk := chunk;
               result_location :=
                 Some (Ingestion.location
                         (Ingestion.document_of Vector text_to_base64 bookname p v)) |})
  = Books.download_url BLOB_SAS_TOKEN bookname.
Proof.
  cbn [Retrieval.document_of_result result_location result_chunk source
       Ingestion.document_of Ingestion.location].
  unfold Books.download_url. apply StringFacts.append_assoc.
Qed.

Variable num_tokens_from_string : string -> Z.
Variable model_tokens_limit : string -> Py.exn + Z.
Variable COMBINE_PROMPT_TEMPLATE : string.

Lemma tokens_of_results (ordered_results : list (string * search_result)) :
  num_tokens_from_docs num_tokens_from_string
    (map (fun item => document_of_result (snd item)) ordered_results)
  = fold_right Z.add 0
      (map (fun item => num_tokens_from_string (result_chunk (snd item))) ordered_results).
Proof.
  induction ordered_results as [|item rest IH]; [reflexivity|].
  cbn [map num_tokens_from_docs fold_right]. rewrite IH. reflexivity.
Qed.

(** X10.  From the search results to the chain type: the two cells in a row end
    normally; with no result the message is printed and [chain_type] keeps
    whatever it was bound to before; with results it is bound by the
    tokens of the chunks alone (the locations and the token of the store
    do not count): "map_reduce" exactly when ten times the prompt, the
    chunks and the completion budget exceed nine times the window. *)
Theorem chain_type_from_search_results
    (ordered_results : list (string * search_result)) (k : kernel) (tokens_limit : Z) :
  model_tokens_limit MODEL = inr tokens_limit ->
  0 <= tokens_limit < 2 ^ 48 ->
  let cells :=
    Py.bind (top_docs_cell ordered_results)
      (fun _ => Selector.select_cell num_tokens_from_string model_tokens_limit
                  COMBINE_PROMPT_TEMPLATE) in
  let chunk_tokens :=
    fold_right Z.add 0
      (map (fun item => num_tokens_from_string (result_chunk (snd item))) ordered_results) in
  snd (cells k) = inr tt /\
  completions (fst (cells k)) = completions k /\
  g_chain_type (fst (cells k)) =
    match ordered_results with
    | [] => g_chain_type k
    | _ :: _ =>
        Some (if 9 * tokens_limit
                 <? 10 * (num_tokens_from_string COMBINE_PROMPT_TEMPLATE + chunk_tokens
                          + COMPLETION_TOKENS)
              then "map_reduce" else "stuff")
    end /\
  (ordered_results = [] ->
   stdout (fst (cells k))
   = (stdout k ++ ["Number of chunks: 0"; "NO RESULTS FROM AZURE SEARCH"])%list).
Proof.
  intros Hlim Hrange cells chunk_tokens. subst cells chunk_tokens.
  unfold Py.bind.
  rewrite top_docs_cell_run.
  match goal with
  | |- context [Selector.select_cell _ _ _ ?k1] => set (k1' := k1)
  end.
  destruct (select_cell_outcome num_tokens_from_string model_tokens_limit
              COMBINE_PROMPT_TEMPLATE k1')
    as [[Hdocs ->] | [(e0 & Hne & Hlim' & _) | [(L & e0 & Hne & Hlim' & Hct & _)
        | (L & ct & lines & Hne & Hlim' & Hct & ->)]]]; cbn [fst snd].
  - subst k1'. cbn [g_top_docs] in Hdocs.
    destruct ordered_results; [|discriminate Hdocs].
    cbn. rewrite <- app_assoc. auto.
  - congruence.
  - assert (L = tokens_limit) by congruence. subst L.
    rewrite (chain_type_exact _ tokens_limit Hrange) in Hct. discriminate.
  - assert (L = tokens_limit) by congruence. subst L.
    rewrite (chain_type_exact _ tokens_limit Hrange) in Hct. injection Hct as <-.
    subst k1'. cbn [g_top_docs g_chain_type completions] in *.
    destruct ordered_results as [|item rest]; [exfalso; apply Hne; reflexivity|].
    split; [reflexivity|]. split; [reflexivity|]. split; [|discriminate].
    rewrite tokens_of_results. unfold requested_tokens. reflexivity.
Qed.

End TopDocsFacts.

Lemma built_chain_matches_selection_witness :
  let k := fresh_kernel [example_doc] in
  let k1 := fst (Selector.select_cell example_tokenizer example_table "prompt" k) in
  exists k2,
    build_cell k1 = (k2, inr tt) /\
    ((g_chain_type k2 = Some "stuff" /\ g_chain k2 = Some StuffChain) \/
     (g_chain_type k2 = Some "map_reduce" /\ g_chain k2 = Some MapReduceChain)) /\
    stdout k2 = stdout k1 /\ completions k2 = completions k /\
    g_top_docs k2 = g_top_docs k.
Proof.
  intros k k1.
  apply (built_chain_matches_selection example_tokenizer example_table "prompt" k k1).
  - discriminate.
  - vm_compute. reflexivity.
Defined.

Lemma stuff_budget_witness :
  chain_type (requested_tokens 1669 3529 1000) 16384 = inr "stuff"
  <-> 3529 <= 9 * 16384 / 10 - 1669 - 1000.
Proof.
  assert (Hrange : 0 <= 16384 < 2 ^ 48) by (split; [lia | reflexivity]).
  exact (proj1 (stuff_budget 1669 3529 1000 16384 Hrange)).
Defined.

Lemma chain_type_from_search_results_witness :
  g_chain_type
    (fst (Py.bind
            (Retrieval.top_docs_cell "?sv=token"
               [("id1", {| result_chunk := "a page about vector indexes";
                           result_location := Some "https://store/books/a.pdf" |});
                ("id2", {| result_chunk := "a page without location";
                           result_location := None |})])
            (fun _ => Selector.select_cell example_tokenizer example_table "prompt")
            (fresh_kernel [])))
  = Some "stuff".
Proof.
  assert (Hlim : example_table MODEL = inr 16384) by reflexivity.
  assert (Hrange : 0 <= 16384 < 2 ^ 48) by (split; [lia | reflexivity]).
  pose proof (chain_type_from_search_results "?sv=token" example_tokenizer example_table
                "prompt"
                [("id1", {| result_chunk := "a page about vector indexes";
                            result_location := Some "https://store/books/a.pdf" |});
                 ("id2", {| result_chunk := "a page without location";
                            result_location := None |})]
                (fresh_kernel []) 16384 Hlim Hrange) as H.
  cbv zeta in H. destruct H as (_ & _ & H & _).
  rewrite H. reflexivity.
Defined.

End NotebookFacts.

(* ===================================================================== *)
(** ** Facts about the indexer status cell and the formatters *)
(* ===================================================================== *)

Module IndexerFacts.
Import Builtins Indexer.

Section StatusFacts.

Variable AZURE_SEARCH_ENDPOINT : string.
Variable requests_get : session -> string -> Py.exn + response.

Abbreviation status_url := (status_url AZURE_SEARCH_ENDPOINT).
Abbreviation status_cell := (status_cell AZURE_SEARCH_ENDPOINT requests_get).

(** [r.json().get('lastResult').get(key)] leaves the session alone. *)
Lemma last_result_run (r : response) (key : string) (s : session) :
  last_result r key s
  = (s, match json_body r with
        | inl e => inl (Raised e)
        | inr body =>
            match get body "lastResult" with
            | inl e => inl e
            | inr result => get result key
            end
        end).
Proof.
  unfold last_result, bind, lift_py, lift.
  destruct (json_body r) as [e | body]; [reflexivity|].
  destruct (get body "lastResult"); reflexivity.
Qed.

(** The cell, once the service has answered. *)
Lemma status_cell_run (indexer_name : string) (s : session) (r : response) :
  requests_get s (status_url indexer_name) = inr r ->
  let s1 := {| lines := (lines s ++ [[Number (status_code r)]])%list;
               requested := (requested s ++ [status_url indexer_name])%list |} in
  status_cell indexer_name s
  = match json_body r with
    | inl e => (s1, inl (Raised e))
    | inr body =>
        match get body "lastResult" with
        | inl e => (s1, inl e)
        | inr result =>
            match get result "status", get result "itemsProcessed" with
            | inr status, inr items =>
                ({| lines := (lines s ++ [ [Number (status_code r)];
                                           [Text "Status:"; Value status];
                                           [Text "Items Processed:"; Value items];
                                           [Truth (ok r)] ])%list;
                    requested := (requested s ++ [status_url indexer_name])%list |},
                 inr tt)
            | inl e, _ => (s1, inl e)
            | inr _, inl e => (s1, inl e)
            end
        end
    end.
Proof.
  intros Hget s1. subst s1.
  unfold Indexer.status_cell. unfold bind at 1. unfold call_get at 1. rewrite Hget.
  unfold bind at 1. unfold print at 1. cbn [lines requested].
  unfold bind at 1. rewrite last_result_run.
  destruct (json_body r) as [e | body] eqn:Hbody; [reflexivity|].
  destruct (get body "lastResult") as [e | result] eqn:Hresult; [reflexivity|].
  destruct (get result "status") as [e | status] eqn:Hstatus.
  { destruct (get result "itemsProcessed"); reflexivity. }
  unfold bind at 1. unfold print at 1. cbn [lines requested].
  unfold bind at 1. rewrite last_result_run, Hbody, Hresult.
  destruct (get result "itemsProcessed") as [e | items] eqn:Hitems.
  { destruct result; cbn [get] in Hstatus, Hitems; congruence. }
  unfold bind at 1. unfold print at 1. cbn [lines requested].
  unfold print. cbn [lines requested]. rewrite <- !app_assoc. reflexivity.
Qed.

(** X18.  The status cell depends on the indexer having run.  The address asked
    for is the endpoint, "/indexers/", the indexer's name, "/status".
    When the body is an object whose ["lastResult"] is an object the cell
    prints the status code, the two values (None for a key that is
    missing) and [r.ok]; when ["lastResult"] is missing or null, as for an
    indexer that has not run yet, the cell raises [AttributeError] after
    the status code alone, and [r.ok] is never printed. *)
Theorem indexer_status_needs_last_result
    (indexer_name : string) (s : session) (r : response) :
  requests_get s (status_url indexer_name) = inr r ->
  let out := status_cell indexer_name s in
  requested (fst out)
    = (requested s
       ++ [(AZURE_SEARCH_ENDPOINT ++ "/indexers/" ++ indexer_name ++ "/status")%string])%list /\
  (forall top fields,
      json_body r = inr (JObject top) ->
      dict_get "lastResult" top = Some (JObject fields) ->
      out = ({| lines :=
                  (lines s
                   ++ [ [Number (status_code r)];
                        [Text "Status:";
                         Value match dict_get "status" fields with
                               | Some v => v
                               | None => JNull
                               end];
                        [Text "Items Processed:";
                         Value match dict_get "itemsProcessed" fields with
                               | Some v => v
                               | None => JNull
                               end];
                        [Truth (ok r)] ])%list;
                requested := (requested s ++ [status_url indexer_name])%list |}, inr tt)) /\
  (forall top,
      json_body r = inr (JObject top) ->
      dict_get "lastResult" top = None \/ dict_get "lastResult" top = Some JNull ->
      out = ({| lines := (lines s ++ [[Number (status_code r)]])%list;
                requested := (requested s ++ [status_url indexer_name])%list |},
             inl (AttributeError "'NoneType' object has no attribute 'get'"))) /\
  (snd out = inr tt <->
   exists top fields,
     json_body r = inr (JObject top) /\
     dict_get "lastResult" top = Some (JObject fields)).
Proof.
  intros Hget out. subst out.
  rewrite (status_cell_run indexer_name s r Hget). cbv zeta.
  split; [|split; [|split]].
  - destruct (json_body r) as [e | body]; [reflexivity|].
    destruct (get body "lastResult") as [e | result]; [reflexivity|].
    destruct (get result "status"); [reflexivity|].
    destruct (get result "itemsProcessed"); reflexivity.
  - intros top fields -> Hlast. cbn [get]. rewrite Hlast. reflexivity.
  - intros top -> [Hlast | Hlast]; cbn [get]; rewrite Hlast; reflexivity.
  - destruct (json_body r) as [e | body]; cbn [snd].
    + split; [discriminate | intros (top & fields & H & _); discriminate].
    + destruct body; cbn [get snd];
        try (split; [discriminate | intros (top & fields0 & H & _); discriminate]).
      destruct (dict_get "lastResult" fields) as [result|] eqn:Hlast.
      * destruct result; cbn [get type_name snd];
          try (split; [discriminate
                      | intros (top & fields0 & H & Hl); injection H as <-;
                        rewrite Hlast in Hl; discriminate]).
        split; [intros _; eauto | reflexivity].
      * cbn [get type_name snd].
        split; [discriminate
               | intros (top & fields0 & H & Hl); injection H as <-;
                 rewrite Hlast in Hl; discriminate].
Qed.

End StatusFacts.

Lemma indexer_status_needs_last_result_witness :
  snd (status_cell "https://search.example"
         (fun _ _ => inr {| status_code := 200; ok := true;
                            json_body := inr (JObject [("lastResult", JNull)]) |})
         "cogsrch-indexer-files" {| lines := []; requested := [] |})
  = inl (AttributeError "'NoneType' object has no attribute 'get'").
Proof.
  pose proof (indexer_status_needs_last_result "https://search.example"
                (fun _ _ => inr {| status_code := 200; ok := true;
                                   json_body := inr (JObject [("lastResult", JNull)]) |})
                "cogsrch-indexer-files" {| lines := []; requested := [] |}
                {| status_code := 200; ok := true;
                   json_body := inr (JObject [("lastResult", JNull)]) |} eq_refl) as H.
  cbv zeta in H. destruct H as (_ & _ & H & _).
  rewrite (H [("lastResult", JNull)] eq_refl (or_intror eq_refl)). reflexivity.
Defined.

End IndexerFacts.

Module FormattersFacts.
Import Builtins BuiltinsFacts StringFacts Formatters.

(** X19.  The preview is the text itself and three dots for a text of at
    most 30 characters, and never has more than 33 characters: what comes
    after the thirtieth character has no effect on it.  Characters are
    counted, not bytes. *)
Theorem preview_shows_thirty_characters (text : string) :
  len (preview text) = (Nat.min 30 (len text) + 3)%nat /\
  ((len text <= 30)%nat -> preview text = text ++ "...") /\
  (forall tail,
      (30 <= len text)%nat -> starts_character tail = true ->
      preview (text ++ tail) = preview text).
Proof.
  unfold preview. split; [|split].
  - rewrite len_append, slice_to_length. reflexivity.
  - intros H. rewrite slice_to_short by exact H. reflexivity.
  - intros tail H Htail. rewrite slice_to_append by assumption. reflexivity.
Qed.

(** A text of 31 letters of two bytes each: the preview keeps 30 of
    them. *)
Example preview_of_accented_letters :
  let letters := fun n => String.concat "" (List.repeat "é" n) in
  String.length "é" = 2%nat /\ len "é" = 1%nat /\
  len (letters 31%nat) = 31%nat /\
  preview (letters 31%nat) = letters 30%nat ++ "...".
Proof. vm_compute. repeat split. Qed.

(** X20.  The link carries the address twice, as it is: its length is twice the
    length of the address plus the 15 characters of the markup, and two
    addresses with the same link are the same. *)
Theorem make_clickable_is_one_to_one (address : string) :
  String.length (make_clickable address) = (2 * String.length address + 15)%nat /\
  (forall other, make_clickable address = make_clickable other -> address = other).
Proof.
  assert (Hlen : forall a, String.length (make_clickable a) = (2 * String.length a + 15)%nat).
  { intros a. unfold make_clickable. rewrite !length_append. cbn. lia. }
  split; [apply Hlen|].
  intros other H.
  assert (Hsame : String.length address = String.length other).
  { pose proof (f_equal String.length H) as Hl. rewrite !Hlen in Hl. lia. }
  unfold make_clickable in H. apply append_inv_head in H. apply append_inv_head in H.
  apply (append_same_length _ _ _ _ Hsame) in H. tauto.
Qed.

End FormattersFacts.
